(** * forum_api.py: a shallow embedding and its specification

    The program is a command-line client for the GraphQL endpoints of
    LessWrong, the EA Forum and the Alignment Forum.  This file embeds
    [scripts/forum_api.py] function by function and proves the properties
    its specification states about forum resolution, the GraphQL transport,
    the recency filter, tag search, the activity aggregators and the text
    rendering of a user's activity.  Its last part proves further
    properties of the code: what the functions do on answers that lack
    what they look for, what they send and read, what the two reports
    print, and how [main] ends.

    Conventions of the embedding.
    - A Python [str] is a [string]; a character is a code point below 256,
      on which [lower], [strip] and slicing act as CPython's do.  Text
      beyond that range, where [lower] no longer works letter by letter, is
      held by [Wide] as a list of code points.
    - A decoded JSON document is a [json] value; a JSON object is an
      association list in document order, as a Python [dict] keeps it.
    - A Python exception is an [exn]; a call that may raise returns a
      [result].
    - The clock, the network and the standard output form a [World] that the
      effectful functions thread explicitly ([IO]).
    - The functions of the Python runtime that the program calls and that
      have no counterpart here ([datetime.fromisoformat], [strftime], the
      [repr] of a decoded value) are fields of a [Runtime]; those that only
      [main] calls ([json.dumps], [isoformat], the text of an exception,
      the help of the parser) are fields of a [Cli]. *)

From Stdlib Require Import String Ascii List ZArith Bool Lia.
From Stdlib Require Import Numbers.DecimalString.
From Stdlib Require Floats.SpecFloat.
Import ListNotations.

Local Open Scope list_scope.
Local Open Scope string_scope.

(** ** Python strings *)

Module Str.

Definition ord (c : ascii) : nat := nat_of_ascii c.
Definition chr (n : nat) : ascii := ascii_of_nat n.

(** Code points below 256 that [str.lower] changes: A-Z, and the Latin-1
    capitals U+00C0-U+00DE without the multiplication sign U+00D7. *)
Definition is_capital (c : ascii) : bool :=
  let n := ord c in
  (((65 <=? n) && (n <=? 90)) || ((192 <=? n) && (n <=? 222) && negb (n =? 215)))%nat.

Definition lower_char (c : ascii) : ascii :=
  if is_capital c then chr (ord c + 32) else c.

(** [s.lower()] *)
Fixpoint lower (s : string) : string :=
  match s with
  | EmptyString => EmptyString
  | String c s' => String (lower_char c) (lower s')
  end.

(** [c.isspace()] on code points below 256. *)
Definition isspace (c : ascii) : bool :=
  let n := ord c in
  (((9 <=? n) && (n <=? 13)) || ((28 <=? n) && (n <=? 32)) || (n =? 133) || (n =? 160))%nat.

Fixpoint lstrip (s : string) : string :=
  match s with
  | EmptyString => EmptyString
  | String c s' => if isspace c then lstrip s' else s
  end.

Fixpoint rstrip (s : string) : string :=
  match s with
  | EmptyString => EmptyString
  | String c s' =>
      match rstrip s' with
      | EmptyString => if isspace c then EmptyString else String c EmptyString
      | r => String c r
      end
  end.

(** [s.strip()] *)
Definition strip (s : string) : string := rstrip (lstrip s).

(** [s.replace(old, new)] for a pattern [old] of one character, the only
    form the program uses ([.replace("Z", "+00:00")]): every occurrence is
    replaced. *)
Fixpoint replace (old : ascii) (new s : string) : string :=
  match s with
  | EmptyString => EmptyString
  | String c s' =>
      if Ascii.eqb c old then new ++ replace old new s'
      else String c (replace old new s')
  end.

(** [needle in hay] on two strings: substring search. *)
Fixpoint contains (needle hay : string) : bool :=
  prefix needle hay ||
  match hay with
  | EmptyString => false
  | String _ hay' => contains needle hay'
  end.

(** [s[:n]] for a literal [n >= 0]. *)
Definition take (n : nat) (s : string) : string := substring 0 n s.

(** [sep.join(parts)] *)
Definition join (sep : string) (parts : list string) : string := String.concat sep parts.

(** [c * n] for a one-character string [c]. *)
Fixpoint repeat (c : ascii) (n : nat) : string :=
  match n with
  | O => EmptyString
  | S n' => String c (repeat c n')
  end.

(** [str(z)] of an [int]. *)
Definition of_Z (z : Z) : string := NilZero.string_of_int (Z.to_int z).

(** The double quote and the line feed, which no literal here spells. *)
Definition dquote : string := String (chr 34) EmptyString.
Definition nl : string := String (chr 10) EmptyString.

End Str.

(** ** Text beyond code point 255

    [str.lower()] does not work character by character on all text: a
    capital sigma becomes the final sigma where CPython finds it at the end
    of a word.  [Wide] holds text as the list of its code points and gives
    [lower] as CPython computes it on the letters A-Z, a-z, the Greek
    capitals U+0391-U+03A9 and small letters U+03B1-U+03C9, and the
    punctuation of Basic Latin. *)

Module Wide.

Local Open Scope N_scope.

Definition text : Type := list N.

Definition is_upper (c : N) : bool :=
  ((0x41 <=? c) && (c <=? 0x5A)) || ((0x391 <=? c) && (c <=? 0x3A9) && negb (c =? 0x3A2)).

Definition is_lower (c : N) : bool :=
  ((0x61 <=? c) && (c <=? 0x7A)) || ((0x3B1 <=? c) && (c <=? 0x3C9)).

(** [_PyUnicode_IsCased] *)
Definition is_cased (c : N) : bool := is_upper c || is_lower c.

(** [_PyUnicode_IsCaseIgnorable]: the apostrophe, the full stop, the
    colon, the circumflex and the grave accent. *)
Definition is_case_ignorable (c : N) : bool :=
  (c =? 0x27) || (c =? 0x2E) || (c =? 0x3A) || (c =? 0x5E) || (c =? 0x60).

(** The small letter of a capital, 32 code points further. *)
Definition to_lower (c : N) : N := if is_upper c then c + 32 else c.

(** The first character of [s] that is not case-ignorable. *)
Fixpoint skip_ignorable (s : text) : option N :=
  match s with
  | [] => None
  | c :: s' => if is_case_ignorable c then skip_ignorable s' else Some c
  end.

(** [handle_capital_sigma]: U+03A3 becomes the final sigma U+03C2 when
    the nearest character before it that is not case-ignorable is cased,
    and the nearest one after it, if any, is not; U+03C3 otherwise. *)
Definition handle_capital_sigma (before_reversed after : text) : N :=
  let final_sigma :=
    match skip_ignorable before_reversed with
    | Some c =>
        is_cased c
        && match skip_ignorable after with
           | Some d => negb (is_cased d)
           | None => true
           end
    | None => false
    end in
  if final_sigma then 0x3C2 else 0x3C3.

Fixpoint lower_from (before_reversed s : text) : text :=
  match s with
  | [] => []
  | c :: s' =>
      (if c =? 0x3A3 then handle_capital_sigma before_reversed s' else to_lower c)
      :: lower_from (c :: before_reversed) s'
  end.

(** [s.lower()] *)
Definition lower (s : text) : text := lower_from [] s.

Fixpoint starts_with (needle hay : text) : bool :=
  match needle, hay with
  | [], _ => true
  | _ :: _, [] => false
  | a :: needle', b :: hay' => (a =? b) && starts_with needle' hay'
  end.

(** [needle in hay] *)
Fixpoint contains (needle hay : text) : bool :=
  starts_with needle hay ||
  match hay with
  | [] => false
  | _ :: hay' => contains needle hay'
  end.

(** The test of the comprehension of [search_tags] on the names of the
    tags: [[name for name in names if query_str.lower() in name.lower()]]. *)
Definition matching (query_str : text) (names : list text) : list text :=
  filter (fun name => contains (lower query_str) (lower name)) names.


End Wide.

(** ** Exceptions and results *)

(** The exceptions the program can raise or let through. *)
Inductive exn : Type :=
| ValueError (msg : string)
| KeyError (key : string)
| TypeError
| AttributeError
| OverflowError
| HTTPError (status : Z)      (* requests.HTTPError, from raise_for_status *)
| RequestException            (* requests.post could not get a response *)
| JSONDecodeError             (* response.json() on a body that is not JSON *)
| PyException (msg : string). (* raise Exception(msg) *)

Inductive result (A : Type) : Type :=
| Ok (a : A)
| Raise (e : exn).

Arguments Ok {A} a.
Arguments Raise {A} e.

Definition bind {A B : Type} (r : result A) (k : A -> result B) : result B :=
  match r with
  | Ok a => k a
  | Raise e => Raise e
  end.

Notation "'let?' x ':=' r 'in' k" := (bind r (fun x => k))
  (at level 10, x name, r at level 100, k at level 200).

(** ** Decoded JSON values and the Python operations on them *)

#[warnings="-register-all"]
Inductive json : Type :=
| JNull
| JBool (b : bool)
| JInt (z : Z)
| JFloat (f : SpecFloat.spec_float)
| JStr (s : string)
| JList (l : list json)
| JDict (d : list (string * json)).

Module Py.

(** The value a [dict] holds under [key]. *)
Fixpoint lookup (key : string) (d : list (string * json)) : option json :=
  match d with
  | [] => None
  | (k, v) :: d' => if String.eqb k key then Some v else lookup key d'
  end.

(** [v.get(key, default)]: only a [dict] has the method. *)
Definition get (v : json) (key : string) (default : json) : result json :=
  match v with
  | JDict d => Ok (match lookup key d with Some x => x | None => default end)
  | _ => Raise AttributeError
  end.

(** [v[key]] for a string [key]. *)
Definition getitem (v : json) (key : string) : result json :=
  match v with
  | JDict d => match lookup key d with Some x => Ok x | None => Raise (KeyError key) end
  | _ => Raise TypeError
  end.

(** [key in v] for a string [key]: a key of a [dict], an element of a
    [list], a substring of a [str]. *)
Definition has (key : string) (v : json) : result bool :=
  match v with
  | JDict d => Ok (match lookup key d with Some _ => true | None => false end)
  | JList l => Ok (existsb (fun x => match x with JStr s => String.eqb s key | _ => false end) l)
  | JStr s => Ok (Str.contains key s)
  | _ => Raise TypeError
  end.

(** [bool(v)] *)
Definition truthy (v : json) : bool :=
  match v with
  | JNull => false
  | JBool b => b
  | JInt z => negb (z =? 0)%Z
  | JFloat (SpecFloat.S754_zero _) => false
  | JFloat _ => true
  | JStr s => negb (String.eqb s "")
  | JList l => match l with [] => false | _ :: _ => true end
  | JDict d => match d with [] => false | _ :: _ => true end
  end.

(** The receiver of a [str] method ([.lower()], [.replace(..)]). *)
Definition str_method (v : json) : result string :=
  match v with
  | JStr s => Ok s
  | _ => Raise AttributeError
  end.

(** The elements [for x in v] visits. *)
Definition iter (v : json) : result (list json) :=
  match v with
  | JList l => Ok l
  | JDict d => Ok (map (fun kv => JStr (fst kv)) d)
  | JStr s => Ok (map (fun c => JStr (String c EmptyString)) (list_ascii_of_string s))
  | _ => Raise TypeError
  end.

(** [len(v)] *)
Definition len (v : json) : result nat :=
  match v with
  | JList l => Ok (List.length l)
  | JDict d => Ok (List.length d)
  | JStr s => Ok (String.length s)
  | _ => Raise TypeError
  end.

(** [v[:n]] for a literal [n >= 0].  A [dict] raises too (TypeError up to
    CPython 3.11, KeyError from 3.12 on). *)
Definition slice_to (n : nat) (v : json) : result json :=
  match v with
  | JList l => Ok (JList (firstn n l))
  | JStr s => Ok (JStr (Str.take n s))
  | _ => Raise TypeError
  end.

(** [l[:k]] on a list for any integer [k]: a negative [k] counts from the
    end. *)
Definition list_slice_to {A : Type} (k : Z) (l : list A) : list A :=
  if (0 <=? k)%Z then firstn (Z.to_nat k) l
  else firstn (Z.to_nat (Z.of_nat (List.length l) + k)) l.

End Py.

(** ** datetime *)

(** A [datetime]: its calendar fields as microseconds since
    0001-01-01T00:00:00 ([wall]), and the UTC offset of its [tzinfo] in
    microseconds, absent for a naive value. *)
Record datetime : Type := mk_datetime { wall : Z; utcoffset : option Z }.

Module DT.

Definition day_us : Z := 86400000000.

(** [datetime.max] is 9999-12-31T23:59:59.999999, day 3652059 of the
    calendar. *)
Definition max_wall : Z := 3652059 * day_us - 1.

(** [timedelta(days=days)], in microseconds. *)
Definition timedelta_days (days : Z) : result Z :=
  if (Z.abs days <=? 999999999)%Z then Ok (days * day_us)%Z else Raise OverflowError.

(** [dt - td]: the fields move, the [tzinfo] stays. *)
Definition sub (dt : datetime) (td : Z) : result datetime :=
  let w := (wall dt - td)%Z in
  if ((0 <=? w) && (w <=? max_wall))%Z
  then Ok {| wall := w; utcoffset := utcoffset dt |}
  else Raise OverflowError.

(** [a >= b]: two naive values compare by their fields, two aware ones by
    their instants; a naive and an aware one do not compare. *)
Definition ge (a b : datetime) : result bool :=
  match utcoffset a, utcoffset b with
  | None, None => Ok (wall b <=? wall a)%Z
  | Some oa, Some ob => Ok (wall b - ob <=? wall a - oa)%Z
  | _, _ => Raise TypeError
  end.

(** [a == b], which never raises: a naive and an aware value are unequal. *)
Definition eqb (a b : datetime) : bool :=
  match utcoffset a, utcoffset b with
  | None, None => (wall a =? wall b)%Z
  | Some oa, Some ob => (wall a - oa =? wall b - ob)%Z
  | _, _ => false
  end.

End DT.

(** ** The Python runtime the program relies on *)

Class Runtime : Type := {
  (** [datetime.fromisoformat] *)
  fromisoformat : string -> result datetime;
  (** [dt.strftime(fmt)] *)
  strftime : datetime -> string -> string;
  (** [repr(v)] of a decoded JSON value *)
  repr : json -> string
}.

(** [str(v)], what an f-string puts for [{v}]. *)
Definition str `{Runtime} (v : json) : string :=
  match v with
  | JStr s => s
  | JNull => "None"
  | JBool true => "True"
  | JBool false => "False"
  | JInt z => Str.of_Z z
  | _ => repr v
  end.

(** ** The world: clock, network, standard output *)

(** An HTTP POST of a JSON body (the header is always
    [Content-Type: application/json]). *)
Record request : Type := mk_request { req_url : string; req_json : json }.

(** What [requests.post] returns: the status and the body, [None] when the
    body is not a JSON document. *)
Record response : Type := mk_response { status_code : Z; body : option json }.

Record World : Type := mk_World {
  (** the local wall clock: its [k]-th reading *)
  clock : nat -> Z;
  (** the UTC offset of the local time zone at a wall time *)
  local_offset : Z -> Z;
  (** the forums: the answer to a request, given the earlier ones *)
  server : list request -> request -> result response;
  (** clock readings made so far *)
  reads : nat;
  (** requests sent so far, oldest first *)
  sent : list request;
  (** lines printed so far, oldest first *)
  stdout : list string
}.

Definition with_reads (n : nat) (w : World) : World :=
  mk_World (clock w) (local_offset w) (server w) n (sent w) (stdout w).
Definition with_sent (l : list request) (w : World) : World :=
  mk_World (clock w) (local_offset w) (server w) (reads w) l (stdout w).
Definition with_stdout (l : list string) (w : World) : World :=
  mk_World (clock w) (local_offset w) (server w) (reads w) (sent w) l.

(** A computation that may raise and acts on the world; what it did before
    raising stays done. *)
Definition IO (A : Type) : Type := World -> result A * World.

Definition ret {A : Type} (a : A) : IO A := fun w => (Ok a, w).
Definition raise {A : Type} (e : exn) : IO A := fun w => (Raise e, w).
Definition lift {A : Type} (r : result A) : IO A := fun w => (r, w).

Definition bindIO {A B : Type} (m : IO A) (k : A -> IO B) : IO B :=
  fun w =>
    match m w with
    | (Ok a, w') => k a w'
    | (Raise e, w') => (Raise e, w')
    end.

Notation "x <- m ;; k" := (bindIO m (fun x => k))
  (at level 61, m at next level, right associativity).
Notation "m ;;; k" := (bindIO m (fun _ => k))
  (at level 61, right associativity).

(** [datetime.now()]: a naive reading of the local clock. *)
Definition datetime_now : IO datetime :=
  fun w => (Ok {| wall := clock w (reads w); utcoffset := None |},
            with_reads (S (reads w)) w).

(** [datetime.now().astimezone()]: the same reading, made aware with the
    local zone's offset. *)
Definition datetime_now_astimezone : IO datetime :=
  fun w =>
    let t := clock w (reads w) in
    (Ok {| wall := t; utcoffset := Some (local_offset w t) |},
     with_reads (S (reads w)) w).

(** [requests.post(url, json=payload, headers=...)] *)
Definition requests_post (url : string) (payload : json) : IO response :=
  fun w =>
    let rq := {| req_url := url; req_json := payload |} in
    (server w (sent w) rq, with_sent (sent w ++ [rq]) w).

(** [response.raise_for_status()] *)
Definition raise_for_status (r : response) : result unit :=
  if ((400 <=? status_code r) && (status_code r <? 600))%Z
  then Raise (HTTPError (status_code r))
  else Ok tt.

(** [response.json()] *)
Definition response_json (r : response) : result json :=
  match body r with
  | Some v => Ok v
  | None => Raise JSONDecodeError
  end.

(** [print(line)] *)
Definition print (line : string) : IO unit :=
  fun w => (Ok tt, with_stdout (stdout w ++ [line]) w).

(** ** The forum registry *)

Record forum_config : Type := mk_forum {
  name : string;
  url : string;
  base_url : string;
  aliases : list string
}.

(** [FORUMS], in the order the dictionary literal lists it. *)
Definition FORUMS : list (string * forum_config) :=
  [ ("lesswrong",
     {| name := "LessWrong";
        url := "https://www.lesswrong.com/graphql";
        base_url := "https://www.lesswrong.com";
        aliases := ["lw"; "less-wrong"] |});
    ("eaforum",
     {| name := "EA Forum";
        url := "https://forum.effectivealtruism.org/graphql";
        base_url := "https://forum.effectivealtruism.org";
        aliases := ["ea"; "effective-altruism"; "ea-forum"] |});
    ("alignmentforum",
     {| name := "Alignment Forum";
        url := "https://www.alignmentforum.org/graphql";
        base_url := "https://www.alignmentforum.org";
        aliases := ["af"; "alignment"; "alignment-forum"] |}) ].

(** [x in l] on a list of strings. *)
Definition mem (x : string) (l : list string) : bool := existsb (String.eqb x) l.

(** [registry[key]] / [key in registry] *)
Fixpoint forum_lookup (key : string) (registry : list (string * forum_config)) : option forum_config :=
  match registry with
  | [] => None
  | (k, config) :: rest => if String.eqb k key then Some config else forum_lookup key rest
  end.

(** The loop [for key, config in FORUMS.items(): if forum_input in
    config["aliases"]: return key]. *)
Fixpoint alias_owner (forum_input : string) (registry : list (string * forum_config)) : option string :=
  match registry with
  | [] => None
  | (key, config) :: rest =>
      if mem forum_input (aliases config) then Some key else alias_owner forum_input rest
  end.

(** [', '.join(FORUMS.keys())] *)
Definition valid_options : string := Str.join ", " (map fst FORUMS).

Definition resolve_forum (forum_input : string) : result string :=
  let forum_input := Str.strip (Str.lower forum_input) in
  match forum_lookup forum_input FORUMS with
  | Some _ => Ok forum_input
  | None =>
      match alias_owner forum_input FORUMS with
      | Some key => Ok key
      | None =>
          Raise (ValueError ("Unknown forum: " ++ forum_input ++ ". Valid options: " ++ valid_options))
      end
  end.

Definition get_forum_url (forum : string) : result string :=
  let? forum_key := resolve_forum forum in
  match forum_lookup forum_key FORUMS with
  | Some config => Ok (url config)
  | None => Raise (KeyError forum_key)
  end.

Definition get_forum_base_url (forum : string) : result string :=
  let? forum_key := resolve_forum forum in
  match forum_lookup forum_key FORUMS with
  | Some config => Ok (base_url config)
  | None => Raise (KeyError forum_key)
  end.

(** ** The GraphQL transport *)

(** The body [graphql_query] posts: [{"query": query}], with
    ["variables"] added when [variables] is neither [None] nor empty. *)
Definition payload (query : string) (variables : option (list (string * json))) : json :=
  JDict (("query", JStr query) ::
         match variables with
         | Some (v :: vs) => [("variables", JDict (v :: vs))]
         | _ => []
         end).

(** The GraphQL documents, as the triple-quoted literals spell them. *)
Definition lines (l : list string) : string := String.concat Str.nl l.

Definition get_user_by_slug_query : string :=
  lines
  [ "";
    "    query GetUser($slug: String!) {";
    "      user(input: { selector: { slug: $slug } }) {";
    "        result {";
    "          _id";
    "          username";
    "          displayName";
    "          slug";
    "          karma";
    "        }";
    "      }";
    "    }";
    "    " ].

Definition get_user_posts_query : string :=
  lines
  [ "";
    "    query GetUserPosts($userId: String!, $limit: Int) {";
    "      posts(input: {";
    "        terms: {";
    "          view: " ++ Str.dquote ++ "userPosts" ++ Str.dquote ++ ",";
    "          userId: $userId,";
    "          limit: $limit";
    "        }";
    "      }) {";
    "        results {";
    "          _id";
    "          title";
    "          slug";
    "          pageUrl";
    "          postedAt";
    "          baseScore";
    "          voteCount";
    "          commentCount";
    "          contents {";
    "            markdown";
    "          }";
    "        }";
    "      }";
    "    }";
    "    " ].

Definition get_user_comments_query : string :=
  lines
  [ "";
    "    query GetUserComments($userId: String!, $limit: Int) {";
    "      comments(input: {";
    "        terms: {";
    "          view: " ++ Str.dquote ++ "profileComments" ++ Str.dquote ++ ",";
    "          userId: $userId,";
    "          limit: $limit";
    "        }";
    "      }) {";
    "        results {";
    "          _id";
    "          postedAt";
    "          pageUrl";
    "          baseScore";
    "          voteCount";
    "          post {";
    "            _id";
    "            title";
    "            slug";
    "          }";
    "          contents {";
    "            markdown";
    "            plaintextDescription";
    "          }";
    "        }";
    "      }";
    "    }";
    "    " ].

Definition get_tag_by_slug_query : string :=
  lines
  [ "";
    "    query GetTags($limit: Int) {";
    "      tags(input: {";
    "        terms: {";
    "          view: " ++ Str.dquote ++ "allTagsAlphabetical" ++ Str.dquote ++ ",";
    "          limit: $limit";
    "        }";
    "      }) {";
    "        results {";
    "          _id";
    "          name";
    "          slug";
    "          postCount";
    "        }";
    "      }";
    "    }";
    "    " ].

Definition search_tags_query : string :=
  lines
  [ "";
    "    query SearchTags($limit: Int) {";
    "      tags(input: {";
    "        terms: {";
    "          view: " ++ Str.dquote ++ "allTagsAlphabetical" ++ Str.dquote ++ ",";
    "          limit: $limit";
    "        }";
    "      }) {";
    "        results {";
    "          _id";
    "          name";
    "          slug";
    "          postCount";
    "        }";
    "      }";
    "    }";
    "    " ].

Definition get_posts_by_tag_query : string :=
  lines
  [ "";
    "    query GetTagPosts($tagId: String!, $limit: Int) {";
    "      posts(input: {";
    "        terms: {";
    "          view: " ++ Str.dquote ++ "tagRelevance" ++ Str.dquote ++ ",";
    "          tagId: $tagId,";
    "          limit: $limit";
    "        }";
    "      }) {";
    "        results {";
    "          _id";
    "          title";
    "          slug";
    "          pageUrl";
    "          postedAt";
    "          baseScore";
    "          voteCount";
    "          commentCount";
    "          user {";
    "            displayName";
    "            slug";
    "          }";
    "          contents {";
    "            markdown";
    "          }";
    "        }";
    "      }";
    "    }";
    "    " ].

Section Program.

Context `{Runtime}.

Definition graphql_query (query : string) (variables : option (list (string * json)))
    (forum : string) : IO json :=
  url <- lift (get_forum_url forum) ;;
  response <- requests_post url (payload query variables) ;;
  lift (raise_for_status response) ;;;
  data <- lift (response_json response) ;;
  has_errors <- lift (Py.has "errors" data) ;;
  if has_errors : bool then
    errors <- lift (Py.getitem data "errors") ;;
    raise (PyException ("GraphQL errors: " ++ str errors))
  else
    lift (Py.get data "data" (JDict [])).

(** *** Users *)

Definition get_user_by_slug (slug forum : string) : IO json :=
  data <- graphql_query get_user_by_slug_query (Some [("slug", JStr slug)]) forum ;;
  user <- lift (let? u := Py.get data "user" (JDict []) in Py.get u "result" JNull) ;;
  if Py.truthy user then ret user
  else raise (PyException ("User not found: " ++ slug)).

(** [datetime.fromisoformat(p["postedAt"].replace("Z", "+00:00"))] *)
Definition posted_at (p : json) : result datetime :=
  let? v := Py.getitem p "postedAt" in
  let? s := Py.str_method v in
  fromisoformat (Str.replace "Z" "+00:00" s).

(** The comprehension
    [[p for p in posts if datetime.fromisoformat(...) >= since_date]]
    over the elements of [posts], in order; the first element whose test
    raises ends it. *)
Fixpoint filter_since (since_date : datetime) (items : list json) : result (list json) :=
  match items with
  | [] => Ok []
  | p :: rest =>
      let? t := posted_at p in
      let? keep := DT.ge t since_date in
      let? kept := filter_since since_date rest in
      Ok (if keep : bool then p :: kept else kept)
  end.

(** [if since_date: posts = [...]]: a [datetime] is always true, [None]
    never. *)
Definition filter_if_since (since_date : option datetime) (posts : json) : result json :=
  match since_date with
  | None => Ok posts
  | Some since =>
      let? items := Py.iter posts in
      let? kept := filter_since since items in
      Ok (JList kept)
  end.

Definition get_user_posts (user_id : json) (since_date : option datetime) (limit : Z)
    (forum : string) : IO json :=
  data <- graphql_query get_user_posts_query
            (Some [("userId", user_id); ("limit", JInt limit)]) forum ;;
  posts <- lift (let? ps := Py.get data "posts" (JDict []) in Py.get ps "results" (JList [])) ;;
  lift (filter_if_since since_date posts).

Definition get_user_comments (user_id : json) (since_date : option datetime) (limit : Z)
    (forum : string) : IO json :=
  data <- graphql_query get_user_comments_query
            (Some [("userId", user_id); ("limit", JInt limit)]) forum ;;
  comments <- lift (let? cs := Py.get data "comments" (JDict []) in Py.get cs "results" (JList [])) ;;
  lift (filter_if_since since_date comments).

(** [datetime.now().astimezone() - timedelta(days=days)] *)
Definition window_start (days : Z) : IO datetime :=
  now <- datetime_now_astimezone ;;
  lift (let? td := DT.timedelta_days days in DT.sub now td).

End Program.

(** The dictionary [fetch_user_activity] returns.  [since_date] and
    [fetched_at] hold the [datetime] whose [isoformat()] the program
    stores. *)
Module UserActivity.
Record t : Type := make {
  forum : string;
  user : json;
  posts : json;
  comments : json;
  since_date : datetime;
  fetched_at : datetime
}.
End UserActivity.

(** The dictionary [fetch_topic_activity] returns. *)
Module TopicActivity.
Record t : Type := make {
  forum : string;
  topic : json;
  posts : json;
  since_date : datetime;
  fetched_at : datetime
}.
End TopicActivity.

Section Aggregators.

Context `{Runtime}.

Definition fetch_user_activity (slug : string) (days : Z) (forum : string) : IO UserActivity.t :=
  user <- get_user_by_slug slug forum ;;
  since_date <- window_start days ;;
  user_id <- lift (Py.getitem user "_id") ;;
  posts <- get_user_posts user_id (Some since_date) 50 forum ;;
  user_id' <- lift (Py.getitem user "_id") ;;
  comments <- get_user_comments user_id' (Some since_date) 100 forum ;;
  fetched_at <- datetime_now ;;
  ret {| UserActivity.forum := forum;
         UserActivity.user := user;
         UserActivity.posts := posts;
         UserActivity.comments := comments;
         UserActivity.since_date := since_date;
         UserActivity.fetched_at := fetched_at |}.

(** *** Tags *)

(** The loop [for tag in tags: if tag.get("slug", "").lower() ==
    slug_lower: return tag]; [None] when it runs to its end. *)
Fixpoint find_tag (slug_lower : string) (tags : list json) : result (option json) :=
  match tags with
  | [] => Ok None
  | tag :: rest =>
      let? v := Py.get tag "slug" (JStr "") in
      let? s := Py.str_method v in
      if String.eqb (Str.lower s) slug_lower then Ok (Some tag)
      else find_tag slug_lower rest
  end.

Definition get_tag_by_slug (slug forum : string) : IO json :=
  data <- graphql_query get_tag_by_slug_query (Some [("limit", JInt 500)]) forum ;;
  tags <- lift (let? ts := Py.get data "tags" (JDict []) in Py.get ts "results" (JList [])) ;;
  let slug_lower := Str.lower slug in
  found <- lift (let? items := Py.iter tags in find_tag slug_lower items) ;;
  match found with
  | Some tag => ret tag
  | None => raise (PyException ("Tag/topic not found: " ++ slug))
  end.

(** The comprehension [[t for t in tags if query_lower in
    t["name"].lower()]]. *)
Fixpoint matching_tags (query_lower : string) (tags : list json) : result (list json) :=
  match tags with
  | [] => Ok []
  | t :: rest =>
      let? v := Py.getitem t "name" in
      let? s := Py.str_method v in
      let keep := Str.contains query_lower (Str.lower s) in
      let? kept := matching_tags query_lower rest in
      Ok (if keep then t :: kept else kept)
  end.

Definition search_tags (query_str : string) (limit : Z) (forum : string) : IO (list json) :=
  data <- graphql_query search_tags_query (Some [("limit", JInt 200)]) forum ;;
  tags <- lift (let? ts := Py.get data "tags" (JDict []) in Py.get ts "results" (JList [])) ;;
  let query_lower := Str.lower query_str in
  matching <- lift (let? items := Py.iter tags in matching_tags query_lower items) ;;
  ret (Py.list_slice_to limit matching).

Definition get_posts_by_tag (tag_id : json) (since_date : option datetime) (limit : Z)
    (forum : string) : IO json :=
  data <- graphql_query get_posts_by_tag_query
            (Some [("tagId", tag_id); ("limit", JInt limit)]) forum ;;
  posts <- lift (let? ps := Py.get data "posts" (JDict []) in Py.get ps "results" (JList [])) ;;
  lift (filter_if_since since_date posts).

Definition fetch_topic_activity (slug : string) (days : Z) (forum : string) : IO TopicActivity.t :=
  tag <- get_tag_by_slug slug forum ;;
  since_date <- window_start days ;;
  tag_id <- lift (Py.getitem tag "_id") ;;
  posts <- get_posts_by_tag tag_id (Some since_date) 50 forum ;;
  fetched_at <- datetime_now ;;
  ret {| TopicActivity.forum := forum;
         TopicActivity.topic := tag;
         TopicActivity.posts := posts;
         TopicActivity.since_date := since_date;
         TopicActivity.fetched_at := fetched_at |}.

End Aggregators.

(** ** Output formatting *)

Section Presentation.

Context `{Runtime}.

(** [format_date(iso_date)] *)
Definition format_date (iso_date : json) : result string :=
  let? s := Py.str_method iso_date in
  let? dt := fromisoformat (Str.replace "Z" "+00:00" s) in
  Ok (strftime dt "%b %d, %Y").

(** [for x in l: body(x)] *)
Fixpoint for_each {A : Type} (body : A -> IO unit) (l : list A) : IO unit :=
  match l with
  | [] => ret tt
  | x :: rest => body x ;;; for_each body rest
  end.

(** The body of [for post in posts] in [print_user_activity]. *)
Definition print_post (post : json) : IO unit :=
  date <- lift (let? v := Py.getitem post "postedAt" in format_date v) ;;
  score <- lift (Py.get post "baseScore" (JInt 0)) ;;
  title <- lift (Py.getitem post "title") ;;
  print ("  [" ++ date ++ "] " ++ str title ++ " (score: " ++ str score ++ ")") ;;;
  page_url <- lift (Py.get post "pageUrl" (JStr "")) ;;
  print ("    " ++ str page_url).

(** The body of [for comment in comments[:10]]. *)
Definition print_comment (comment : json) : IO unit :=
  date <- lift (let? v := Py.getitem comment "postedAt" in format_date v) ;;
  score <- lift (Py.get comment "baseScore" (JInt 0)) ;;
  post_title <- lift (let? p := Py.get comment "post" (JDict []) in
                      Py.get p "title" (JStr "Unknown post")) ;;
  contents <- lift (let? c := Py.get comment "contents" (JDict []) in
                    Ok (if Py.truthy c then c else JDict [])) ;;
  excerpt <- lift (let? d := Py.get contents "plaintextDescription" (JStr "") in
                   Py.slice_to 100 d) ;;
  print ("  [" ++ date ++ "] On: " ++ str post_title ++ " (score: " ++ str score ++ ")") ;;;
  print ("    " ++ Str.dquote ++ str excerpt ++ "..." ++ Str.dquote) ;;;
  page_url <- lift (Py.get comment "pageUrl" (JStr "")) ;;
  print ("    " ++ str page_url).

(** The comments part of [print_user_activity], from
    [print(f"\nComments ({len(comments)}):")] to the end of its
    [if]/[else]. *)
Definition print_comments (comments : json) : IO unit :=
  n <- lift (Py.len comments) ;;
  print (Str.nl ++ "Comments (" ++ Str.of_Z (Z.of_nat n) ++ "):") ;;;
  if Py.truthy comments then
    shown <- lift (let? first := Py.slice_to 10 comments in Py.iter first) ;;
    for_each print_comment shown ;;;
    n' <- lift (Py.len comments) ;;
    if (10 <? Z.of_nat n')%Z then
      print ("  ... and " ++ Str.of_Z (Z.of_nat n' - 10) ++ " more comments")
    else ret tt
  else
    print "  No comments in this period.".

Definition print_user_activity (activity : UserActivity.t) : IO unit :=
  let user := UserActivity.user activity in
  let posts := UserActivity.posts activity in
  let comments := UserActivity.comments activity in
  let forum_name :=
    match forum_lookup (UserActivity.forum activity) FORUMS with
    | Some config => name config
    | None => "Forum"
    end in
  print (Str.nl ++ Str.repeat "=" 60) ;;;
  shown <- lift (match user with
                 | JDict _ => let? slug := Py.getitem user "slug" in
                              Py.get user "displayName" slug
                 | _ => Raise AttributeError
                 end) ;;
  slug <- lift (Py.getitem user "slug") ;;
  print ("[" ++ forum_name ++ "] " ++ str shown ++ " (@" ++ str slug ++ ")") ;;;
  karma <- lift (Py.get user "karma" (JStr "N/A")) ;;
  print ("Karma: " ++ str karma) ;;;
  print (Str.repeat "=" 60) ;;;
  n <- lift (Py.len posts) ;;
  print (Str.nl ++ "Posts (" ++ Str.of_Z (Z.of_nat n) ++ "):") ;;;
  (if Py.truthy posts then
     items <- lift (Py.iter posts) ;;
     for_each print_post items
   else
     print "  No posts in this period.") ;;;
  print_comments comments ;;;
  print "".

(** The body of [for post in posts] in [print_topic_activity]. *)
Definition print_topic_post (post : json) : IO unit :=
  date <- lift (let? v := Py.getitem post "postedAt" in format_date v) ;;
  score <- lift (Py.get post "baseScore" (JInt 0)) ;;
  author <- lift (let? u := Py.get post "user" (JDict []) in
                  Py.get u "displayName" (JStr "Unknown")) ;;
  title <- lift (Py.getitem post "title") ;;
  print ("  [" ++ date ++ "] " ++ str title ++ " by " ++ str author
         ++ " (score: " ++ str score ++ ")") ;;;
  page_url <- lift (Py.get post "pageUrl" (JStr "")) ;;
  print ("    " ++ str page_url).

Definition print_topic_activity (activity : TopicActivity.t) : IO unit :=
  let topic := TopicActivity.topic activity in
  let posts := TopicActivity.posts activity in
  let forum_name :=
    match forum_lookup (TopicActivity.forum activity) FORUMS with
    | Some config => name config
    | None => "Forum"
    end in
  print (Str.nl ++ Str.repeat "=" 60) ;;;
  topic_name <- lift (Py.getitem topic "name") ;;
  print ("[" ++ forum_name ++ "] Topic: " ++ str topic_name) ;;;
  post_count <- lift (Py.get topic "postCount" (JStr "N/A")) ;;
  print ("Total posts: " ++ str post_count) ;;;
  described <- lift (let? d := Py.get topic "description" (JDict []) in
                     Py.get d "plaintextDescription" JNull) ;;
  (if Py.truthy described then
     desc <- lift (let? d := Py.getitem topic "description" in
                   let? text := Py.getitem d "plaintextDescription" in
                   Py.slice_to 200 text) ;;
     print ("Description: " ++ str desc ++ "...")
   else ret tt) ;;;
  print (Str.repeat "=" 60) ;;;
  n <- lift (Py.len posts) ;;
  print (Str.nl ++ "Recent posts (" ++ Str.of_Z (Z.of_nat n) ++ "):") ;;;
  (if Py.truthy posts then
     items <- lift (Py.iter posts) ;;
     for_each print_topic_post items
   else
     print "  No posts in this period.") ;;;
  print "".

End Presentation.

(** ** The command line *)

(** What [parser.parse_args()] returns: the value of [--forum] (default
    ["lesswrong"]) and the subcommand with its own arguments ([--days]
    defaults to 7, [--limit] to 10, [--json], here [as_json], to [False]);
    [command] is [None] when no subcommand was given. *)
Module Args.

Inductive subcommand : Type :=
| user (slug : string)
| user_activity (slug : string) (days : Z) (as_json : bool)
| topic (slug : string)
| topic_activity (slug : string) (days : Z) (as_json : bool)
| search_topics (query : string) (limit : Z)
| posts (slug : string) (days : Z) (as_json : bool)
| comments (slug : string) (days : Z) (as_json : bool)
| list_forums.

Record t : Type := make { forum : string; command : option subcommand }.

End Args.

(** How [main] ends: it returns, or [sys.exit(code)] ends the process. *)
Inductive ending : Type :=
| Returned
| SystemExit (code : Z).

(** The library functions [main] calls. *)
Class Cli : Type := {
  (** [json.dumps(v, indent=2)]; on values made of decoded JSON and strings
      [default=str] is never called *)
  json_dumps : json -> string;
  (** [dt.isoformat()] *)
  isoformat : datetime -> string;
  (** [str(e)] of an exception whose text Python or [requests] writes *)
  exception_text : exn -> string;
  (** what [parser.print_help()] writes *)
  help_text : string
}.

Section CommandLine.

Context {RT : Runtime} {CL : Cli}.

(** [str(e)], what an f-string puts for [{e}]: the message of an exception
    made with one, the [repr] of the key of a [KeyError]. *)
Definition exn_str (e : exn) : string :=
  match e with
  | ValueError msg => msg
  | PyException msg => msg
  | KeyError key => repr (JStr key)
  | _ => exception_text e
  end.

(** The dictionaries [fetch_user_activity] and [fetch_topic_activity]
    return, as [json.dumps] gets them. *)
Definition user_activity_dict (activity : UserActivity.t) : json :=
  JDict [ ("forum", JStr (UserActivity.forum activity));
          ("user", UserActivity.user activity);
          ("posts", UserActivity.posts activity);
          ("comments", UserActivity.comments activity);
          ("since_date", JStr (isoformat (UserActivity.since_date activity)));
          ("fetched_at", JStr (isoformat (UserActivity.fetched_at activity))) ].

Definition topic_activity_dict (activity : TopicActivity.t) : json :=
  JDict [ ("forum", JStr (TopicActivity.forum activity));
          ("topic", TopicActivity.topic activity);
          ("posts", TopicActivity.posts activity);
          ("since_date", JStr (isoformat (TopicActivity.since_date activity)));
          ("fetched_at", JStr (isoformat (TopicActivity.fetched_at activity))) ].

(** The bodies of the [for] loops of [main]. *)
Definition print_forum (entry : string * forum_config) : IO unit :=
  let (key, config) := entry in
  let aliases := Str.join ", " (aliases config) in
  print ("  " ++ key ++ " (" ++ aliases ++ ")") ;;;
  print ("    " ++ name config ++ ": " ++ base_url config).

Definition print_found_topic (topic : json) : IO unit :=
  topic_name <- lift (Py.getitem topic "name") ;;
  slug <- lift (Py.getitem topic "slug") ;;
  post_count <- lift (Py.get topic "postCount" (JStr "N/A")) ;;
  print ("  " ++ str topic_name ++ " (slug: " ++ str slug ++ ", posts: " ++ str post_count ++ ")").

Definition print_listed_post (post : json) : IO unit :=
  title <- lift (Py.getitem post "title") ;;
  print ("  - " ++ str title) ;;;
  page_url <- lift (Py.get post "pageUrl" (JStr "")) ;;
  print ("    " ++ str page_url).

Definition print_listed_comment (comment : json) : IO unit :=
  post_title <- lift (let? p := Py.get comment "post" (JDict []) in
                      Py.get p "title" (JStr "Unknown")) ;;
  print ("  - On: " ++ str post_title) ;;;
  page_url <- lift (Py.get comment "pageUrl" (JStr "")) ;;
  print ("    " ++ str page_url).

(** The body of the [try] statement of [main]: the branch of the
    subcommand. *)
Definition dispatch (forum : string) (command : Args.subcommand) : IO unit :=
  match command with
  | Args.list_forums =>
      print "Available forums:" ;;;
      for_each print_forum FORUMS
  | Args.user slug =>
      user <- get_user_by_slug slug forum ;;
      print (json_dumps user)
  | Args.user_activity slug days as_json =>
      activity <- fetch_user_activity slug days forum ;;
      if as_json : bool then print (json_dumps (user_activity_dict activity))
      else print_user_activity activity
  | Args.topic slug =>
      topic <- get_tag_by_slug slug forum ;;
      print (json_dumps topic)
  | Args.topic_activity slug days as_json =>
      activity <- fetch_topic_activity slug days forum ;;
      if as_json : bool then print (json_dumps (topic_activity_dict activity))
      else print_topic_activity activity
  | Args.search_topics query limit =>
      topics <- search_tags query limit forum ;;
      print ("Topics matching '" ++ query ++ "':") ;;;
      for_each print_found_topic topics
  | Args.posts slug days as_json =>
      user <- get_user_by_slug slug forum ;;
      since_date <- window_start days ;;
      user_id <- lift (Py.getitem user "_id") ;;
      posts <- get_user_posts user_id (Some since_date) 50 forum ;;
      if as_json : bool then print (json_dumps posts)
      else
        print ("Posts by " ++ slug ++ " (last " ++ Str.of_Z days ++ " days):") ;;;
        items <- lift (Py.iter posts) ;;
        for_each print_listed_post items
  | Args.comments slug days as_json =>
      user <- get_user_by_slug slug forum ;;
      since_date <- window_start days ;;
      user_id <- lift (Py.getitem user "_id") ;;
      comments <- get_user_comments user_id (Some since_date) 100 forum ;;
      if as_json : bool then print (json_dumps comments)
      else
        n <- lift (Py.len comments) ;;
        print ("Comments by " ++ slug ++ " (last " ++ Str.of_Z days ++ " days): "
               ++ Str.of_Z (Z.of_nat n)) ;;;
        shown <- lift (let? first := Py.slice_to 10 comments in Py.iter first) ;;
        for_each print_listed_comment shown
  end.

(** [main()] from [args = parser.parse_args()] on.  Every exception of the
    [try] body is caught: all of [exn] derive from [Exception], and only
    [HTTPError] from [requests.HTTPError]. *)
Definition main (args : Args.t) : World -> ending * World :=
  fun w =>
    match Args.command args with
    | None => (SystemExit 1, snd (print help_text w))
    | Some command =>
        match dispatch (Args.forum args) command w with
        | (Ok _, w') => (Returned, w')
        | (Raise (HTTPError status), w') =>
            (SystemExit 1, snd (print ("HTTP Error: " ++ exn_str (HTTPError status)) w'))
        | (Raise e, w') =>
            (SystemExit 1, snd (print ("Error: " ++ exn_str e) w'))
        end
    end.

End CommandLine.

(** ** A runtime and worlds to run the program on

    [Demo.runtime] implements the [Runtime] on the inputs the examples
    below use: ISO timestamps of the fixed-width form
    [YYYY-MM-DDTHH:MM:SS[.fff[fff]][+HH:MM]], the format ["%b %d, %Y"], and
    the [repr] of values built from [None], booleans, integers, lists,
    dictionaries and strings that need no escape. *)

Module Demo.

Local Open Scope Z_scope.

Definition digit (c : ascii) : option Z :=
  let n := Z.of_nat (Str.ord c) in
  if (48 <=? n) && (n <=? 57) then Some (n - 48) else None.

(** Exactly [k] decimal digits. *)
Fixpoint number (k : nat) (acc : Z) (s : string) : option (Z * string) :=
  match k with
  | O => Some (acc, s)
  | S k' =>
      match s with
      | String c s' =>
          match digit c with
          | Some d => number k' (10 * acc + d) s'
          | None => None
          end
      | EmptyString => None
      end
  end.

Definition expect (c : ascii) (s : string) : option string :=
  match s with
  | String d s' => if Ascii.eqb c d then Some s' else None
  | EmptyString => None
  end.

Definition is_leap (y : Z) : bool :=
  (y mod 4 =? 0) && (negb (y mod 100 =? 0) || (y mod 400 =? 0)).

Definition days_before_year (y : Z) : Z :=
  let p := y - 1 in 365 * p + p / 4 - p / 100 + p / 400.

Definition days_before_month (y m : Z) : Z :=
  nth (Z.to_nat (m - 1)) [0; 31; 59; 90; 120; 151; 181; 212; 243; 273; 304; 334] 0
  + (if (2 <? m) && is_leap y then 1 else 0).

Definition wall_of (y m d hh mm ss us : Z) : Z :=
  ((days_before_year y + days_before_month y m + (d - 1)) * 86400
   + hh * 3600 + mm * 60 + ss) * 1000000 + us.

Definition skip1 (s : string) : option string :=
  match s with
  | String _ s' => Some s'
  | EmptyString => None
  end.

(** The fraction of a second, in microseconds: [.fff] or [.ffffff]. *)
Definition fraction (s : string) : Z * string :=
  match expect "." s with
  | Some s1 =>
      match number 6 0 s1 with
      | Some (us, s2) => (us, s2)
      | None =>
          match number 3 0 s1 with
          | Some (ms, s2) => (ms * 1000, s2)
          | None => (0, s)
          end
      end
  | None => (0, s)
  end.

(** The offset [+HH:MM] or [-HH:MM], in microseconds. *)
Definition offset (s : string) : option (option Z) :=
  match s with
  | EmptyString => Some None
  | String c s1 =>
      let sign := if Ascii.eqb c "+" then Some 1
                  else if Ascii.eqb c "-" then Some (-1) else None in
      match sign, number 2 0 s1 with
      | Some sg, Some (hh, s2) =>
          match expect ":" s2 with
          | Some s3 =>
              match number 2 0 s3 with
              | Some (mm, EmptyString) =>
                  if (hh <=? 23) && (mm <=? 59)
                  then Some (Some (sg * (hh * 3600 + mm * 60) * 1000000))
                  else None
              | _ => None
              end
          | None => None
          end
      | _, _ => None
      end
  end.

Definition days_in_month (y m : Z) : Z :=
  if m =? 2 then (if is_leap y then 29 else 28)
  else if (m =? 4) || (m =? 6) || (m =? 9) || (m =? 11) then 30 else 31.

(** The fields name a date of the calendar and a time of the day. *)
Definition valid_fields (y m d hh mm ss : Z) : bool :=
  (1 <=? y) && (1 <=? m) && (m <=? 12) && (1 <=? d) && (d <=? days_in_month y m)
  && (hh <=? 23) && (mm <=? 59) && (ss <=? 59).

Definition parse (s : string) : option datetime :=
  match number 4 0 s with
  | Some (y, s1) =>
  match expect "-" s1 with
  | Some s2 =>
  match number 2 0 s2 with
  | Some (m, s3) =>
  match expect "-" s3 with
  | Some s4 =>
  match number 2 0 s4 with
  | Some (d, s5) =>
  match skip1 s5 with
  | Some s6 =>
  match number 2 0 s6 with
  | Some (hh, s7) =>
  match expect ":" s7 with
  | Some s8 =>
  match number 2 0 s8 with
  | Some (mm, s9) =>
  match expect ":" s9 with
  | Some s10 =>
  match number 2 0 s10 with
  | Some (ss, s11) =>
      let (us, s12) := fraction s11 in
      match offset s12 with
      | Some off =>
          if valid_fields y m d hh mm ss
          then Some {| wall := wall_of y m d hh mm ss us; utcoffset := off |}
          else None
      | None => None
      end
  | None => None end | None => None end | None => None end | None => None end
  | None => None end | None => None end | None => None end | None => None end
  | None => None end | None => None end | None => None end.

Definition parse_iso (s : string) : result datetime :=
  match parse s with
  | Some dt => Ok dt
  | None => Raise (ValueError ("Invalid isoformat string: '" ++ s ++ "'"))
  end.

(** Year, month and day of a day number counted from 0001-01-01. *)
Definition civil (days : Z) : Z * Z * Z :=
  let z := days + 306 in
  let era := z / 146097 in
  let doe := z - era * 146097 in
  let yoe := (doe - doe / 1460 + doe / 36524 - doe / 146096) / 365 in
  let doy := doe - (365 * yoe + yoe / 4 - yoe / 100) in
  let mp := (5 * doy + 2) / 153 in
  let d := doy - (153 * mp + 2) / 5 + 1 in
  let m := if mp <? 10 then mp + 3 else mp - 9 in
  let y := yoe + era * 400 + (if m <=? 2 then 1 else 0) in
  (y, m, d).

Definition pad (width : nat) (z : Z) : string :=
  let s := Str.of_Z z in
  Str.repeat "0" (width - String.length s) ++ s.

Definition month_abbr (m : Z) : string :=
  nth (Z.to_nat (m - 1))
    ["Jan"; "Feb"; "Mar"; "Apr"; "May"; "Jun"; "Jul"; "Aug"; "Sep"; "Oct"; "Nov"; "Dec"] "".

(** [dt.strftime("%b %d, %Y")], whatever the format asked. *)
Definition format_bdY (dt : datetime) (fmt : string) : string :=
  let '(y, m, d) := civil (wall dt / DT.day_us) in
  month_abbr m ++ " " ++ pad 2 d ++ ", " ++ Str.of_Z y.

Fixpoint repr_value (v : json) : string :=
  match v with
  | JNull => "None"
  | JBool true => "True"
  | JBool false => "False"
  | JInt z => Str.of_Z z
  | JFloat _ => "nan"
  | JStr s => "'" ++ s ++ "'"
  | JList l => "[" ++ Str.join ", " (map repr_value l) ++ "]"
  | JDict d =>
      "{" ++ Str.join ", " (map (fun kv => "'" ++ fst kv ++ "': " ++ repr_value (snd kv)) d) ++ "}"
  end.

#[export] Instance runtime : Runtime :=
  {| fromisoformat := parse_iso; strftime := format_bdY; repr := repr_value |}.

(** 2024-03-15T12:00:00, the first clock reading of the worlds below. *)
Definition noon : Z := wall_of 2024 3 15 12 0 0 0.

(** A world in UTC whose clock shows [noon] at its first reading and two
    seconds past [noon] at the later ones, and whose forums answer by
    [answer]. *)
Definition world (answer : request -> result response) : World :=
  {| clock := fun k => match k with O => noon | S _ => noon + 2000000 end;
     local_offset := fun _ => 0;
     server := fun _ => answer;
     reads := 0;
     sent := [];
     stdout := [] |}.

(** The GraphQL document a request carries. *)
Definition document (rq : request) : string :=
  match req_json rq with
  | JDict (("query", JStr q) :: _) => q
  | _ => ""
  end.

Definition ok200 (v : json) : result response := Ok {| status_code := 200; body := Some v |}.

Definition results (field : string) (items : list json) : json :=
  JDict [("data", JDict [(field, JDict [("results", JList items)])])].

(** *** A forum to talk to: Alice, two posts, fifteen comments, four tags *)

Definition alice : json :=
  JDict [("_id", JStr "u1"); ("username", JStr "alice"); ("displayName", JStr "Alice");
         ("slug", JStr "alice"); ("karma", JInt 500)].

Definition post (id title posted : string) (score : Z) : json :=
  JDict [("_id", JStr id); ("title", JStr title);
         ("pageUrl", JStr ("https://www.lesswrong.com/posts/" ++ id));
         ("postedAt", JStr posted); ("baseScore", JInt score)].

(** Ten and three days before [noon]. *)
Definition old_post : json := post "p1" "Ten days ago" "2024-03-05T12:00:00.000Z" 12.
Definition new_post : json := post "p2" "Three days ago" "2024-03-12T12:00:00.000Z" 34.

(** The [k]-th comment, of the day before [noon]; its text has [90 + k]
    characters. *)
Definition comment (k : nat) : json :=
  JDict [("_id", JStr ("c" ++ Str.of_Z (Z.of_nat k)));
         ("postedAt", JStr "2024-03-14T09:30:00.000Z");
         ("pageUrl", JStr ("https://www.lesswrong.com/c/" ++ Str.of_Z (Z.of_nat k)));
         ("baseScore", JInt (Z.of_nat k));
         ("post", JDict [("_id", JStr "p2"); ("title", JStr "Three days ago")]);
         ("contents", JDict [("plaintextDescription", JStr (Str.repeat "x" (90 + k)))])].

Definition comments : list json := map comment (seq 1 15).

Definition tag (id name slug : string) (posts : Z) : json :=
  JDict [("_id", JStr id); ("name", JStr name); ("slug", JStr slug); ("postCount", JInt posts)].

Definition tags : list json :=
  [ tag "t1" "AI" "ai" 900;
    tag "t2" "AI Safety" "ai-safety" 120;
    tag "t3" "Rationality" "rationality" 300;
    tag "t4" "Safety Engineering" "Safety-Engineering" 7 ].

(** The forum: it tells the queries apart by the name of their operation. *)
Definition forum (rq : request) : result response :=
  let q := document rq in
  if Str.contains "GetUserPosts" q then ok200 (results "posts" [old_post; new_post])
  else if Str.contains "GetUserComments" q then ok200 (results "comments" comments)
  else if Str.contains "GetUser(" q then
    ok200 (JDict [("data", JDict [("user", JDict [("result", alice)])])])
  else if Str.contains "GetTagPosts" q then ok200 (results "posts" [old_post; new_post])
  else if Str.contains "Tags(" q then ok200 (results "tags" tags)
  else Raise RequestException.

(** A forum that answers every request with [status] and a body whose
    ["errors"] is [errors]. *)
Definition failing (status : Z) (errors : json) (rq : request) : result response :=
  Ok {| status_code := status; body := Some (JDict [("errors", errors)]) |}.

(** The error list of the specification's scenario. *)
Definition boom : json := JList [JDict [("message", JStr "boom")]].

(** Seven days before [noon], in UTC. *)
Definition week_ago : datetime := {| wall := noon - 7 * DT.day_us; utcoffset := Some 0 |}.

(** The report [fetch_user_activity "alice" 7] builds at [noon]. *)
Definition activity : UserActivity.t :=
  {| UserActivity.forum := "lesswrong";
     UserActivity.user := alice;
     UserActivity.posts := JList [new_post];
     UserActivity.comments := JList comments;
     UserActivity.since_date := week_ago;
     UserActivity.fetched_at := {| wall := noon + 2000000; utcoffset := None |} |}.

End Demo.

(** ** A command line to run [main] on

    [DemoCli.cli] implements the [Cli] on the values the examples print:
    [json.dumps(v, indent=2)] for values whose strings need no escape,
    [isoformat()] for the dates of the demo clock, and short texts for
    the exceptions that carry none. *)

Module DemoCli.

Local Open Scope Z_scope.

Definition indent (level : nat) : string := Str.repeat " " (2 * level).

(** [json.dumps(v, indent=2)], at nesting depth [level]. *)
Fixpoint dumps (level : nat) (v : json) : string :=
  match v with
  | JNull => "null"
  | JBool true => "true"
  | JBool false => "false"
  | JInt z => Str.of_Z z
  | JFloat _ => "NaN"
  | JStr s => Str.dquote ++ s ++ Str.dquote
  | JList [] => "[]"
  | JList l =>
      "[" ++ Str.nl
      ++ Str.join ("," ++ Str.nl) (map (fun x => indent (S level) ++ dumps (S level) x) l)
      ++ Str.nl ++ indent level ++ "]"
  | JDict [] => "{}"
  | JDict d =>
      "{" ++ Str.nl
      ++ Str.join ("," ++ Str.nl)
           (map (fun kv => indent (S level) ++ Str.dquote ++ fst kv ++ Str.dquote ++ ": "
                           ++ dumps (S level) (snd kv)) d)
      ++ Str.nl ++ indent level ++ "}"
  end.

(** The offset [+HH:MM] of an aware value. *)
Definition offset_text (offset : Z) : string :=
  let minutes := Z.abs offset / 60000000 in
  (if offset <? 0 then "-" else "+")
  ++ Demo.pad 2 (minutes / 60) ++ ":" ++ Demo.pad 2 (minutes mod 60).

(** [dt.isoformat()] *)
Definition isoformat_value (dt : datetime) : string :=
  let '(y, m, d) := Demo.civil (wall dt / DT.day_us) in
  let us_of_day := wall dt mod DT.day_us in
  let seconds := us_of_day / 1000000 in
  let us := us_of_day mod 1000000 in
  Demo.pad 4 y ++ "-" ++ Demo.pad 2 m ++ "-" ++ Demo.pad 2 d ++ "T"
  ++ Demo.pad 2 (seconds / 3600) ++ ":" ++ Demo.pad 2 (seconds / 60 mod 60) ++ ":"
  ++ Demo.pad 2 (seconds mod 60)
  ++ (if us =? 0 then "" else "." ++ Demo.pad 6 us)
  ++ match utcoffset dt with
     | Some offset => offset_text offset
     | None => ""
     end.

(** The reason phrase of a status. *)
Definition reason (status : Z) : string :=
  match status with
  | 400 => "Bad Request"
  | 401 => "Unauthorized"
  | 403 => "Forbidden"
  | 404 => "Not Found"
  | 429 => "Too Many Requests"
  | 500 => "Internal Server Error"
  | 502 => "Bad Gateway"
  | 503 => "Service Unavailable"
  | 504 => "Gateway Timeout"
  | _ => ""
  end.

(** [str(e)]; for an [HTTPError], the text [requests] gives it for a
    response of the LessWrong endpoint:
    [<status> Client|Server Error: <reason> for url: <url>]. *)
Definition text (e : exn) : string :=
  match e with
  | HTTPError status =>
      Str.of_Z status ++ (if status <? 500 then " Client Error: " else " Server Error: ")
      ++ reason status ++ " for url: https://www.lesswrong.com/graphql"
  | TypeError => "can't compare offset-naive and offset-aware datetimes"
  | AttributeError => "'NoneType' object has no attribute 'get'"
  | OverflowError => "date value out of range"
  | RequestException => "connection failed"
  | JSONDecodeError => "Expecting value: line 1 column 1 (char 0)"
  | ValueError msg => msg
  | PyException msg => msg
  | KeyError key => "'" ++ key ++ "'"
  end.

Definition usage : string :=
  "usage: forum_api.py [-h] [--forum FORUM] {user,user-activity,topic,topic-activity,search-topics,posts,comments,list-forums} ...".

#[export] Instance cli : Cli :=
  {| json_dumps := dumps 0;
     isoformat := isoformat_value;
     exception_text := text;
     help_text := usage |}.

(** A forum that knows no user: [{"data": {"user": {"result": null}}}]. *)
Definition nobody (rq : request) : result response :=
  Demo.ok200 (JDict [("data", JDict [("user", JDict [("result", JNull)])])]).

(** A forum one of whose tags has no name. *)
Definition unnamed : json := JDict [("_id", JStr "t9"); ("slug", JStr "untitled")].

Definition careless (rq : request) : result response :=
  Demo.ok200 (Demo.results "tags" [Demo.tag "t1" "AI" "ai" 900; unnamed]).

(** A post of twenty days before [noon], and a post without title. *)
Definition older_post : json := Demo.post "p0" "Twenty days ago" "2024-02-24T12:00:00.000Z" 5.

Definition untitled_post : json :=
  JDict [("_id", JStr "p3"); ("postedAt", JStr "2024-03-13T08:00:00.000Z")].

(** The report on Alice, as [--forum lw] makes it, and one whose first
    post has no title. *)
Definition activity_lw : UserActivity.t :=
  {| UserActivity.forum := "lw";
     UserActivity.user := Demo.alice;
     UserActivity.posts := JList [Demo.new_post];
     UserActivity.comments := JList Demo.comments;
     UserActivity.since_date := Demo.week_ago;
     UserActivity.fetched_at := {| wall := Demo.noon + 2000000; utcoffset := None |} |}.

Definition activity_untitled : UserActivity.t :=
  {| UserActivity.forum := "lesswrong";
     UserActivity.user := Demo.alice;
     UserActivity.posts := JList [untitled_post; Demo.new_post];
     UserActivity.comments := JList [];
     UserActivity.since_date := Demo.week_ago;
     UserActivity.fetched_at := {| wall := Demo.noon + 2000000; utcoffset := None |} |}.

(** A topic with a description of 230 characters, and the report on it. *)
Definition described_topic : list (string * json) :=
  [ ("_id", JStr "t2"); ("name", JStr "AI Safety"); ("slug", JStr "ai-safety");
    ("postCount", JInt 120);
    ("description", JDict [("plaintextDescription", JStr (Str.repeat "d" 230))]) ].

Definition signed_post : json :=
  JDict [("_id", JStr "p4"); ("title", JStr "Signed");
         ("pageUrl", JStr "https://forum.effectivealtruism.org/posts/p4");
         ("postedAt", JStr "2024-03-14T10:00:00.000Z"); ("baseScore", JInt 7);
         ("user", JDict [("displayName", JStr "Bob"); ("slug", JStr "bob")])].

Definition topic_activity : TopicActivity.t :=
  {| TopicActivity.forum := "eaforum";
     TopicActivity.topic := JDict described_topic;
     TopicActivity.posts := JList [signed_post; Demo.new_post];
     TopicActivity.since_date := Demo.week_ago;
     TopicActivity.fetched_at := {| wall := Demo.noon + 2000000; utcoffset := None |} |}.

(** Fifteen comments whose texts have 96 to 110 characters, and the
    report that holds them. *)
Definition long_comments : list json := map Demo.comment (seq 6 15).

Definition activity_long : UserActivity.t :=
  {| UserActivity.forum := "lesswrong";
     UserActivity.user := Demo.alice;
     UserActivity.posts := JList [Demo.new_post];
     UserActivity.comments := JList long_comments;
     UserActivity.since_date := Demo.week_ago;
     UserActivity.fetched_at := {| wall := Demo.noon + 2000000; utcoffset := None |} |}.

(** A comment on no post, as the forum gives it: [post] is [null]. *)
Definition orphan_comment : json :=
  JDict [("_id", JStr "c0"); ("postedAt", JStr "2024-03-14T09:30:00.000Z");
         ("pageUrl", JStr "https://www.lesswrong.com/c/0"); ("baseScore", JInt 3);
         ("post", JNull);
         ("contents", JDict [("plaintextDescription", JStr "On a tag page")])].

(** The demo forum, with that comment as the only one of Alice. *)
Definition forum_with_orphan (rq : request) : result response :=
  if Str.contains "GetUserComments" (Demo.document rq)
  then Demo.ok200 (Demo.results "comments" [orphan_comment])
  else Demo.forum rq.

(** The report [fetch_user_activity "alice" 7] builds on that forum. *)
Definition activity_with_orphan : UserActivity.t :=
  {| UserActivity.forum := "lesswrong";
     UserActivity.user := Demo.alice;
     UserActivity.posts := JList [Demo.new_post];
     UserActivity.comments := JList [orphan_comment];
     UserActivity.since_date := Demo.week_ago;
     UserActivity.fetched_at := {| wall := Demo.noon + 2000000; utcoffset := None |} |}.

End DemoCli.

(** * Specification *)

(** ** Vocabulary *)

(** [sub] is a subsequence of [l]: elements of [l], in the order [l] has
    them. *)
Inductive subseq {A : Type} : list A -> list A -> Prop :=
| subseq_nil : subseq [] []
| subseq_skip : forall x sub l, subseq sub l -> subseq sub (x :: l)
| subseq_keep : forall x sub l, subseq sub l -> subseq (x :: sub) (x :: l).


(** Two characters that are the same letter: equal, or an ASCII capital
    and its small letter. *)
Definition same_letter (c d : ascii) : Prop :=
  d = c
  \/ (65 <= Str.ord c <= 90 /\ d = Str.chr (Str.ord c + 32))
  \/ (97 <= Str.ord c <= 122 /\ d = Str.chr (Str.ord c - 32)).

(** Two strings that differ in letter case only. *)
Inductive same_letters : string -> string -> Prop :=
| same_nil : same_letters EmptyString EmptyString
| same_cons : forall c d s t,
    same_letter c d -> same_letters s t -> same_letters (String c s) (String d t).

Fixpoint all_space (s : string) : bool :=
  match s with
  | EmptyString => true
  | String c s' => Str.isspace c && all_space s'
  end.

(** [input] spells [canon] up to letter case and surrounding whitespace. *)
Definition spells (canon input : string) : Prop :=
  exists before core after,
    input = before ++ core ++ after
    /\ all_space before = true /\ all_space after = true
    /\ same_letters canon core.

(** A name as the registry writes them: in small letters, not empty, with
    no whitespace at either end. *)
Definition tidy (s : string) : Prop :=
  Str.lower s = s /\ Str.lstrip s = s /\ Str.rstrip s = s /\ s <> EmptyString.

(** The canonical keys, and the aliases of all forums. *)
Definition forum_keys : list string := map fst FORUMS.
Definition all_aliases : list string := flat_map (fun kc => aliases (snd kc)) FORUMS.

(** What [graphql_query] makes of the response it got: the statements
    after the POST, which touch nothing but the response. *)
Definition handle_response `{Runtime} (response : response) : result json :=
  let? _ := raise_for_status response in
  let? data := response_json response in
  let? has_errors := Py.has "errors" data in
  if has_errors : bool then
    let? errors := Py.getitem data "errors" in
    Raise (PyException ("GraphQL errors: " ++ str errors))
  else Py.get data "data" (JDict []).

(** The request [graphql_query] sends to the endpoint [url]. *)
Definition graphql_request (url query : string) (variables : option (list (string * json))) : request :=
  {| req_url := url; req_json := payload query variables |}.

(** The world once [rq] has been sent. *)
Definition after_request (rq : request) (w : World) : World := with_sent (sent w ++ [rq]) w.

(** In the world [w] the forum at [url] answers the request [rq] with
    [resp]. *)
Definition answers (w : World) (rq : request) (resp : response) : Prop :=
  server w (sent w) rq = Ok resp.

(** [data.get(field, {}).get("results", [])] *)
Definition results_of (data : json) (field : string) : result json :=
  let? page := Py.get data field (JDict []) in Py.get page "results" (JList []).

(** The status is one [raise_for_status] lets through. *)
Definition status_passes (resp : response) : Prop :=
  (status_code resp < 400 \/ 600 <= status_code resp)%Z.

(** [p] carries a timestamp that compares with [since]. *)
Definition dated `{Runtime} (since : datetime) (p : json) : Prop :=
  exists t b, posted_at p = Ok t /\ DT.ge t since = Ok b.

(** [p] carries a timestamp at or after [since]. *)
Definition recent `{Runtime} (since : datetime) (p : json) : Prop :=
  exists t, posted_at p = Ok t /\ DT.ge t since = Ok true.

(** The test [posted_at >= since] as a total function: [false] where the
    program would raise. *)
Definition on_or_after `{Runtime} (since : datetime) (p : json) : bool :=
  match posted_at p with
  | Ok t => match DT.ge t since with Ok b => b | Raise _ => false end
  | Raise _ => false
  end.

(** Nothing but the requests sent differs between [w] and [w']. *)
Definition only_sent (w w' : World) : Prop :=
  clock w' = clock w /\ local_offset w' = local_offset w /\ server w' = server w
  /\ reads w' = reads w /\ stdout w' = stdout w.

(** The tag [t] has a name, a string. *)
Definition named (t : json) : Prop := exists s, Py.getitem t "name" = Ok (JStr s).

(** The name of [t] contains [query_str], letter case apart. *)
Definition name_matches (query_str : string) (t : json) : bool :=
  match Py.getitem t "name" with
  | Ok (JStr s) => Str.contains (Str.lower query_str) (Str.lower s)
  | _ => false
  end.

(** [tag.get("slug", "")], which must be a string. *)
Definition slug_of (t : json) : result string :=
  let? v := Py.get t "slug" (JStr "") in Py.str_method v.

(** The slug of [t] is [slug], letter case apart. *)
Definition has_slug (slug : string) (t : json) : Prop :=
  exists s, slug_of t = Ok s /\ Str.lower s = Str.lower slug.

(** [t] has a slug, and it is not [slug], letter case apart. *)
Definition has_other_slug (slug : string) (t : json) : Prop :=
  exists s, slug_of t = Ok s /\ Str.lower s <> Str.lower slug.

(** One page of tags was asked for, [limit] tags at most, and [tags] came
    back: the only request the call makes. *)
Definition tags_page `{Runtime} (w : World) (forum query : string) (limit : Z)
    (tags : list json) (w' : World) : Prop :=
  exists url resp data,
    get_forum_url forum = Ok url
    /\ answers w (graphql_request url query (Some [("limit", JInt limit)])) resp
    /\ handle_response resp = Ok data
    /\ results_of data "tags" = Ok (JList tags)
    /\ w' = after_request (graphql_request url query (Some [("limit", JInt limit)])) w.

(** A request written out, as the JSON document that goes to [url]: the
    GraphQL document under [query], the variables under [variables]. *)
Definition request_with (url query : string) (variables : list (string * json)) : request :=
  {| req_url := url;
     req_json := JDict [("query", JStr query); ("variables", JDict variables)] |}.

(** The call asked the forum for one page of at most [limit] tags (the
    variables of its request are [{"limit": limit}]), [tags] came back,
    and it sent nothing else. *)
Definition page_fetched `{Runtime} (w : World) (forum query : string) (limit : Z)
    (tags : list json) (w' : World) : Prop :=
  exists url resp data,
    get_forum_url forum = Ok url
    /\ answers w (request_with url query [("limit", JInt limit)]) resp
    /\ handle_response resp = Ok data
    /\ results_of data "tags" = Ok (JList tags)
    /\ w' = with_sent (sent w ++ [request_with url query [("limit", JInt limit)]]) w.

(** The world once [ls] have been printed. *)
Definition emit (ls : list string) (w : World) : World := with_stdout (stdout w ++ ls) w.

(** [format_date(item["postedAt"])] *)
Definition item_date `{Runtime} (item : json) : result string :=
  let? v := Py.getitem item "postedAt" in format_date v.

(** [comment.get("post", {}).get("title", "Unknown post")] *)
Definition comment_post_title (c : json) : result json :=
  let? p := Py.get c "post" (JDict []) in Py.get p "title" (JStr "Unknown post").

(** [(comment.get("contents", {}) or {}).get("plaintextDescription", "")] *)
Definition plaintext_description (c : json) : result json :=
  let? x := Py.get c "contents" (JDict []) in
  Py.get (if Py.truthy x then x else JDict []) "plaintextDescription" (JStr "").

(** A user, a post and a comment that [print_user_activity] can show. *)
Definition well_formed_user (u : json) : Prop := exists slug, Py.getitem u "slug" = Ok slug.

Definition well_formed_post `{Runtime} (p : json) : Prop :=
  (exists date, item_date p = Ok date) /\ (exists title, Py.getitem p "title" = Ok title).

Definition well_formed_comment `{Runtime} (c : json) : Prop :=
  (exists date, item_date c = Ok date)
  /\ (exists title, comment_post_title c = Ok title)
  /\ (exists text, plaintext_description c = Ok (JStr text)).

(** The value of a result, [default] where it raised. *)
Definition value {A : Type} (default : A) (r : result A) : A :=
  match r with
  | Ok a => a
  | Raise _ => default
  end.

(** The three lines shown for one comment: the excerpt is the first 100
    characters of the plaintext description, followed by three dots, in
    double quotes. *)
Definition comment_block `{Runtime} (c : json) : list string :=
  [ "  [" ++ value "" (item_date c) ++ "] On: " ++ str (value JNull (comment_post_title c))
      ++ " (score: " ++ str (value JNull (Py.get c "baseScore" (JInt 0))) ++ ")";
    "    " ++ Str.dquote
      ++ Str.take 100 (value "" (let? d := plaintext_description c in Py.str_method d))
      ++ "..." ++ Str.dquote;
    "    " ++ str (value JNull (Py.get c "pageUrl" (JStr ""))) ].

(** The closing line, printed when [n] comments exist and [n > 10]. *)
Definition more_comments (n : Z) : list string :=
  if (10 <? n)%Z then ["  ... and " ++ Str.of_Z (n - 10) ++ " more comments"] else [].

(** The comments part of the report as the specification words it: the
    count, the first 10 comments, and one closing line when more than 10
    exist. *)
Definition comments_report `{Runtime} (comments : list json) : list string :=
  let n := Z.of_nat (List.length comments) in
  (Str.nl ++ "Comments (" ++ Str.of_Z n ++ "):") ::
  match comments with
  | [] => ["  No comments in this period."]
  | _ :: _ =>
      (flat_map comment_block (firstn 10 comments) ++ more_comments n)%list
  end.

(** The object [d] holds no page under [field]: no such key, or an object
    without [results]. *)
Definition page_absent (field : string) (d : list (string * json)) : Prop :=
  Py.lookup field d = None
  \/ exists page, Py.lookup field d = Some (JDict page) /\ Py.lookup "results" page = None.

(** The test of the comprehension on one item:
    [datetime.fromisoformat(p["postedAt"].replace("Z", "+00:00")) >= since_date]. *)
Definition timestamp_test `{Runtime} (since : datetime) (p : json) : result bool :=
  let? t := posted_at p in DT.ge t since.

(** [m] does nothing but print: whatever it returns or raises, the world
    it leaves is the one it started in, with lines added to the output. *)
Definition only_prints {A : Type} (m : IO A) : Prop :=
  forall w, exists printed, snd (m w) = emit printed w.

(** The line of sixty [=]. *)
Definition rule : string := Str.repeat "=" 60.

(** [FORUMS.get(forum, {}).get("name", "Forum")] *)
Definition forum_label (forum : string) : string :=
  match forum_lookup forum FORUMS with
  | Some config => name config
  | None => "Forum"
  end.

(** [user.get('displayName', user['slug'])] *)
Definition display_name (user : json) : result json :=
  let? slug := Py.getitem user "slug" in Py.get user "displayName" slug.

(** The four lines that open the report on a user. *)
Definition user_header `{Runtime} (forum : string) (user : json) : list string :=
  [ Str.nl ++ rule;
    "[" ++ forum_label forum ++ "] " ++ str (value JNull (display_name user))
      ++ " (@" ++ str (value JNull (Py.getitem user "slug")) ++ ")";
    "Karma: " ++ str (value JNull (Py.get user "karma" (JStr "N/A")));
    rule ].

(** The two lines shown for one post of a user. *)
Definition post_block `{Runtime} (p : json) : list string :=
  [ "  [" ++ value "" (item_date p) ++ "] " ++ str (value JNull (Py.getitem p "title"))
      ++ " (score: " ++ str (value JNull (Py.get p "baseScore" (JInt 0))) ++ ")";
    "    " ++ str (value JNull (Py.get p "pageUrl" (JStr ""))) ].

(** The line that opens the posts part of the report on a user. *)
Definition posts_heading (n : nat) : string :=
  Str.nl ++ "Posts (" ++ Str.of_Z (Z.of_nat n) ++ "):".

(** The posts part of the report on a user: the count, then every post. *)
Definition posts_report `{Runtime} (posts : list json) : list string :=
  posts_heading (List.length posts) ::
  match posts with
  | [] => ["  No posts in this period."]
  | _ :: _ => flat_map post_block posts
  end.

(** [post.get("user", {}).get("displayName", "Unknown")] *)
Definition post_author (p : json) : result json :=
  let? u := Py.get p "user" (JDict []) in Py.get u "displayName" (JStr "Unknown").

(** A post that [print_topic_activity] can show. *)
Definition well_formed_topic_post `{Runtime} (p : json) : Prop :=
  (exists date, item_date p = Ok date)
  /\ (exists title, Py.getitem p "title" = Ok title)
  /\ (exists author, post_author p = Ok author).

(** The two lines shown for one post of a topic. *)
Definition topic_post_block `{Runtime} (p : json) : list string :=
  [ "  [" ++ value "" (item_date p) ++ "] " ++ str (value JNull (Py.getitem p "title"))
      ++ " by " ++ str (value JNull (post_author p))
      ++ " (score: " ++ str (value JNull (Py.get p "baseScore" (JInt 0))) ++ ")";
    "    " ++ str (value JNull (Py.get p "pageUrl" (JStr ""))) ].

(** The plain text of the description of a topic: empty when the topic
    has no description, or a description without text; [None] when
    the description is not an object or its text not a string. *)
Definition description_text (topic : list (string * json)) : option string :=
  match Py.lookup "description" topic with
  | None => Some ""
  | Some (JDict description) =>
      match Py.lookup "plaintextDescription" description with
      | None => Some ""
      | Some JNull => Some ""
      | Some (JStr text) => Some text
      | Some _ => None
      end
  | Some _ => None
  end.

(** The three lines that open the report on a topic. *)
Definition topic_header `{Runtime} (forum : string) (topic : list (string * json)) : list string :=
  [ Str.nl ++ rule;
    "[" ++ forum_label forum ++ "] Topic: " ++ str (value JNull (Py.getitem (JDict topic) "name"));
    "Total posts: " ++ str (value JNull (Py.get (JDict topic) "postCount" (JStr "N/A"))) ].

(** The line of the description: its first 200 characters, followed by
    three dots; no line for an empty text. *)
Definition description_lines (text : string) : list string :=
  if String.eqb text "" then [] else ["Description: " ++ Str.take 200 text ++ "..."].

(** The posts part of the report on a topic: the count, then every post. *)
Definition topic_posts_report `{Runtime} (posts : list json) : list string :=
  (Str.nl ++ "Recent posts (" ++ Str.of_Z (Z.of_nat (List.length posts)) ++ "):") ::
  match posts with
  | [] => ["  No posts in this period."]
  | _ :: _ => flat_map topic_post_block posts
  end.

(** The report on a topic. *)
Definition topic_report `{Runtime} (forum : string) (topic : list (string * json))
    (text : string) (posts : list json) : list string :=
  (topic_header forum topic ++ description_lines text ++ [rule]
   ++ topic_posts_report posts ++ [EmptyString])%list.

(** The first request a subcommand sends, to the endpoint [url]:
    [list-forums] sends none. *)
Definition first_request (url : string) (command : Args.subcommand) : option request :=
  match command with
  | Args.list_forums => None
  | Args.user slug | Args.user_activity slug _ _ | Args.posts slug _ _ | Args.comments slug _ _ =>
      Some (graphql_request url get_user_by_slug_query (Some [("slug", JStr slug)]))
  | Args.topic _ | Args.topic_activity _ _ _ =>
      Some (graphql_request url get_tag_by_slug_query (Some [("limit", JInt 500)]))
  | Args.search_topics _ _ =>
      Some (graphql_request url search_tags_query (Some [("limit", JInt 200)]))
  end.

(** The slug of the user a subcommand is about, for the four that are
    about a user. *)
Definition user_slug (command : Args.subcommand) : option string :=
  match command with
  | Args.user slug | Args.user_activity slug _ _ | Args.posts slug _ _ | Args.comments slug _ _ =>
      Some slug
  | _ => None
  end.

(** The slug of the topic a subcommand is about, for the two that are
    about a topic. *)
Definition topic_slug (command : Args.subcommand) : option string :=
  match command with
  | Args.topic slug | Args.topic_activity slug _ _ => Some slug
  | _ => None
  end.

(** [comment.get("post", {}).get("title", "Unknown")] *)
Definition listed_title (c : json) : result json :=
  let? p := Py.get c "post" (JDict []) in Py.get p "title" (JStr "Unknown").

(** The two lines the subcommand [comments] shows for one comment. *)
Definition listed_comment_block `{Runtime} (c : json) : list string :=
  [ "  - On: " ++ str (value JNull (listed_title c));
    "    " ++ str (value JNull (Py.get c "pageUrl" (JStr ""))) ].

(** The line that opens the comments part of the report on a user. *)
Definition comments_count (n : nat) : string :=
  Str.nl ++ "Comments (" ++ Str.of_Z (Z.of_nat n) ++ "):".

(** The line that opens the listing of the subcommand [comments]. *)
Definition comments_heading (slug : string) (days : Z) (n : nat) : string :=
  "Comments by " ++ slug ++ " (last " ++ Str.of_Z days ++ " days): " ++ Str.of_Z (Z.of_nat n).

(** What [list-forums] prints. *)
Definition forums_listing : list string :=
  [ "Available forums:";
    "  lesswrong (lw, less-wrong)";
    "    LessWrong: https://www.lesswrong.com";
    "  eaforum (ea, effective-altruism, ea-forum)";
    "    EA Forum: https://forum.effectivealtruism.org";
    "  alignmentforum (af, alignment, alignment-forum)";
    "    Alignment Forum: https://www.alignmentforum.org" ].

(** The line [search-topics] shows for one topic. *)
Definition found_topic_line `{Runtime} (t : json) : string :=
  "  " ++ str (value JNull (Py.getitem t "name"))
  ++ " (slug: " ++ str (value JNull (Py.getitem t "slug"))
  ++ ", posts: " ++ str (value JNull (Py.get t "postCount" (JStr "N/A"))) ++ ")".

(** The tag [t] has a slug. *)
Definition slugged (t : json) : Prop := exists s, Py.getitem t "slug" = Ok s.

(** * Proofs *)

(** ** Strings and forum resolution *)

Example lower_ex : Str.lower "  EA-Forum " = "  ea-forum ".
Proof. reflexivity. Qed.
Example strip_ex : Str.strip (Str.lower "  EA-Forum ") = "ea-forum".
Proof. reflexivity. Qed.
Example replace_ex : Str.replace "Z" "+00:00" "2024-01-05T10:00:00.000Z" = "2024-01-05T10:00:00.000+00:00".
Proof. reflexivity. Qed.
Example of_Z_ex : (Str.of_Z 0, Str.of_Z 15, Str.of_Z (-3)) = ("0", "15", "-3").
Proof. reflexivity. Qed.
Example contains_ex : (Str.contains "" "abc", Str.contains "safety" "ai safety", Str.contains "x" "") = (true, true, false).
Proof. reflexivity. Qed.
Example take_ex : (Str.take 3 "abcdef", Str.take 10 "abc") = ("abc", "abc").
Proof. reflexivity. Qed.
Example list_slice_to_ex :
  (Py.list_slice_to 2 [1; 2; 3], Py.list_slice_to 0 [1; 2; 3],
   Py.list_slice_to (-1) [1; 2; 3], Py.list_slice_to (-5) [1; 2; 3])
  = ([1; 2], [], [1; 2], []).
Proof. reflexivity. Qed.
Example resolve_forum_ex :
  (resolve_forum "lesswrong", resolve_forum " LW ", resolve_forum "Alignment-Forum")
  = (Ok "lesswrong", Ok "lesswrong", Ok "alignmentforum").
Proof. reflexivity. Qed.

Ltac each_char c := destruct c as [[] [] [] [] [] [] [] []].

Lemma lower_char_same_letter c d :
  same_letter c d -> Str.lower_char c = c -> Str.lower_char d = c.
Proof.
  intros [-> | [[Hr ->] | [Hr ->]]] Hc; [exact Hc | |];
    each_char c;
    try (vm_compute in Hr; lia); try (vm_compute in Hc; discriminate); reflexivity.
Qed.

Lemma lower_same_letters canon core :
  same_letters canon core -> Str.lower canon = canon -> Str.lower core = canon.
Proof.
  induction 1 as [| c d s t Hcd Hst IH]; simpl; intros Hl; [reflexivity |].
  injection Hl as Hc Hs.
  rewrite (lower_char_same_letter c d Hcd Hc), (IH Hs). reflexivity.
Qed.

Lemma lower_char_space c : Str.isspace c = true -> Str.lower_char c = c.
Proof. each_char c; vm_compute; intros; congruence. Qed.

Lemma lower_all_space s : all_space s = true -> Str.lower s = s.
Proof.
  induction s as [| c s IH]; simpl; [reflexivity |].
  intros Hs. apply andb_prop in Hs as [Hc Hs].
  rewrite (lower_char_space c Hc), (IH Hs). reflexivity.
Qed.

Lemma lower_app a b : Str.lower (a ++ b) = Str.lower a ++ Str.lower b.
Proof. induction a as [| c a IH]; simpl; [reflexivity | now rewrite IH]. Qed.

Lemma lstrip_all_space_app pre s : all_space pre = true -> Str.lstrip (pre ++ s) = Str.lstrip s.
Proof.
  induction pre as [| c pre IH]; simpl; [reflexivity |].
  intros Hs. apply andb_prop in Hs as [Hc Hs]. rewrite Hc. auto.
Qed.

Lemma rstrip_all_space s : all_space s = true -> Str.rstrip s = EmptyString.
Proof.
  induction s as [| c s IH]; simpl; [reflexivity |].
  intros Hs. apply andb_prop in Hs as [Hc Hs]. rewrite (IH Hs), Hc. reflexivity.
Qed.

Lemma rstrip_app_all_space s post : all_space post = true -> Str.rstrip (s ++ post) = Str.rstrip s.
Proof.
  intros Hp. induction s as [| c s IH]; simpl.
  - now apply rstrip_all_space.
  - now rewrite IH.
Qed.

Lemma lstrip_length s : String.length (Str.lstrip s) <= String.length s.
Proof.
  induction s as [| c s IH]; simpl; [lia |].
  destruct (Str.isspace c); simpl; lia.
Qed.

Lemma lstrip_fixed_app s t : Str.lstrip s = s -> s <> EmptyString -> Str.lstrip (s ++ t) = s ++ t.
Proof.
  destruct s as [| c s]; [congruence |]. simpl. intros Hs _.
  destruct (Str.isspace c); [| reflexivity].
  pose proof (lstrip_length s) as Hl. rewrite Hs in Hl. simpl in Hl. lia.
Qed.

Lemma spells_normalize canon input :
  tidy canon -> spells canon input -> Str.strip (Str.lower input) = canon.
Proof.
  intros (Hlow & Hl & Hr & Hne) (before & core & after & -> & Hb & Ha & Hsame).
  rewrite !lower_app, (lower_all_space _ Hb), (lower_all_space _ Ha),
    (lower_same_letters _ _ Hsame Hlow).
  unfold Str.strip.
  rewrite (lstrip_all_space_app _ _ Hb), (lstrip_fixed_app _ _ Hl Hne),
    (rstrip_app_all_space _ _ Ha).
  exact Hr.
Qed.

Lemma forum_lookup_None key registry :
  ~ In key (map fst registry) -> forum_lookup key registry = None.
Proof.
  induction registry as [| [k c] rest IH]; simpl; [reflexivity |].
  intros Hn. destruct (String.eqb_spec k key) as [-> | _].
  - exfalso. apply Hn. now left.
  - apply IH. intros Hin. apply Hn. now right.
Qed.

Lemma mem_false x l : ~ In x l -> mem x l = false.
Proof.
  unfold mem. induction l as [| y l IH]; simpl; [reflexivity |].
  intros Hn. destruct (String.eqb_spec x y) as [-> | _].
  - exfalso. apply Hn. now left.
  - apply IH. intros Hin. apply Hn. now right.
Qed.

Lemma alias_owner_None input registry :
  ~ In input (flat_map (fun kc => aliases (snd kc)) registry) -> alias_owner input registry = None.
Proof.
  induction registry as [| [k c] rest IH]; simpl; [reflexivity |].
  intros Hn. rewrite mem_false.
  - apply IH. intros Hin. apply Hn. apply in_or_app. now right.
  - intros Hin. apply Hn. apply in_or_app. now left.
Qed.

Ltac is_tidy :=
  match goal with
  | |- tidy _ => repeat split; try reflexivity; discriminate
  end.

Ltac normalize_spelling S :=
  match type of S with
  | spells ?canon ?input =>
      let T := fresh "T" in
      assert (tidy canon) as T by is_tidy;
      rewrite (spells_normalize canon input T S)
  end.

(** C4.  For every forum [key] of the registry and every [alias] of that
    forum, an input that spells the key and an input that spells the alias,
    up to letter case and surrounding whitespace, resolve to the same
    canonical key, [key]. *)
Theorem resolve_forum_alias_agrees key config alias input_key input_alias :
  In (key, config) FORUMS -> In alias (aliases config) ->
  spells key input_key -> spells alias input_alias ->
  resolve_forum input_key = Ok key /\ resolve_forum input_alias = resolve_forum input_key.
Proof.
  intros Hk Ha Sk Sa.
  assert (resolve_forum input_key = Ok key /\ resolve_forum input_alias = Ok key) as [E1 E2].
  { unfold resolve_forum.
    unfold FORUMS in Hk. simpl in Hk.
    destruct Hk as [Hk | [Hk | [Hk | []]]]; injection Hk as <- <-;
      simpl in Ha;
      repeat (destruct Ha as [<- | Ha]); try contradiction;
      normalize_spelling Sk; normalize_spelling Sa;
      split; reflexivity. }
  split; congruence.
Qed.

Ltac same_letters_by_case :=
  repeat (apply same_cons;
          [ first [ left; reflexivity
                  | right; left; split; [vm_compute; lia | reflexivity]
                  | right; right; split; [vm_compute; lia | reflexivity] ] | ]);
  apply same_nil.

Ltac spells_by before core after :=
  exists before, core, after; repeat split; same_letters_by_case.

(** The theorem at the EA Forum: its key written [EAforum] and its alias
    written [  Ea-Forum ] both resolve to [eaforum]. *)
Lemma resolve_forum_alias_agrees_witness :
  resolve_forum "EAforum" = Ok "eaforum"
  /\ resolve_forum "  Ea-Forum " = resolve_forum "EAforum".
Proof.
  eapply (resolve_forum_alias_agrees "eaforum" _ "ea-forum" "EAforum" "  Ea-Forum ").
  - right; left; reflexivity.
  - simpl. auto.
  - spells_by "" "EAforum" "".
  - spells_by "  " "Ea-Forum" " ".
Defined.

(** C8.  An input that, once lowercased and stripped, is neither a key of
    the registry nor an alias of any forum makes [resolve_forum] raise
    [ValueError]; the message names the input and lists the three canonical
    keys.  No key is returned. *)
Theorem resolve_forum_unknown input :
  let normal := Str.strip (Str.lower input) in
  ~ In normal forum_keys -> ~ In normal all_aliases ->
  resolve_forum input
  = Raise (ValueError ("Unknown forum: " ++ normal
                       ++ ". Valid options: lesswrong, eaforum, alignmentforum")).
Proof.
  intros normal Hk Ha. unfold resolve_forum. fold normal.
  rewrite (forum_lookup_None _ _ Hk), (alias_owner_None _ _ Ha). reflexivity.
Qed.

(** The theorem at [ Reddit ]. *)
Lemma resolve_forum_unknown_witness :
  resolve_forum " Reddit "
  = Raise (ValueError "Unknown forum: reddit. Valid options: lesswrong, eaforum, alignmentforum").
Proof.
  apply (resolve_forum_unknown " Reddit "); vm_compute; intuition discriminate.
Defined.

(** ** The transport *)

Lemma bindIO_ok {A B} (m : IO A) (k : A -> IO B) w a w1 :
  m w = (Ok a, w1) -> bindIO m k w = k a w1.
Proof. unfold bindIO. now intros ->. Qed.

Lemma bindIO_lift {A B} (r : result A) (k : A -> IO B) w :
  bindIO (lift r) k w = match r with Ok a => k a w | Raise e => (Raise e, w) end.
Proof. reflexivity. Qed.

Lemma bindIO_inv {A B} (m : IO A) (k : A -> IO B) w b w' :
  bindIO m k w = (Ok b, w') -> exists a w1, m w = (Ok a, w1) /\ k a w1 = (Ok b, w').
Proof.
  unfold bindIO. destruct (m w) as [[a | e] w1]; intros E.
  - now exists a, w1.
  - discriminate.
Qed.

Lemma lift_inv {A} (r : result A) w a w' : lift r w = (Ok a, w') -> r = Ok a /\ w' = w.
Proof. unfold lift. intros E. injection E as -> ->. now split. Qed.

Lemma graphql_query_run `{Runtime} query variables forum w :
  graphql_query query variables forum w =
  match get_forum_url forum with
  | Raise e => (Raise e, w)
  | Ok url =>
      let rq := graphql_request url query variables in
      (let? response := server w (sent w) rq in handle_response response,
       after_request rq w)
  end.
Proof.
  unfold graphql_query. rewrite bindIO_lift.
  destruct (get_forum_url forum) as [url | e]; [| reflexivity].
  unfold bindIO at 1, requests_post, graphql_request, after_request. cbn [req_url req_json].
  destruct (server w (sent w) _) as [response | e]; [| reflexivity].
  unfold handle_response. cbn [bind].
  rewrite bindIO_lift. destruct (raise_for_status response) as [[] | e]; [| reflexivity].
  rewrite bindIO_lift. destruct (response_json response) as [data | e]; [| reflexivity].
  rewrite bindIO_lift. cbn [bind]. destruct (Py.has "errors" data) as [[] | e]; [| | reflexivity].
  - rewrite bindIO_lift. destruct (Py.getitem data "errors"); reflexivity.
  - reflexivity.
Qed.

Lemma raise_for_status_passes resp : status_passes resp -> raise_for_status resp = Ok tt.
Proof.
  unfold status_passes, raise_for_status. intros Hs.
  destruct (Z.leb_spec 400 (status_code resp)), (Z.ltb_spec (status_code resp) 600);
    simpl; try reflexivity; lia.
Qed.

Lemma raise_for_status_error resp :
  (400 <= status_code resp < 600)%Z -> raise_for_status resp = Raise (HTTPError (status_code resp)).
Proof.
  unfold raise_for_status. intros Hs.
  destruct (Z.leb_spec 400 (status_code resp)), (Z.ltb_spec (status_code resp) 600);
    simpl; try reflexivity; lia.
Qed.

Lemma handle_response_errors `{Runtime} resp d v :
  status_passes resp -> body resp = Some (JDict d) -> Py.lookup "errors" d = Some v ->
  handle_response resp = Raise (PyException ("GraphQL errors: " ++ str v)).
Proof.
  intros Hs Hb Hv. unfold handle_response, response_json.
  rewrite (raise_for_status_passes _ Hs), Hb. cbn [bind Py.has Py.getitem]. rewrite Hv. reflexivity.
Qed.

Lemma graphql_query_answered `{Runtime} query variables forum w url resp :
  get_forum_url forum = Ok url ->
  answers w (graphql_request url query variables) resp ->
  graphql_query query variables forum w
  = (handle_response resp, after_request (graphql_request url query variables) w).
Proof.
  intros Hu Ha. rewrite graphql_query_run, Hu. cbv zeta. unfold answers in Ha. now rewrite Ha.
Qed.

(** C10.  The key alone triggers the failure.  When the forum answers
    with a status that [raise_for_status] lets through and a JSON object
    that has the key ["errors"], whatever its value [v] (an empty array and
    [null] included), [graphql_query] raises
    [Exception("GraphQL errors: " + str(v))], having sent its one
    request. *)
Theorem graphql_query_errors_key `{Runtime} query variables forum w url resp d v :
  get_forum_url forum = Ok url ->
  answers w (graphql_request url query variables) resp ->
  status_passes resp ->
  body resp = Some (JDict d) ->
  Py.lookup "errors" d = Some v ->
  graphql_query query variables forum w
  = (Raise (PyException ("GraphQL errors: " ++ str v)),
     after_request (graphql_request url query variables) w).
Proof.
  intros Hu Ha Hs Hb Hv.
  rewrite (graphql_query_answered _ _ _ _ _ _ Hu Ha), (handle_response_errors _ _ _ Hs Hb Hv).
  reflexivity.
Qed.

(** The theorem at a 200 response whose [errors] is [null], and at one
    whose [errors] is the empty array. *)
Lemma graphql_query_errors_key_witness :
  fst (graphql_query (H := Demo.runtime) "{ currentUser { _id } }" None "lw"
         (Demo.world (Demo.failing 200 JNull)))
  = Raise (PyException "GraphQL errors: None")
  /\ fst (graphql_query (H := Demo.runtime) "{ currentUser { _id } }" None "lw"
            (Demo.world (Demo.failing 200 (JList []))))
     = Raise (PyException "GraphQL errors: []").
Proof.
  split.
  - rewrite (graphql_query_errors_key (H := Demo.runtime) _ None "lw"
               (Demo.world (Demo.failing 200 JNull))
               "https://www.lesswrong.com/graphql"
               {| status_code := 200; body := Some (JDict [("errors", JNull)]) |}
               [("errors", JNull)] JNull
               eq_refl eq_refl (or_introl eq_refl) eq_refl eq_refl).
    reflexivity.
  - rewrite (graphql_query_errors_key (H := Demo.runtime) _ None "lw"
               (Demo.world (Demo.failing 200 (JList [])))
               "https://www.lesswrong.com/graphql"
               {| status_code := 200; body := Some (JDict [("errors", JList [])]) |}
               [("errors", JList [])] (JList [])
               eq_refl eq_refl (or_introl eq_refl) eq_refl eq_refl).
    reflexivity.
Defined.

(** C3.  The errors of a response, by status.  When the body of the
    response is a JSON object with a top-level ["errors"] array,
    [graphql_query] never returns normally.
    It raises [Exception("GraphQL errors: " + str(errors))], which carries
    the array, when the status is outside 400..599 (200 included); when the
    status is in 400..599 it raises the HTTP error of that status
    instead. *)
Theorem graphql_query_errors_array `{Runtime} query variables forum w url resp d errors :
  get_forum_url forum = Ok url ->
  answers w (graphql_request url query variables) resp ->
  body resp = Some (JDict d) ->
  Py.lookup "errors" d = Some (JList errors) ->
  let outcome := fst (graphql_query query variables forum w) in
  (exists e, outcome = Raise e)
  /\ (status_passes resp ->
      outcome = Raise (PyException ("GraphQL errors: " ++ str (JList errors))))
  /\ ((400 <= status_code resp < 600)%Z -> outcome = Raise (HTTPError (status_code resp))).
Proof.
  intros Hu Ha Hb Hv outcome. subst outcome.
  rewrite (graphql_query_answered _ _ _ _ _ _ Hu Ha). cbn [fst].
  assert (status_passes resp ->
          handle_response resp = Raise (PyException ("GraphQL errors: " ++ str (JList errors)))) as Hp
    by (intros Hs; exact (handle_response_errors _ _ _ Hs Hb Hv)).
  assert ((400 <= status_code resp < 600)%Z ->
          handle_response resp = Raise (HTTPError (status_code resp))) as He
    by (intros Hs; unfold handle_response; now rewrite (raise_for_status_error _ Hs)).
  split; [| split; assumption].
  destruct (Z_lt_ge_dec (status_code resp) 400) as [Hlt | Hge].
  - eexists. apply Hp. now left.
  - destruct (Z_lt_ge_dec (status_code resp) 600) as [Hlt | Hge'].
    + eexists. apply He. lia.
    + eexists. apply Hp. right. lia.
Qed.

(** The theorem at the scenario of the specification: status 200 and the
    body [{"errors": [{"message": "boom"}]}]. *)
Lemma graphql_query_errors_array_witness :
  fst (graphql_query (H := Demo.runtime) "{ currentUser { _id } }" None "lesswrong"
         (Demo.world (Demo.failing 200 Demo.boom)))
  = Raise (PyException "GraphQL errors: [{'message': 'boom'}]").
Proof.
  exact (proj1 (proj2
    (graphql_query_errors_array (H := Demo.runtime) "{ currentUser { _id } }" None "lesswrong"
       (Demo.world (Demo.failing 200 Demo.boom))
       "https://www.lesswrong.com/graphql"
       {| status_code := 200; body := Some (JDict [("errors", Demo.boom)]) |}
       [("errors", Demo.boom)] [JDict [("message", JStr "boom")]]
       eq_refl eq_refl eq_refl eq_refl))
    (or_introl eq_refl)).
Defined.

(** The same body with status 500: [raise_for_status] raises first, and
    the exception is the HTTP error, which carries no part of the body. *)
Lemma graphql_query_http_error_first :
  fst (graphql_query (H := Demo.runtime) "{ currentUser { _id } }" None "lesswrong"
         (Demo.world (Demo.failing 500 Demo.boom)))
  = Raise (HTTPError 500).
Proof. vm_compute. reflexivity. Qed.

(** ** The recency filter *)

Lemma filter_subseq {A} (f : A -> bool) (l : list A) : subseq (filter f l) l.
Proof.
  induction l as [| x l IH]; simpl; [constructor |].
  destruct (f x); constructor; assumption.
Qed.

Lemma recent_on_or_after `{Runtime} since p : recent since p <-> on_or_after since p = true.
Proof.
  unfold recent, on_or_after. split.
  - intros (t & -> & ->). reflexivity.
  - destruct (posted_at p) as [t | e]; [| discriminate].
    destruct (DT.ge t since) as [b | e] eqn:Hb; [| discriminate].
    intros ->. now exists t.
Qed.

Lemma recent_dated `{Runtime} since p : recent since p -> dated since p.
Proof. intros (t & Ht & Hge). now exists t, true. Qed.

Lemma filter_since_filter `{Runtime} since items :
  Forall (dated since) items ->
  filter_since since items = Ok (filter (on_or_after since) items).
Proof.
  induction 1 as [| p items (t & b & Ht & Hb) _ IH]; [reflexivity |].
  cbn [filter_since filter]. unfold on_or_after at 1.
  rewrite Ht. cbn [bind]. rewrite Hb. cbn [bind]. rewrite IH. cbn [bind].
  destruct b; reflexivity.
Qed.

Lemma filter_since_dated `{Runtime} since items kept :
  filter_since since items = Ok kept -> Forall (dated since) items.
Proof.
  revert kept. induction items as [| p items IH]; intros kept; simpl; [constructor |].
  destruct (posted_at p) as [t | e] eqn:Ht; [| discriminate]. cbn [bind].
  destruct (DT.ge t since) as [b | e] eqn:Hb; [| discriminate]. cbn [bind].
  destruct (filter_since since items) as [kept' | e]; [| discriminate].
  intros _. constructor; [now exists t, b | now apply (IH kept')].
Qed.

Lemma filter_all_true {A} (f : A -> bool) (l : list A) :
  Forall (fun x => f x = true) l -> filter f l = l.
Proof. induction 1 as [| x l Hx _ IH]; simpl; [reflexivity |]. now rewrite Hx, IH. Qed.

Lemma filter_since_all_recent `{Runtime} since items :
  Forall (recent since) items -> filter_since since items = Ok items.
Proof.
  intros Hr. rewrite filter_since_filter.
  - f_equal. apply filter_all_true. revert Hr. apply Forall_impl.
    intros p. apply recent_on_or_after.
  - revert Hr. apply Forall_impl. intros p. apply recent_dated.
Qed.

Lemma filter_recent `{Runtime} since items : Forall (recent since) (filter (on_or_after since) items).
Proof.
  apply Forall_forall. intros p Hp. apply filter_In in Hp as [_ Hp].
  now apply recent_on_or_after.
Qed.

Lemma filter_since_kept `{Runtime} since items kept :
  filter_since since items = Ok kept ->
  kept = filter (on_or_after since) items /\ Forall (recent since) kept /\ subseq kept items.
Proof.
  intros E. pose proof (filter_since_dated _ _ _ E) as Hd.
  rewrite (filter_since_filter _ _ Hd) in E. injection E as <-.
  split; [reflexivity | split; [apply filter_recent | apply filter_subseq]].
Qed.

Lemma only_sent_refl w : only_sent w w.
Proof. repeat split. Qed.

Lemma graphql_query_only_sent `{Runtime} query variables forum w r w' :
  graphql_query query variables forum w = (r, w') -> only_sent w w'.
Proof.
  rewrite graphql_query_run. destruct (get_forum_url forum) as [url | e]; intros E.
  - cbv zeta in E. injection E as _ <-. repeat split.
  - injection E as _ <-. apply only_sent_refl.
Qed.

(** A fetcher: one query, the page under [field], the recency filter. *)
Lemma fetch_page_run `{Runtime} query variables forum field since_date w :
  (data <- graphql_query query variables forum ;;
   posts <- lift (let? ps := Py.get data field (JDict []) in Py.get ps "results" (JList [])) ;;
   lift (filter_if_since since_date posts)) w
  = (let? data := fst (graphql_query query variables forum w) in
     let? posts := results_of data field in
     filter_if_since since_date posts,
     snd (graphql_query query variables forum w)).
Proof.
  unfold bindIO at 1. destruct (graphql_query query variables forum w) as [[data | e] w']; [| reflexivity].
  cbn [fst snd bind]. rewrite bindIO_lift. fold (results_of data field).
  destruct (results_of data field); reflexivity.
Qed.

Lemma fetch_page_filtered `{Runtime} query variables forum field since w data w' items :
  graphql_query query variables forum w = (Ok data, w') ->
  results_of data field = Ok (JList items) ->
  Forall (dated since) items ->
  (data <- graphql_query query variables forum ;;
   posts <- lift (let? ps := Py.get data field (JDict []) in Py.get ps "results" (JList [])) ;;
   lift (filter_if_since (Some since) posts)) w
  = (Ok (JList (filter (on_or_after since) items)), w').
Proof.
  intros Hq Hp Hd. rewrite fetch_page_run, Hq. cbn [fst snd bind]. rewrite Hp. cbn [bind].
  unfold filter_if_since. cbn [Py.iter bind]. now rewrite (filter_since_filter _ _ Hd).
Qed.

Lemma fetch_page_inv `{Runtime} query variables forum field since w posts w' :
  (data <- graphql_query query variables forum ;;
   posts <- lift (let? ps := Py.get data field (JDict []) in Py.get ps "results" (JList [])) ;;
   lift (filter_if_since (Some since) posts)) w
  = (Ok posts, w') ->
  only_sent w w' /\ exists kept, posts = JList kept /\ Forall (recent since) kept.
Proof.
  rewrite fetch_page_run.
  destruct (graphql_query query variables forum w) as [[data | e] w1] eqn:Hq; cbn [fst snd bind];
    [| discriminate].
  intros E. injection E as E <-. split; [exact (graphql_query_only_sent _ _ _ _ _ _ Hq) |].
  destruct (results_of data field) as [page | e]; [| discriminate]. cbn [bind] in E.
  unfold filter_if_since in E. destruct (Py.iter page) as [items | e]; [| discriminate].
  cbn [bind] in E. destruct (filter_since since items) as [kept | e] eqn:Hf; [| discriminate].
  injection E as <-. exists kept. split; [reflexivity |].
  now apply (filter_since_kept _ _ _ Hf).
Qed.

Lemma append_assoc_str (a b c : string) : (a ++ b) ++ c = a ++ (b ++ c).
Proof. induction a as [| x a IH]; simpl; [reflexivity | now rewrite IH]. Qed.

Lemma replace_app c new a b :
  Str.replace c new (a ++ b) = Str.replace c new a ++ Str.replace c new b.
Proof.
  induction a as [| x a IH]; simpl; [reflexivity |].
  destruct (Ascii.eqb x c); rewrite IH; [now rewrite append_assoc_str | reflexivity].
Qed.

Lemma replace_absent c new s :
  ~ In c (list_ascii_of_string s) -> Str.replace c new s = s.
Proof.
  induction s as [| x s IH]; simpl; [reflexivity |].
  intros Hn. destruct (Ascii.eqb_spec x c) as [-> | _].
  - exfalso. apply Hn. now left.
  - rewrite IH; [reflexivity |]. intros Hin. apply Hn. now right.
Qed.

(** A timestamp that ends in its only [Z] is parsed with that [Z] written
    [+00:00]. *)
Lemma posted_at_trailing_Z `{Runtime} p body :
  Py.getitem p "postedAt" = Ok (JStr (body ++ "Z")) ->
  ~ In "Z"%char (list_ascii_of_string body) ->
  posted_at p = fromisoformat (body ++ "+00:00").
Proof.
  intros Hp Hz. unfold posted_at. rewrite Hp. cbn [bind Py.str_method].
  rewrite replace_app, (replace_absent _ _ _ Hz). reflexivity.
Qed.

(** C1.  The recency filter keeps exactly the items at or after the window
    start, in their order.  For every window start [since] and every list
    [items] whose timestamps parse and compare with [since]:
    the comprehension [filter_since] returns [filter (on_or_after since)
    items], the items whose [postedAt] is [>= since]; that list is a
    subsequence of [items]; an item is in it exactly when it is in [items]
    and recent; [get_user_posts], [get_user_comments] and
    [get_posts_by_tag], called with [since] on a fetched page [items],
    return that list; and a [postedAt] ending in its only [Z] is parsed
    with the [Z] written [+00:00]. *)
Theorem recency_filter_exact `{Runtime} since items :
  Forall (dated since) items ->
  let kept := filter (on_or_after since) items in
  filter_since since items = Ok kept
  /\ subseq kept items
  /\ (forall p, In p kept <-> In p items /\ recent since p)
  /\ (forall user_id limit forum w data w',
        graphql_query get_user_posts_query
          (Some [("userId", user_id); ("limit", JInt limit)]) forum w = (Ok data, w') ->
        results_of data "posts" = Ok (JList items) ->
        get_user_posts user_id (Some since) limit forum w = (Ok (JList kept), w'))
  /\ (forall user_id limit forum w data w',
        graphql_query get_user_comments_query
          (Some [("userId", user_id); ("limit", JInt limit)]) forum w = (Ok data, w') ->
        results_of data "comments" = Ok (JList items) ->
        get_user_comments user_id (Some since) limit forum w = (Ok (JList kept), w'))
  /\ (forall tag_id limit forum w data w',
        graphql_query get_posts_by_tag_query
          (Some [("tagId", tag_id); ("limit", JInt limit)]) forum w = (Ok data, w') ->
        results_of data "posts" = Ok (JList items) ->
        get_posts_by_tag tag_id (Some since) limit forum w = (Ok (JList kept), w'))
  /\ (forall p body,
        Py.getitem p "postedAt" = Ok (JStr (body ++ "Z")) ->
        ~ In "Z"%char (list_ascii_of_string body) ->
        posted_at p = fromisoformat (body ++ "+00:00")).
Proof.
  intros Hd kept. subst kept.
  split; [now apply filter_since_filter |].
  split; [apply filter_subseq |].
  split.
  { intros p. rewrite filter_In, recent_on_or_after. reflexivity. }
  repeat split; intros;
    first [eapply fetch_page_filtered; eassumption | now apply posted_at_trailing_Z].
Qed.

(** The theorem at the two posts of the demo forum, ten and three days
    old, and a window of seven days. *)
Lemma recency_filter_exact_witness :
  filter_since (H := Demo.runtime) Demo.week_ago [Demo.old_post; Demo.new_post]
  = Ok [Demo.new_post]
  /\ fst (get_user_posts (H := Demo.runtime) (JStr "u1") (Some Demo.week_ago) 50 "lw"
            (Demo.world Demo.forum))
     = Ok (JList [Demo.new_post]).
Proof.
  assert (Forall (dated (H := Demo.runtime) Demo.week_ago) [Demo.old_post; Demo.new_post]) as Hd.
  { repeat (apply Forall_cons; [eexists _, _; split; vm_compute; reflexivity |]).
    apply Forall_nil. }
  destruct (recency_filter_exact (H := Demo.runtime) Demo.week_ago
              [Demo.old_post; Demo.new_post] Hd) as (Hf & _ & _ & Hp & _ & _).
  split.
  - rewrite Hf. vm_compute. reflexivity.
  - rewrite (Hp (JStr "u1") 50%Z "lw" (Demo.world Demo.forum)
               (JDict [("posts", JDict [("results", JList [Demo.old_post; Demo.new_post])])])
               (snd (graphql_query (H := Demo.runtime) get_user_posts_query
                       (Some [("userId", JStr "u1"); ("limit", JInt 50)]) "lw"
                       (Demo.world Demo.forum)))).
    + vm_compute. reflexivity.
    + vm_compute. reflexivity.
    + reflexivity.
Defined.

(** Without a window start nothing is filtered. *)
Remark filter_if_since_None `{Runtime} posts : filter_if_since None posts = Ok posts.
Proof. reflexivity. Qed.

(** A naive timestamp does not compare with an aware window start: the
    filter raises [TypeError] at the first such item. *)
Remark filter_since_naive_raises `{Runtime} since offset p rest t :
  utcoffset since = Some offset ->
  posted_at p = Ok t -> utcoffset t = None ->
  filter_since since (p :: rest) = Raise TypeError.
Proof.
  intros Hs Hp Ht. cbn [filter_since]. rewrite Hp. cbn [bind].
  unfold DT.ge. now rewrite Ht, Hs.
Qed.

(** C7.  The recency filter is idempotent, and a window start that no
    item precedes changes nothing.  For every window start [since] and
    list [items]: whenever filtering returns [kept], filtering [kept] again
    with [since] returns [kept]; filtering does return when every timestamp
    parses and compares with [since]; and when every item is at or after
    [since], filtering returns [items] itself. *)
Theorem recency_filter_idempotent `{Runtime} since items :
  (forall kept, filter_since since items = Ok kept -> filter_since since kept = Ok kept)
  /\ (Forall (dated since) items ->
      exists kept, filter_since since items = Ok kept /\ filter_since since kept = Ok kept)
  /\ (Forall (recent since) items -> filter_since since items = Ok items).
Proof.
  assert (forall kept, filter_since since items = Ok kept -> filter_since since kept = Ok kept) as Hi.
  { intros kept E. apply filter_since_all_recent. now apply (filter_since_kept _ _ _ E). }
  split; [exact Hi | split].
  - intros Hd. exists (filter (on_or_after since) items).
    pose proof (filter_since_filter _ _ Hd) as E. split; [exact E | exact (Hi _ E)].
  - apply filter_since_all_recent.
Qed.

(** Filtering the two demo posts leaves the newer one; filtering that
    again leaves it unchanged. *)
Lemma recency_filter_idempotent_witness :
  filter_since (H := Demo.runtime) Demo.week_ago [Demo.new_post] = Ok [Demo.new_post].
Proof.
  apply (proj1 (recency_filter_idempotent (H := Demo.runtime) Demo.week_ago
                  [Demo.old_post; Demo.new_post])).
  vm_compute. reflexivity.
Defined.

(** ** The activity aggregators *)

Lemma get_user_by_slug_only_sent `{Runtime} slug forum w user w' :
  get_user_by_slug slug forum w = (Ok user, w') -> only_sent w w'.
Proof.
  unfold get_user_by_slug. intros E.
  apply bindIO_inv in E as (data & w1 & Eq & E).
  apply bindIO_inv in E as (u & w2 & El & E).
  apply lift_inv in El as [_ ->].
  destruct (Py.truthy u); [| discriminate].
  injection E as _ <-. exact (graphql_query_only_sent _ _ _ _ _ _ Eq).
Qed.

Lemma window_start_inv `{Runtime} days w since w' :
  window_start days w = (Ok since, w') ->
  since = {| wall := clock w (reads w) - days * DT.day_us;
             utcoffset := Some (local_offset w (clock w (reads w))) |}
  /\ w' = with_reads (S (reads w)) w.
Proof.
  unfold window_start. intros E.
  apply bindIO_inv in E as (now & w1 & En & E).
  unfold datetime_now_astimezone in En. injection En as <- <-.
  apply lift_inv in E as [E ->]. split; [| reflexivity].
  unfold DT.timedelta_days in E. destruct (Z.abs days <=? 999999999)%Z; [| discriminate].
  cbn [bind] in E. unfold DT.sub in E. cbn [wall utcoffset] in E.
  destruct ((0 <=? _) && _)%Z; [| discriminate]. now injection E as <-.
Qed.

Lemma get_tag_by_slug_only_sent `{Runtime} slug forum w tag w' :
  get_tag_by_slug slug forum w = (Ok tag, w') -> only_sent w w'.
Proof.
  unfold get_tag_by_slug. intros E.
  apply bindIO_inv in E as (data & w1 & Eq & E).
  apply bindIO_inv in E as (tags & w2 & El & E).
  apply lift_inv in El as [_ ->].
  apply bindIO_inv in E as (found & w3 & Ef & E).
  apply lift_inv in Ef as [_ ->].
  destruct found; [| discriminate].
  injection E as _ <-. exact (graphql_query_only_sent _ _ _ _ _ _ Eq).
Qed.

(** C2.  The window of a report, as the program computes it.  In a report
    of [fetch_user_activity] or [fetch_topic_activity] for [days] days,
    [since_date] is the reading of the clock taken before the posts are
    fetched, made aware with the local offset, less [days] days;
    [fetched_at] is the next reading of the clock, taken after the fetches,
    and is naive; and every post and comment of the report has
    [postedAt >= since_date]. *)
Theorem activity_report_window `{Runtime} days forum w :
  let now := clock w (reads w) in
  let start :=
    {| wall := now - days * DT.day_us; utcoffset := Some (local_offset w now) |} in
  let later := {| wall := clock w (S (reads w)); utcoffset := None |} in
  (forall slug r w',
     fetch_user_activity slug days forum w = (Ok r, w') ->
     UserActivity.since_date r = start
     /\ UserActivity.fetched_at r = later
     /\ exists posts comments,
          UserActivity.posts r = JList posts /\ UserActivity.comments r = JList comments
          /\ Forall (recent start) posts /\ Forall (recent start) comments)
  /\ (forall slug r w',
        fetch_topic_activity slug days forum w = (Ok r, w') ->
        TopicActivity.since_date r = start
        /\ TopicActivity.fetched_at r = later
        /\ exists posts,
             TopicActivity.posts r = JList posts /\ Forall (recent start) posts).
Proof.
  intros now since later. split; intros slug r w' E.
  - unfold fetch_user_activity in E.
    apply bindIO_inv in E as (user & w1 & Eu & E).
    apply bindIO_inv in E as (since' & w2 & Ew & E).
    apply bindIO_inv in E as (uid & w3 & Ei & E). apply lift_inv in Ei as [_ ->].
    apply bindIO_inv in E as (posts & w4 & Ep & E).
    apply bindIO_inv in E as (uid' & w5 & Ei' & E). apply lift_inv in Ei' as [_ ->].
    apply bindIO_inv in E as (comments & w6 & Ec & E).
    apply bindIO_inv in E as (fetched & w7 & En & E).
    injection E as <- <-. cbn [UserActivity.since_date UserActivity.fetched_at
                                 UserActivity.posts UserActivity.comments].
    apply get_user_by_slug_only_sent in Eu as (Hc & Ho & _ & Hr & _).
    apply window_start_inv in Ew as [-> ->]. rewrite Hc, Ho, Hr. fold now since.
    apply fetch_page_inv in Ep as [(Hc4 & _ & _ & Hr4 & _) (ps & -> & Hps)].
    apply fetch_page_inv in Ec as [(Hc6 & _ & _ & Hr6 & _) (cs & -> & Hcs)].
    unfold datetime_now in En. injection En as <- _.
    rewrite Hc6, Hr6, Hc4, Hr4. cbn [clock reads with_reads]. rewrite Hc, Hr.
    rewrite Hc, Ho, Hr in Hps, Hcs.
    split; [reflexivity | split; [reflexivity |]]. now exists ps, cs.
  - unfold fetch_topic_activity in E.
    apply bindIO_inv in E as (tag & w1 & Eu & E).
    apply bindIO_inv in E as (since' & w2 & Ew & E).
    apply bindIO_inv in E as (tid & w3 & Ei & E). apply lift_inv in Ei as [_ ->].
    apply bindIO_inv in E as (posts & w4 & Ep & E).
    apply bindIO_inv in E as (fetched & w7 & En & E).
    injection E as <- <-. cbn [TopicActivity.since_date TopicActivity.fetched_at TopicActivity.posts].
    apply get_tag_by_slug_only_sent in Eu as (Hc & Ho & _ & Hr & _).
    apply window_start_inv in Ew as [-> ->]. rewrite Hc, Ho, Hr. fold now since.
    apply fetch_page_inv in Ep as [(Hc4 & _ & _ & Hr4 & _) (ps & -> & Hps)].
    unfold datetime_now in En. injection En as <- _.
    rewrite Hc4, Hr4. cbn [clock reads with_reads]. rewrite Hc, Hr.
    rewrite Hc, Ho, Hr in Hps.
    split; [reflexivity | split; [reflexivity |]]. now exists ps.
Qed.

(** The theorem at the report on Alice, fetched at noon of 2024-03-15 for
    seven days: the window starts on 2024-03-08 at noon, and the post of
    2024-03-05 is not in the report. *)
Lemma activity_report_window_witness :
  fst (fetch_user_activity (H := Demo.runtime) "alice" 7 "lesswrong" (Demo.world Demo.forum))
  = Ok Demo.activity
  /\ UserActivity.since_date Demo.activity = Demo.week_ago
  /\ UserActivity.fetched_at Demo.activity
     = {| wall := Demo.noon + 2000000; utcoffset := None |}
  /\ exists posts comments,
       UserActivity.posts Demo.activity = JList posts
       /\ UserActivity.comments Demo.activity = JList comments
       /\ Forall (recent (H := Demo.runtime) Demo.week_ago) posts
       /\ Forall (recent (H := Demo.runtime) Demo.week_ago) comments.
Proof.
  split; [vm_compute; reflexivity |].
  apply (proj1 (activity_report_window (H := Demo.runtime) 7 "lesswrong" (Demo.world Demo.forum))
           "alice" Demo.activity
           (snd (fetch_user_activity (H := Demo.runtime) "alice" 7 "lesswrong"
                   (Demo.world Demo.forum)))).
  vm_compute. reflexivity.
Defined.

(** In a world whose clock advances two seconds between its readings,
    [since_date] is 2024-03-08T12:00:00+00:00 while [fetched_at] less seven
    days is 2024-03-08T12:00:02, a naive value: the two are unequal. *)
Lemma window_start_is_not_fetched_at_minus_days :
  exists r,
    fst (fetch_user_activity (H := Demo.runtime) "alice" 7 "lesswrong" (Demo.world Demo.forum))
    = Ok r
    /\ UserActivity.since_date r
       = {| wall := Demo.noon - 7 * DT.day_us; utcoffset := Some 0%Z |}
    /\ (let? td := DT.timedelta_days 7 in DT.sub (UserActivity.fetched_at r) td)
       = Ok {| wall := Demo.noon + 2000000 - 7 * DT.day_us; utcoffset := None |}
    /\ DT.eqb (UserActivity.since_date r)
         {| wall := Demo.noon + 2000000 - 7 * DT.day_us; utcoffset := None |} = false.
Proof.
  exists Demo.activity. repeat split; vm_compute; reflexivity.
Qed.

(** ** Tags *)




Lemma matching_tags_filter query_str tags :
  Forall named tags ->
  matching_tags (Str.lower query_str) tags = Ok (filter (name_matches query_str) tags).
Proof.
  induction 1 as [| t tags [s Hs] _ IH]; [reflexivity |].
  cbn [matching_tags filter]. unfold name_matches at 1.
  rewrite Hs. cbn [bind Py.str_method]. rewrite IH. cbn [bind].
  destruct (Str.contains _ _); reflexivity.
Qed.



Lemma tags_page_run `{Runtime} w forum query limit tags w' :
  tags_page w forum query limit tags w' ->
  exists data,
    graphql_query query (Some [("limit", JInt limit)]) forum w = (Ok data, w')
    /\ results_of data "tags" = Ok (JList tags).
Proof.
  intros (url & resp & data & Hu & Ha & Hd & Ht & ->). exists data.
  rewrite (graphql_query_answered _ _ _ _ _ _ Hu Ha), Hd. now split.
Qed.

Lemma page_fetched_tags_page `{Runtime} w forum query limit tags w' :
  page_fetched w forum query limit tags w' -> tags_page w forum query limit tags w'.
Proof. intros (url & resp & data & Hp). now exists url, resp, data. Qed.




Lemma find_tag_step slug t rest s :
  slug_of t = Ok s ->
  find_tag (Str.lower slug) (t :: rest)
  = if String.eqb (Str.lower s) (Str.lower slug) then Ok (Some t)
    else find_tag (Str.lower slug) rest.
Proof.
  unfold slug_of. cbn [find_tag].
  destruct (Py.get t "slug" (JStr "")) as [v | e]; [| discriminate]. cbn [bind].
  now intros ->.
Qed.

Lemma find_tag_first slug before tag after :
  Forall (has_other_slug slug) before ->
  has_slug slug tag ->
  find_tag (Str.lower slug) (before ++ tag :: after) = Ok (Some tag).
Proof.
  intros Hb (s & Hs & Heq). induction Hb as [| t before (s' & Hs' & Hne) _ IH]; cbn [app].
  - rewrite (find_tag_step _ _ _ _ Hs), Heq, String.eqb_refl. reflexivity.
  - rewrite (find_tag_step _ _ _ _ Hs').
    destruct (String.eqb_spec (Str.lower s') (Str.lower slug)); [contradiction | exact IH].
Qed.

Lemma find_tag_none slug tags :
  Forall (has_other_slug slug) tags -> find_tag (Str.lower slug) tags = Ok None.
Proof.
  induction 1 as [| t tags (s & Hs & Hne) _ IH]; [reflexivity |].
  rewrite (find_tag_step _ _ _ _ Hs).
  destruct (String.eqb_spec (Str.lower s) (Str.lower slug)); [contradiction | exact IH].
Qed.

(** A negative [limit] counts from the end, as a Python slice does: of the
    four demo tags, which all contain an [a], [-1] keeps the first three. *)
Example search_tags_negative_limit :
  fst (search_tags (H := Demo.runtime) "a" (-1) "ea" (Demo.world Demo.forum))
  = Ok (firstn 3 Demo.tags).
Proof. vm_compute. reflexivity. Qed.

(** C6.  [get_tag_by_slug] sends one request, for a page of at most 500
    tags (its variables are [{"limit": 500}]), and returns the first
    fetched tag whose slug is the requested one, letter case apart (a tag
    without a slug counts as one with the empty slug); when every tag of
    the page has another slug it raises
    [Exception("Tag/topic not found: " + slug)]. *)
Theorem get_tag_by_slug_spec `{Runtime} slug forum w tags w' :
  page_fetched w forum get_tag_by_slug_query 500 tags w' ->
  (exists url,
     get_forum_url forum = Ok url
     /\ sent w'
        = (sent w ++ [request_with url get_tag_by_slug_query [("limit", JInt 500)]])%list)
  /\ (forall before tag after,
        tags = (before ++ tag :: after)%list ->
        Forall (has_other_slug slug) before ->
        has_slug slug tag ->
        get_tag_by_slug slug forum w = (Ok tag, w'))
  /\ (Forall (has_other_slug slug) tags ->
      get_tag_by_slug slug forum w
      = (Raise (PyException ("Tag/topic not found: " ++ slug)), w')).
Proof.
  intros Hf.
  assert (Hsent : exists url,
             get_forum_url forum = Ok url
             /\ sent w'
                = (sent w ++ [request_with url get_tag_by_slug_query [("limit", JInt 500)]])%list).
  { destruct Hf as (url & _ & _ & Hu & _ & _ & _ & ->). now exists url. }
  apply page_fetched_tags_page, tags_page_run in Hf as (data & Hq & Ht).
  assert (forall found, find_tag (Str.lower slug) tags = Ok found ->
            get_tag_by_slug slug forum w
            = match found with
              | Some tag => (Ok tag, w')
              | None => (Raise (PyException ("Tag/topic not found: " ++ slug)), w')
              end) as Hs.
  { intros found Hf. unfold get_tag_by_slug. rewrite (bindIO_ok _ _ _ _ _ Hq).
    fold (results_of data "tags"). rewrite bindIO_lift, Ht, bindIO_lift.
    cbn [Py.iter bind]. rewrite Hf. now destruct found. }
  split; [exact Hsent | split].
  - intros before tag after -> Hb Hm. apply (Hs (Some tag)). now apply find_tag_first.
  - intros Hb. apply (Hs None). now apply find_tag_none.
Qed.

Ltac other_slugs :=
  repeat (apply Forall_cons; [eexists; split; [reflexivity | vm_compute; discriminate] |]);
  apply Forall_nil.

(** The theorem at the four tags of the demo forum: the request that was
    sent asks for 500 tags, a slug in another letter case is found, an
    absent one is not. *)
Lemma get_tag_by_slug_spec_witness :
  get_tag_by_slug (H := Demo.runtime) "SAFETY-engineering" "ea" (Demo.world Demo.forum)
  = (Ok (Demo.tag "t4" "Safety Engineering" "Safety-Engineering" 7),
     with_sent
       [ {| req_url := "https://forum.effectivealtruism.org/graphql";
            req_json := JDict [("query", JStr get_tag_by_slug_query);
                               ("variables", JDict [("limit", JInt 500)])] |} ]
       (Demo.world Demo.forum))
  /\ fst (get_tag_by_slug (H := Demo.runtime) "economics" "ea" (Demo.world Demo.forum))
     = Raise (PyException "Tag/topic not found: economics")
  /\ sent (snd (get_tag_by_slug (H := Demo.runtime) "economics" "ea" (Demo.world Demo.forum)))
     = [ {| req_url := "https://forum.effectivealtruism.org/graphql";
            req_json := JDict [("query", JStr get_tag_by_slug_query);
                               ("variables", JDict [("limit", JInt 500)])] |} ].
Proof.
  assert (page_fetched (H := Demo.runtime) (Demo.world Demo.forum) "ea" get_tag_by_slug_query
            500 Demo.tags
            (with_sent
               [ {| req_url := "https://forum.effectivealtruism.org/graphql";
                    req_json := JDict [("query", JStr get_tag_by_slug_query);
                                       ("variables", JDict [("limit", JInt 500)])] |} ]
               (Demo.world Demo.forum))) as Hp.
  { exists "https://forum.effectivealtruism.org/graphql",
           {| status_code := 200; body := Some (Demo.results "tags" Demo.tags) |},
           (JDict [("tags", JDict [("results", JList Demo.tags)])]).
    repeat split; vm_compute; reflexivity. }
  destruct (get_tag_by_slug_spec (H := Demo.runtime) "SAFETY-engineering" "ea" _ _ _ Hp)
    as (_ & Efound & _).
  destruct (get_tag_by_slug_spec (H := Demo.runtime) "economics" "ea" _ _ _ Hp)
    as (_ & _ & Enone).
  split.
  - apply (Efound
             [Demo.tag "t1" "AI" "ai" 900; Demo.tag "t2" "AI Safety" "ai-safety" 120;
              Demo.tag "t3" "Rationality" "rationality" 300]
             (Demo.tag "t4" "Safety Engineering" "Safety-Engineering" 7) [] eq_refl).
    + other_slugs.
    + eexists. split; reflexivity.
  - split; [| vm_compute; reflexivity]. rewrite Enone; [reflexivity | other_slugs].
Defined.

(** ** The text report *)

Lemma emit_emit ls1 ls2 w : emit ls2 (emit ls1 w) = emit (ls1 ++ ls2)%list w.
Proof. unfold emit, with_stdout. cbn. now rewrite app_assoc. Qed.

Lemma emit_nil w : emit [] w = w.
Proof. unfold emit, with_stdout. rewrite app_nil_r. now destruct w. Qed.

Lemma print_run line w : print line w = (Ok tt, emit [line] w).
Proof. reflexivity. Qed.

Lemma bindIO_print {B} line (k : unit -> IO B) w : bindIO (print line) k w = k tt (emit [line] w).
Proof. reflexivity. Qed.

(** Run the straight-line steps at the head of a computation. *)
Ltac run_io :=
  repeat (first [rewrite bindIO_lift | rewrite bindIO_print]; cbn beta iota).

Lemma getitem_dict v key x : Py.getitem v key = Ok x -> exists d, v = JDict d.
Proof. destruct v; try discriminate. intros _. now eexists. Qed.

Lemma print_comment_run `{Runtime} c w :
  well_formed_comment c -> print_comment c w = (Ok tt, emit (comment_block c) w).
Proof.
  intros ([date Hd] & [title Ht] & [text Hx]).
  unfold print_comment, comment_block. fold (item_date c) (comment_post_title c).
  rewrite Hd, Ht, Hx. cbn [value bind Py.str_method].
  unfold item_date in Hd. destruct (Py.getitem c "postedAt") as [v | e] eqn:Hp; [| discriminate].
  apply getitem_dict in Hp as [d ->]. clear Hd.
  unfold plaintext_description in Hx. cbn [Py.get bind] in Hx.
  cbn [Py.get bind value]. run_io. rewrite Hx. cbn [bind Py.slice_to]. run_io.
  rewrite print_run, !emit_emit. reflexivity.
Qed.

Lemma for_each_print_comment `{Runtime} cs w :
  Forall well_formed_comment cs ->
  for_each print_comment cs w = (Ok tt, emit (flat_map comment_block cs) w).
Proof.
  intros Hw. revert w. induction Hw as [| c cs Hc _ IH]; intros w; cbn [for_each flat_map].
  - unfold ret. now rewrite emit_nil.
  - rewrite (bindIO_ok _ _ _ _ _ (print_comment_run c w Hc)), IH, emit_emit. reflexivity.
Qed.

Lemma print_comments_run `{Runtime} cs w :
  Forall well_formed_comment (firstn 10 cs) ->
  print_comments (JList cs) w = (Ok tt, emit (comments_report cs) w).
Proof.
  intros Hw. unfold print_comments, comments_report, more_comments.
  cbn [Py.len]. run_io. cbn [Py.truthy].
  destruct cs as [| c cs'].
  - rewrite print_run, emit_emit. reflexivity.
  - set (cs := c :: cs') in *. cbn [Py.slice_to Py.iter bind]. run_io.
    rewrite (bindIO_ok _ _ _ _ _ (for_each_print_comment _ _ Hw)). cbn [Py.len]. run_io.
    destruct (10 <? Z.of_nat (List.length cs))%Z.
    + rewrite print_run, !emit_emit. reflexivity.
    + unfold ret. rewrite emit_emit, app_nil_r. reflexivity.
Qed.

Lemma print_post_run `{Runtime} p :
  well_formed_post p -> exists ls, forall w, print_post p w = (Ok tt, emit ls w).
Proof.
  intros ([date Hd] & [title Ht]). unfold print_post. fold (item_date p). rewrite Hd, Ht.
  destruct (getitem_dict _ _ _ Ht) as [d ->]. eexists. intros w.
  cbn [Py.get]. run_io. rewrite print_run, emit_emit. reflexivity.
Qed.

Lemma for_each_print_post `{Runtime} ps :
  Forall well_formed_post ps -> exists ls, forall w, for_each print_post ps w = (Ok tt, emit ls w).
Proof.
  induction 1 as [| p ps Hp _ [ls IH]]; cbn [for_each].
  - exists []. intros w. unfold ret. now rewrite emit_nil.
  - destruct (print_post_run p Hp) as [l Hl]. exists (l ++ ls)%list. intros w.
    rewrite (bindIO_ok _ _ _ _ _ (Hl w)), IH, emit_emit. reflexivity.
Qed.

(** Name the lines printed before the comments part. *)
Ltac lines_before L :=
  lazymatch L with
  | (?x ++ ?rest)%list =>
      lazymatch rest with
      | (comments_report _ ++ _)%list => constr:(x)
      | _ => let r := lines_before rest in constr:((x ++ r)%list)
      end
  end.

Ltac close_report :=
  match goal with
  | |- exists before, (_, emit ?L _) = _ =>
      let X := lines_before L in
      exists X; rewrite <- ?app_assoc; reflexivity
  end.

Lemma take_prefix n s :
  exists rest, s = Str.take n s ++ rest
               /\ String.length (Str.take n s) = Nat.min n (String.length s).
Proof.
  unfold Str.take. revert n. induction s as [| c s IH]; intros [| n]; cbn.
  - now exists EmptyString.
  - now exists EmptyString.
  - now exists (String c s).
  - destruct (IH n) as (rest & Hr & Hl). exists rest. split; [now rewrite <- Hr | now rewrite Hl].
Qed.

(** X30.  What the comments part shows when nothing goes wrong.  For a
    report whose user has a slug, whose posts have a date and a title and
    whose first 10 comments are well formed (a date [format_date] reads, a
    [post] that is absent or an object, a [plaintextDescription] that is
    absent or a string; a comment whose [post] is [null] is not),
    [print_user_activity] returns and prints, after the header and the
    posts, exactly [comments_report comments] and an empty line: the
    count, three lines for each of the first [min 10 n] comments, and the
    one line [  ... and (n-10) more comments] when there are [n > 10]
    comments.  The second line of a comment is its excerpt in double
    quotes: the first [min 100 length] characters of its plaintext
    description, followed by three dots. *)
Theorem print_user_activity_comments `{Runtime} activity posts comments w :
  well_formed_user (UserActivity.user activity) ->
  UserActivity.posts activity = JList posts ->
  Forall well_formed_post posts ->
  UserActivity.comments activity = JList comments ->
  Forall well_formed_comment (firstn 10 comments) ->
  (exists before,
     print_user_activity activity w
     = (Ok tt, emit (before ++ comments_report comments ++ [EmptyString])%list w))
  /\ List.length (firstn 10 comments) = Nat.min 10 (List.length comments)
  /\ (forall c, In c (firstn 10 comments) ->
        exists text excerpt rest first last,
          plaintext_description c = Ok (JStr text)
          /\ text = excerpt ++ rest
          /\ String.length excerpt = Nat.min 100 (String.length text)
          /\ comment_block c
             = [first; "    " ++ Str.dquote ++ excerpt ++ "..." ++ Str.dquote; last]).
Proof.
  intros [slug Hu] Hp Hps Hc Hcs. split; [| split].
  - unfold print_user_activity. rewrite Hp, Hc.
    destruct (getitem_dict _ _ _ Hu) as [d Hd]. rewrite Hd in *.
    rewrite Hu. cbn [bind Py.get Py.len]. run_io. cbn [Py.truthy].
    destruct (for_each_print_post posts Hps) as [ls Hls].
    destruct posts as [| p posts'].
    + run_io.
      rewrite (bindIO_ok _ _ _ _ _ (print_comments_run _ _ Hcs)), print_run, !emit_emit.
      close_report.
    + set (ps := p :: posts') in *.
      unfold bindIO at 1. cbn [Py.iter]. run_io. rewrite Hls.
      rewrite (bindIO_ok _ _ _ _ _ (print_comments_run _ _ Hcs)), print_run, !emit_emit.
      close_report.
  - apply length_firstn.
  - intros c Hin. rewrite Forall_forall in Hcs.
    destruct (Hcs c Hin) as (_ & _ & [text Hx]).
    destruct (take_prefix 100 text) as (rest & Hr & Hl).
    exists text, (Str.take 100 text), rest. unfold comment_block.
    rewrite Hx. cbn [bind Py.str_method value]. eexists _, _. now repeat split.
Qed.

(** The theorem at a report with 15 comments whose texts have 96 to 110
    characters: 10 are shown, the excerpt of the tenth, whose text has 105
    characters, is cut to 100, and the last line of the comments part
    counts the other 5. *)
Lemma print_user_activity_comments_witness :
  (exists before,
     print_user_activity (H := Demo.runtime) DemoCli.activity_long (Demo.world Demo.forum)
     = (Ok tt,
        emit (before ++ comments_report (H := Demo.runtime) DemoCli.long_comments
              ++ [EmptyString])%list
          (Demo.world Demo.forum)))
  /\ plaintext_description (Demo.comment 15) = Ok (JStr (Str.repeat "x" 105))
  /\ nth 29 (comments_report (H := Demo.runtime) DemoCli.long_comments) EmptyString
     = "    " ++ Str.dquote ++ Str.repeat "x" 100 ++ "..." ++ Str.dquote
  /\ nth 30 (comments_report (H := Demo.runtime) DemoCli.long_comments) EmptyString
     = "    https://www.lesswrong.com/c/15"
  /\ nth 31 (comments_report (H := Demo.runtime) DemoCli.long_comments) EmptyString
     = "  ... and 5 more comments"
  /\ List.length (comments_report (H := Demo.runtime) DemoCli.long_comments) = 32.
Proof.
  split; [| repeat split; vm_compute; reflexivity].
  apply (print_user_activity_comments (H := Demo.runtime) DemoCli.activity_long
           [Demo.new_post] DemoCli.long_comments (Demo.world Demo.forum)).
  - eexists. reflexivity.
  - reflexivity.
  - repeat (apply Forall_cons; [split; eexists; vm_compute; reflexivity |]). apply Forall_nil.
  - reflexivity.
  - cbn [DemoCli.long_comments Demo.comments seq map firstn].
    repeat (apply Forall_cons; [repeat split; eexists; vm_compute; reflexivity |]).
    apply Forall_nil.
Defined.

(** C9.  A comment without post is not shown.  The forum gives a comment
    that is on no post with [post: null]; the comment passes the recency
    filter, so [fetch_user_activity] puts it in the report, and
    [print_user_activity] raises [AttributeError] at
    [comment.get("post", {}).get("title", "Unknown post")], right after the
    count line, instead of showing the first 10 comments.  The next line
    of the source, [comment.get("contents", {}) or {}], does guard
    [contents] against [null]: the same comment with an empty [post] and
    [contents: null] is shown. *)
Theorem print_user_activity_null_post :
  fst (fetch_user_activity (H := Demo.runtime) "alice" 7 "lesswrong"
         (Demo.world DemoCli.forum_with_orphan))
  = Ok DemoCli.activity_with_orphan
  /\ Py.getitem DemoCli.orphan_comment "post" = Ok JNull
  /\ print_user_activity (H := Demo.runtime) DemoCli.activity_with_orphan
       (Demo.world DemoCli.forum_with_orphan)
     = (Raise AttributeError,
        emit (user_header (H := Demo.runtime) "lesswrong" Demo.alice
              ++ posts_report (H := Demo.runtime) [Demo.new_post]
              ++ [comments_count 1])%list
          (Demo.world DemoCli.forum_with_orphan))
  /\ print_comment (H := Demo.runtime)
       (JDict [("_id", JStr "c0"); ("postedAt", JStr "2024-03-14T09:30:00.000Z");
               ("pageUrl", JStr "https://www.lesswrong.com/c/0"); ("baseScore", JInt 3);
               ("post", JDict []);
               ("contents", JNull)])
       (Demo.world DemoCli.forum_with_orphan)
     = (Ok tt,
        emit [ "  [Mar 14, 2024] On: Unknown post (score: 3)";
               "    " ++ Str.dquote ++ "..." ++ Str.dquote;
               "    https://www.lesswrong.com/c/0" ]
          (Demo.world DemoCli.forum_with_orphan)).
Proof. repeat split; vm_compute; reflexivity. Qed.

(** * Further properties of the code *)

(** ** Forum resolution *)

Lemma forum_lookup_Some key registry config :
  forum_lookup key registry = Some config -> In (key, config) registry.
Proof.
  induction registry as [| [k c] rest IH]; simpl; [discriminate |].
  destruct (String.eqb k key) eqn:E.
  - apply String.eqb_eq in E. intros [= ->]. left. now subst.
  - intros Hl. right. now apply IH.
Qed.

Lemma alias_owner_Some input registry key :
  alias_owner input registry = Some key ->
  exists config, In (key, config) registry /\ In input (aliases config).
Proof.
  induction registry as [| [k c] rest IH]; simpl; [discriminate |].
  destruct (mem input (aliases c)) eqn:E.
  - intros [= ->]. exists c. split; [now left |].
    unfold mem in E. apply existsb_exists in E. destruct E as (a & Ha & Heq).
    apply String.eqb_eq in Heq. now subst.
  - intros Ho. destruct (IH Ho) as (config & Hin & Ha). exists config. split; [now right | exact Ha].
Qed.

Lemma resolve_forum_inv input key :
  resolve_forum input = Ok key ->
  exists config,
    In (key, config) FORUMS
    /\ (Str.strip (Str.lower input) = key
        \/ In (Str.strip (Str.lower input)) (aliases config)).
Proof.
  unfold resolve_forum.
  destruct (forum_lookup (Str.strip (Str.lower input)) FORUMS) as [config |] eqn:El.
  - intros [= <-]. exists config. split; [now apply forum_lookup_Some | now left].
  - destruct (alias_owner (Str.strip (Str.lower input)) FORUMS) as [k |] eqn:Ea; [| discriminate].
    intros [= <-]. destruct (alias_owner_Some _ _ _ Ea) as (config & Hin & Ha).
    exists config. split; [exact Hin | now right].
Qed.

(** X1.  [resolve_forum] returns [key] exactly when [key] is a key of the
    registry and the input, in small letters and stripped, is that key or
    one of the aliases of its forum; a key it returns resolves to itself. *)
Theorem resolve_forum_canonical input key :
  (resolve_forum input = Ok key
   <-> exists config,
         In (key, config) FORUMS
         /\ (Str.strip (Str.lower input) = key
             \/ In (Str.strip (Str.lower input)) (aliases config)))
  /\ (resolve_forum input = Ok key -> resolve_forum key = Ok key).
Proof.
  assert (Hkey : forall config, In (key, config) FORUMS -> resolve_forum key = Ok key).
  { intros config Hin. simpl in Hin.
    destruct Hin as [E | [E | [E | []]]]; injection E as <- <-; reflexivity. }
  split; [split |].
  - apply resolve_forum_inv.
  - intros (config & Hin & Hor). unfold resolve_forum.
    set (normal := Str.strip (Str.lower input)) in *.
    clearbody normal. simpl in Hin.
    destruct Hin as [E | [E | [E | []]]]; injection E as <- <-;
      (destruct Hor as [-> | Ha]; [reflexivity |]);
      simpl in Ha; repeat (destruct Ha as [<- | Ha]; [reflexivity |]); destruct Ha.
  - intros Hr. destruct (resolve_forum_inv _ _ Hr) as (config & Hin & _). exact (Hkey config Hin).
Qed.

(** The theorem at [" LW "]: it resolves to [lesswrong], which resolves to
    itself. *)
Lemma resolve_forum_canonical_witness :
  resolve_forum " LW " = Ok "lesswrong" /\ resolve_forum "lesswrong" = Ok "lesswrong".
Proof.
  assert (E : resolve_forum " LW " = Ok "lesswrong").
  { apply (proj1 (resolve_forum_canonical " LW " "lesswrong")).
    eexists. split; [left; reflexivity | right; left; reflexivity]. }
  split; [exact E | exact (proj2 (resolve_forum_canonical " LW " "lesswrong") E)].
Defined.

(** X2.  [get_forum_url] and [get_forum_base_url] fail exactly as
    [resolve_forum] does, with its exception; when it returns a key, they
    return the two addresses of that forum of the registry (the lookup
    [FORUMS[forum_key]] never raises), and the GraphQL endpoint is the base
    address followed by [/graphql]. *)
Theorem forum_urls forum :
  match resolve_forum forum with
  | Ok key =>
      exists config,
        In (key, config) FORUMS
        /\ get_forum_base_url forum = Ok (base_url config)
        /\ get_forum_url forum = Ok (base_url config ++ "/graphql")
  | Raise e => get_forum_url forum = Raise e /\ get_forum_base_url forum = Raise e
  end.
Proof.
  unfold get_forum_url, get_forum_base_url.
  destruct (resolve_forum forum) as [key | e] eqn:Er; [| now split].
  destruct (resolve_forum_inv forum key Er) as (config & Hin & _).
  exists config. split; [exact Hin |]. cbn [bind]. simpl in Hin.
  destruct Hin as [E | [E | [E | []]]]; injection E as <- <-; now split.
Qed.

(** ** The transport, continued *)

Lemma handle_response_Ok `{Runtime} resp data :
  handle_response resp = Ok data
  <-> status_passes resp
      /\ exists d,
           body resp = Some (JDict d)
           /\ Py.lookup "errors" d = None
           /\ data = match Py.lookup "data" d with Some x => x | None => JDict [] end.
Proof.
  unfold handle_response, raise_for_status, response_json, status_passes. split.
  - destruct ((400 <=? status_code resp) && (status_code resp <? 600))%Z eqn:Es; [discriminate |].
    cbn [bind]. destruct (body resp) as [v |]; [| discriminate]. cbn [bind].
    intros Hd. split; [lia |].
    destruct v as [| b | z | f | s | l | d]; try discriminate.
    + cbn [Py.has bind] in Hd.
      destruct (Str.contains "errors" s); cbn [bind Py.getitem Py.get] in Hd; discriminate.
    + cbn [Py.has bind] in Hd.
      destruct (existsb _ l); cbn [bind Py.getitem Py.get] in Hd; discriminate.
    + exists d. split; [reflexivity |]. cbn [Py.has bind Py.getitem Py.get] in Hd.
      destruct (Py.lookup "errors" d); cbn [bind] in Hd; [discriminate |].
      injection Hd as <-. now split.
  - intros (Hs & d & Hb & He & ->).
    replace ((400 <=? status_code resp) && (status_code resp <? 600))%Z with false by lia.
    cbn [bind]. rewrite Hb. cbn [bind Py.has]. rewrite He. reflexivity.
Qed.

(** X3.  [graphql_query] returns [data] exactly when the forum resolves,
    the server answered the one request, the status is not an error
    status, the body is a JSON object without the key [errors], and
    [data] is what the object holds under [data], or the empty dictionary
    when it has no such key. *)
Theorem graphql_query_returns `{Runtime} query variables forum w data w' :
  graphql_query query variables forum w = (Ok data, w')
  <-> exists url resp d,
        get_forum_url forum = Ok url
        /\ answers w (graphql_request url query variables) resp
        /\ status_passes resp
        /\ body resp = Some (JDict d)
        /\ Py.lookup "errors" d = None
        /\ data = match Py.lookup "data" d with Some x => x | None => JDict [] end
        /\ w' = after_request (graphql_request url query variables) w.
Proof.
  rewrite graphql_query_run. split.
  - destruct (get_forum_url forum) as [url | e]; [| discriminate].
    cbv zeta. intros E. injection E as Hr <-.
    destruct (server w (sent w) (graphql_request url query variables)) as [resp | e] eqn:Es;
      [| discriminate].
    cbn [bind] in Hr. apply handle_response_Ok in Hr. destruct Hr as (Hs & d & Hb & He & ->).
    exists url, resp, d. repeat split; assumption.
  - intros (url & resp & d & -> & Ha & Hs & Hb & He & -> & ->). cbv zeta.
    unfold answers in Ha. rewrite Ha. cbn [bind]. f_equal.
    apply handle_response_Ok. split; [exact Hs |]. exists d. now repeat split.
Qed.

(** The theorem at a server that answers [{"data": null}]: the call
    returns [None], not the empty dictionary. *)
Lemma graphql_query_returns_witness :
  graphql_query (H := Demo.runtime) "{ currentUser { _id } }" None "lw"
    (Demo.world (fun _ => Demo.ok200 (JDict [("data", JNull)])))
  = (Ok JNull,
     after_request
       (graphql_request "https://www.lesswrong.com/graphql" "{ currentUser { _id } }" None)
       (Demo.world (fun _ => Demo.ok200 (JDict [("data", JNull)])))).
Proof.
  apply (proj2 (graphql_query_returns (H := Demo.runtime) "{ currentUser { _id } }" None "lw"
                  (Demo.world (fun _ => Demo.ok200 (JDict [("data", JNull)]))) JNull _)).
  eexists _, _, _. repeat split; try reflexivity. left. vm_compute. reflexivity.
Defined.

(** X4.  Whatever happens, [graphql_query] reads no clock and prints
    nothing; for a forum that does not resolve it fails with the
    exception of [resolve_forum] before any request is sent; otherwise it
    sends exactly one request, to the endpoint of the forum, even when the
    call fails afterwards.  The request always carries the query, and an
    empty [variables] gives the same request as [None]. *)
Theorem graphql_query_traffic `{Runtime} query variables forum w :
  let w' := snd (graphql_query query variables forum w) in
  only_sent w w'
  /\ match get_forum_url forum with
     | Raise e =>
         fst (graphql_query query variables forum w) = Raise e /\ sent w' = sent w
     | Ok url =>
         sent w' = (sent w ++ [ {| req_url := url; req_json := payload query variables |} ])%list
     end
  /\ payload query (Some []) = payload query None
  /\ Py.getitem (payload query variables) "query" = Ok (JStr query).
Proof.
  cbv zeta. rewrite graphql_query_run.
  destruct (get_forum_url forum) as [url | e]; cbn [fst snd];
    repeat split; try reflexivity;
    destruct variables as [[| v vs] |]; reflexivity.
Qed.

(** ** Users, continued *)

Lemma get_user_by_slug_run `{Runtime} slug forum w :
  get_user_by_slug slug forum w
  = match graphql_query get_user_by_slug_query (Some [("slug", JStr slug)]) forum w with
    | (Ok data, w') =>
        (let? u := Py.get data "user" (JDict []) in
         let? user := Py.get u "result" JNull in
         if Py.truthy user then Ok user else Raise (PyException ("User not found: " ++ slug)),
         w')
    | (Raise e, w') => (Raise e, w')
    end.
Proof.
  unfold get_user_by_slug, bindIO.
  destruct (graphql_query _ _ forum w) as [[data | e] w1]; [| reflexivity].
  unfold lift. destruct (Py.get data "user" (JDict [])) as [u | e]; [| reflexivity].
  cbn [bind]. destruct (Py.get u "result" JNull) as [user | e]; [| reflexivity].
  cbn [bind]. now destruct (Py.truthy user).
Qed.

(** X5.  [get_user_by_slug] returns [user] exactly when the query
    returned an object whose [user] is an object whose [result] is [user],
    and [user] is true in Python's sense (not [null], not an empty
    object); it sends nothing beyond the query. *)
Theorem get_user_by_slug_returns `{Runtime} slug forum w user w' :
  get_user_by_slug slug forum w = (Ok user, w')
  <-> exists d u,
        graphql_query get_user_by_slug_query (Some [("slug", JStr slug)]) forum w
        = (Ok (JDict d), w')
        /\ Py.lookup "user" d = Some (JDict u)
        /\ Py.lookup "result" u = Some user
        /\ Py.truthy user = true.
Proof.
  rewrite get_user_by_slug_run. split.
  - destruct (graphql_query _ _ forum w) as [[data | e] w1]; [| discriminate].
    destruct data as [| b | z | f | s | l | d]; try discriminate.
    cbn [Py.get bind].
    destruct (Py.lookup "user" d) as [u |] eqn:Eu; [| discriminate].
    destruct u as [| b | z | f | s | l | u]; try discriminate.
    cbn [Py.get bind].
    destruct (Py.lookup "result" u) as [r |] eqn:Er; [| discriminate].
    destruct (Py.truthy r) eqn:Et; [| discriminate].
    intros [= <- <-]. now exists d, u.
  - intros (d & u & -> & Eu & Er & Et). cbn [Py.get bind]. rewrite Eu. cbn [Py.get bind].
    rewrite Er, Et. reflexivity.
Qed.

(** The theorem at the demo forum: Alice is found. *)
Lemma get_user_by_slug_returns_witness :
  get_user_by_slug (H := Demo.runtime) "alice" "lw" (Demo.world Demo.forum)
  = (Ok Demo.alice,
     after_request
       (graphql_request "https://www.lesswrong.com/graphql" get_user_by_slug_query
          (Some [("slug", JStr "alice")]))
       (Demo.world Demo.forum)).
Proof.
  apply (proj2 (get_user_by_slug_returns (H := Demo.runtime) "alice" "lw"
                  (Demo.world Demo.forum) Demo.alice _)).
  eexists _, _. repeat split; vm_compute; reflexivity.
Defined.

(** X6.  When the query returned an object, [get_user_by_slug] raises
    [Exception("User not found: <slug>")] if the object has no [user], or
    if [user] is an object whose [result] is absent or false in Python's
    sense ([null], an empty object); if [user] itself is [null] the failure
    is the [AttributeError] of [None.get]. *)
Theorem get_user_by_slug_not_found `{Runtime} slug forum w d w' :
  graphql_query get_user_by_slug_query (Some [("slug", JStr slug)]) forum w
  = (Ok (JDict d), w') ->
  (Py.lookup "user" d = None ->
   get_user_by_slug slug forum w = (Raise (PyException ("User not found: " ++ slug)), w'))
  /\ (forall u,
        Py.lookup "user" d = Some (JDict u) ->
        (forall r, Py.lookup "result" u = Some r -> Py.truthy r = false) ->
        get_user_by_slug slug forum w = (Raise (PyException ("User not found: " ++ slug)), w'))
  /\ (Py.lookup "user" d = Some JNull ->
      get_user_by_slug slug forum w = (Raise AttributeError, w')).
Proof.
  intros Hq. rewrite get_user_by_slug_run, Hq. cbn [Py.get bind]. repeat split.
  - intros ->. reflexivity.
  - intros u -> Hr. cbn [Py.get bind].
    destruct (Py.lookup "result" u) as [r |]; [| reflexivity]. now rewrite (Hr r eq_refl).
  - intros ->. reflexivity.
Qed.

(** The theorem at a forum that answers [{"data": {"user": {"result":
    null}}}]. *)
Lemma get_user_by_slug_not_found_witness :
  get_user_by_slug (H := Demo.runtime) "bob" "lw" (Demo.world DemoCli.nobody)
  = (Raise (PyException "User not found: bob"),
     after_request
       (graphql_request "https://www.lesswrong.com/graphql" get_user_by_slug_query
          (Some [("slug", JStr "bob")]))
       (Demo.world DemoCli.nobody)).
Proof.
  apply (proj1 (proj2 (get_user_by_slug_not_found (H := Demo.runtime) "bob" "lw"
                         (Demo.world DemoCli.nobody)
                         [("user", JDict [("result", JNull)])] _ eq_refl))
           [("result", JNull)] eq_refl).
  intros r [= <-]. reflexivity.
Defined.

(** ** The fetchers and the recency filter, continued *)

Lemma results_of_absent field d : page_absent field d -> results_of (JDict d) field = Ok (JList []).
Proof.
  unfold results_of. cbn [Py.get bind].
  intros [-> | (page & -> & Hr)]; cbn [Py.get bind Py.lookup]; [reflexivity | now rewrite Hr].
Qed.

Lemma filter_if_since_nil `{Runtime} since_date : filter_if_since since_date (JList []) = Ok (JList []).
Proof. now destruct since_date. Qed.

Lemma fetch_page_absent `{Runtime} query variables forum field since_date w d w' :
  graphql_query query variables forum w = (Ok (JDict d), w') ->
  page_absent field d ->
  (data <- graphql_query query variables forum ;;
   posts <- lift (let? ps := Py.get data field (JDict []) in Py.get ps "results" (JList [])) ;;
   lift (filter_if_since since_date posts)) w
  = (Ok (JList []), w').
Proof.
  intros Hq Ha. rewrite fetch_page_run, Hq. cbn [fst snd bind].
  rewrite (results_of_absent _ _ Ha). cbn [bind]. now rewrite filter_if_since_nil.
Qed.

(** X7.  When the answer of the server holds no page (the field of the
    query is missing from [data], or is an object without [results]),
    [get_user_posts], [get_user_comments] and [get_posts_by_tag] return
    the empty list, with or without a window. *)
Theorem fetch_absent_page `{Runtime} since_date limit forum w d w' :
  (forall user_id,
     graphql_query get_user_posts_query
       (Some [("userId", user_id); ("limit", JInt limit)]) forum w = (Ok (JDict d), w') ->
     page_absent "posts" d ->
     get_user_posts user_id since_date limit forum w = (Ok (JList []), w'))
  /\ (forall user_id,
        graphql_query get_user_comments_query
          (Some [("userId", user_id); ("limit", JInt limit)]) forum w = (Ok (JDict d), w') ->
        page_absent "comments" d ->
        get_user_comments user_id since_date limit forum w = (Ok (JList []), w'))
  /\ (forall tag_id,
        graphql_query get_posts_by_tag_query
          (Some [("tagId", tag_id); ("limit", JInt limit)]) forum w = (Ok (JDict d), w') ->
        page_absent "posts" d ->
        get_posts_by_tag tag_id since_date limit forum w = (Ok (JList []), w')).
Proof.
  repeat split; intros id Hq Ha.
  - exact (fetch_page_absent _ _ _ "posts" since_date _ _ _ Hq Ha).
  - exact (fetch_page_absent _ _ _ "comments" since_date _ _ _ Hq Ha).
  - exact (fetch_page_absent _ _ _ "posts" since_date _ _ _ Hq Ha).
Qed.

(** The theorem at a server that answers [{"data": {}}]: no comments. *)
Lemma fetch_absent_page_witness :
  get_user_comments (H := Demo.runtime) (JStr "u1") (Some Demo.week_ago) 100 "lw"
    (Demo.world (fun _ => Demo.ok200 (JDict [("data", JDict [])])))
  = (Ok (JList []),
     after_request
       (graphql_request "https://www.lesswrong.com/graphql" get_user_comments_query
          (Some [("userId", JStr "u1"); ("limit", JInt 100)]))
       (Demo.world (fun _ => Demo.ok200 (JDict [("data", JDict [])])))).
Proof.
  apply (proj1 (proj2 (fetch_absent_page (H := Demo.runtime) (Some Demo.week_ago) 100 "lw"
                         (Demo.world (fun _ => Demo.ok200 (JDict [("data", JDict [])]))) [] _))).
  - reflexivity.
  - left. reflexivity.
Defined.

Lemma filter_since_app_failure `{Runtime} since before p after e :
  Forall (dated since) before ->
  timestamp_test since p = Raise e ->
  filter_since since (before ++ p :: after) = Raise e.
Proof.
  unfold timestamp_test. intros Hb Hp. induction Hb as [| x before (t & b & Ht & Hge) _ IH].
  - cbn [app filter_since]. destruct (posted_at p) as [t | e']; cbn [bind] in *.
    + now rewrite Hp.
    + now injection Hp as ->.
  - cbn [app filter_since]. rewrite Ht. cbn [bind]. rewrite Hge. cbn [bind]. now rewrite IH.
Qed.

Lemma fetch_page_failure `{Runtime} query variables forum field since w data w' before p after e :
  graphql_query query variables forum w = (Ok data, w') ->
  results_of data field = Ok (JList (before ++ p :: after)) ->
  Forall (dated since) before ->
  timestamp_test since p = Raise e ->
  (data <- graphql_query query variables forum ;;
   posts <- lift (let? ps := Py.get data field (JDict []) in Py.get ps "results" (JList [])) ;;
   lift (filter_if_since (Some since) posts)) w
  = (Raise e, w').
Proof.
  intros Hq Hr Hb Hp. rewrite fetch_page_run, Hq. cbn [fst snd bind]. rewrite Hr.
  cbn [bind filter_if_since Py.iter]. now rewrite (filter_since_app_failure _ _ _ _ _ Hb Hp).
Qed.

(** X8.  The recency filter keeps no partial result: if the test of one
    item [p] of the page raises, and the items before it have timestamps
    that compare with the window, the filter raises that exception,
    whatever follows [p], and so do [get_user_posts], [get_user_comments]
    and [get_posts_by_tag] on that page.  An item without [postedAt]
    raises [KeyError('postedAt')]; a timestamp without UTC offset raises
    [TypeError] against the window of the program, which has one. *)
Theorem filter_since_first_failure `{Runtime} since before p after e :
  Forall (dated since) before ->
  timestamp_test since p = Raise e ->
  filter_since since (before ++ p :: after) = Raise e
  /\ (forall user_id limit forum w data w',
        graphql_query get_user_posts_query
          (Some [("userId", user_id); ("limit", JInt limit)]) forum w = (Ok data, w') ->
        results_of data "posts" = Ok (JList (before ++ p :: after)) ->
        get_user_posts user_id (Some since) limit forum w = (Raise e, w'))
  /\ (forall user_id limit forum w data w',
        graphql_query get_user_comments_query
          (Some [("userId", user_id); ("limit", JInt limit)]) forum w = (Ok data, w') ->
        results_of data "comments" = Ok (JList (before ++ p :: after)) ->
        get_user_comments user_id (Some since) limit forum w = (Raise e, w'))
  /\ (forall tag_id limit forum w data w',
        graphql_query get_posts_by_tag_query
          (Some [("tagId", tag_id); ("limit", JInt limit)]) forum w = (Ok data, w') ->
        results_of data "posts" = Ok (JList (before ++ p :: after)) ->
        get_posts_by_tag tag_id (Some since) limit forum w = (Raise e, w'))
  /\ (forall d, Py.lookup "postedAt" d = None ->
                timestamp_test since (JDict d) = Raise (KeyError "postedAt"))
  /\ (forall q t offset, posted_at q = Ok t -> utcoffset t = None ->
                         utcoffset since = Some offset ->
                         timestamp_test since q = Raise TypeError).
Proof.
  intros Hb Hp. split; [now apply filter_since_app_failure |].
  split; [| split; [| split; [| split] ] ].
  - intros user_id limit forum w data w' Hq Hr.
    exact (fetch_page_failure _ _ _ "posts" _ _ _ _ _ _ _ _ Hq Hr Hb Hp).
  - intros user_id limit forum w data w' Hq Hr.
    exact (fetch_page_failure _ _ _ "comments" _ _ _ _ _ _ _ _ Hq Hr Hb Hp).
  - intros tag_id limit forum w data w' Hq Hr.
    exact (fetch_page_failure _ _ _ "posts" _ _ _ _ _ _ _ _ Hq Hr Hb Hp).
  - intros d Hd. unfold timestamp_test, posted_at. cbn [Py.getitem]. now rewrite Hd.
  - intros q t offset Ht Hn Hs. unfold timestamp_test. rewrite Ht. cbn [bind].
    unfold DT.ge. now rewrite Hn, Hs.
Qed.

(** The theorem at a page whose second post has no [postedAt]. *)
Lemma filter_since_first_failure_witness :
  filter_since (H := Demo.runtime) Demo.week_ago
    [Demo.new_post; JDict [("title", JStr "Undated")]; Demo.old_post]
  = Raise (KeyError "postedAt").
Proof.
  apply (proj1 (filter_since_first_failure (H := Demo.runtime) Demo.week_ago
                  [Demo.new_post] (JDict [("title", JStr "Undated")]) [Demo.old_post]
                  (KeyError "postedAt")
                  ltac:(repeat constructor; eexists _, _; split; vm_compute; reflexivity)
                  ltac:(reflexivity))).
Defined.

Lemma ge_trans t since1 since2 b :
  DT.ge since2 since1 = Ok true ->
  DT.ge t since1 = Ok b ->
  exists b2, DT.ge t since2 = Ok b2 /\ (b2 = true -> b = true).
Proof.
  unfold DT.ge.
  destruct (utcoffset since2) as [o2 |], (utcoffset since1) as [o1 |], (utcoffset t) as [ot |];
    try discriminate; intros [= H21] [= <-]; eexists; (split; [reflexivity |]); lia.
Qed.

Lemma on_or_after_narrow `{Runtime} since1 since2 p :
  DT.ge since2 since1 = Ok true ->
  dated since1 p ->
  dated since2 p /\ (on_or_after since2 p = true -> on_or_after since1 p = true).
Proof.
  intros H21 (t & b & Ht & Hge). destruct (ge_trans _ _ _ _ H21 Hge) as (b2 & Hge2 & Hb).
  split; [now exists t, b2 |]. unfold on_or_after. now rewrite Ht, Hge, Hge2.
Qed.

Lemma filter_filter_narrow {A} (f g : A -> bool) l :
  Forall (fun x => g x = true -> f x = true) l -> filter g (filter f l) = filter g l.
Proof.
  induction 1 as [| x l Hx _ IH]; [reflexivity |]. cbn [filter].
  destruct (f x) eqn:Ef; cbn [filter]; rewrite IH; [reflexivity |].
  destruct (g x); [| reflexivity]. discriminate (Hx eq_refl).
Qed.

Lemma Forall_filter {A} (P : A -> Prop) f l : Forall P l -> Forall P (filter f l).
Proof.
  induction 1 as [| x l Hx _ IH]; cbn [filter]; [constructor |].
  destruct (f x); [now constructor | exact IH].
Qed.

(** X9.  A window inside a window: when the filter returned [kept1] for
    the start [since1], and [since2 >= since1], the filter also returns
    for [since2], and gives the same list on [kept1] as on the whole
    page: a subsequence of [kept1]. *)
Theorem filter_since_narrow `{Runtime} since1 since2 items kept1 :
  DT.ge since2 since1 = Ok true ->
  filter_since since1 items = Ok kept1 ->
  exists kept2,
    filter_since since2 items = Ok kept2
    /\ filter_since since2 kept1 = Ok kept2
    /\ subseq kept2 kept1.
Proof.
  intros H21 H1. pose proof (filter_since_dated _ _ _ H1) as Hd1.
  destruct (filter_since_kept _ _ _ H1) as (-> & _ & _).
  assert (Hd2 : Forall (dated since2) items).
  { eapply Forall_impl; [| exact Hd1]. intros p Hp. exact (proj1 (on_or_after_narrow _ _ _ H21 Hp)). }
  exists (filter (on_or_after since2) items). split; [now apply filter_since_filter |].
  assert (E : filter (on_or_after since2) (filter (on_or_after since1) items)
              = filter (on_or_after since2) items).
  { apply filter_filter_narrow. eapply Forall_impl; [| exact Hd1].
    intros p Hp. exact (proj2 (on_or_after_narrow _ _ _ H21 Hp)). }
  split.
  - rewrite filter_since_filter; [now rewrite E | now apply Forall_filter].
  - rewrite <- E. apply filter_subseq.
Qed.

(** The theorem at three posts of 20, 10 and 3 days before noon, with
    windows of 14 and of 7 days: the first window keeps two posts, the
    second one of these. *)
Lemma filter_since_narrow_witness :
  exists kept2,
    filter_since (H := Demo.runtime) Demo.week_ago
      [DemoCli.older_post; Demo.old_post; Demo.new_post] = Ok kept2
    /\ filter_since (H := Demo.runtime) Demo.week_ago [Demo.old_post; Demo.new_post] = Ok kept2
    /\ subseq kept2 [Demo.old_post; Demo.new_post].
Proof.
  apply (filter_since_narrow (H := Demo.runtime)
           {| wall := (Demo.noon - 14 * DT.day_us)%Z; utcoffset := Some 0%Z |} Demo.week_ago
           [DemoCli.older_post; Demo.old_post; Demo.new_post] [Demo.old_post; Demo.new_post]).
  - vm_compute. reflexivity.
  - vm_compute. reflexivity.
Defined.

(** ** The aggregators, continued *)

Lemma graphql_query_Ok_world `{Runtime} query variables forum w data w' :
  graphql_query query variables forum w = (Ok data, w') ->
  exists url,
    get_forum_url forum = Ok url
    /\ w' = after_request (graphql_request url query variables) w.
Proof.
  rewrite graphql_query_run. destruct (get_forum_url forum) as [url | e]; [| discriminate].
  cbv zeta. intros [= _ <-]. now exists url.
Qed.

Lemma get_user_by_slug_world `{Runtime} slug forum w user w' :
  get_user_by_slug slug forum w = (Ok user, w') ->
  exists url,
    get_forum_url forum = Ok url
    /\ w' = after_request
              (graphql_request url get_user_by_slug_query (Some [("slug", JStr slug)])) w.
Proof.
  rewrite get_user_by_slug_run.
  destruct (graphql_query _ _ forum w) as [[data | e] w1] eqn:Eq; [| discriminate].
  intros [= _ <-]. exact (graphql_query_Ok_world _ _ _ _ _ _ Eq).
Qed.

Lemma get_tag_by_slug_world `{Runtime} slug forum w tag w' :
  get_tag_by_slug slug forum w = (Ok tag, w') ->
  exists url,
    get_forum_url forum = Ok url
    /\ w' = after_request
              (graphql_request url get_tag_by_slug_query (Some [("limit", JInt 500)])) w.
Proof.
  unfold get_tag_by_slug. intros E.
  apply bindIO_inv in E as (data & w1 & Eq & E).
  apply bindIO_inv in E as (tags & w2 & El & E). apply lift_inv in El as [_ ->].
  apply bindIO_inv in E as (found & w3 & Ef & E). apply lift_inv in Ef as [_ ->].
  destruct found as [t |]; [| discriminate]. injection E as _ <-.
  exact (graphql_query_Ok_world _ _ _ _ _ _ Eq).
Qed.

Lemma fetch_page_world `{Runtime} query variables forum field since_date w posts w' url :
  get_forum_url forum = Ok url ->
  (data <- graphql_query query variables forum ;;
   posts <- lift (let? ps := Py.get data field (JDict []) in Py.get ps "results" (JList [])) ;;
   lift (filter_if_since since_date posts)) w
  = (Ok posts, w') ->
  w' = after_request (graphql_request url query variables) w.
Proof.
  intros Hu. rewrite fetch_page_run, graphql_query_run, Hu. cbv zeta. cbn [fst snd].
  now intros [= _ <-].
Qed.

(** X10.  A call of [fetch_user_activity] that returns has sent exactly
    three requests, all to the endpoint of the forum and in this order:
    the user by slug, the posts of the user's [_id] with limit 50, the
    comments of that [_id] with limit 100.  It has read the clock twice
    and printed nothing, and its report carries the forum as it was
    given, unresolved. *)
Theorem fetch_user_activity_traffic `{Runtime} slug days forum w r w' :
  fetch_user_activity slug days forum w = (Ok r, w') ->
  exists url user_id,
    get_forum_url forum = Ok url
    /\ Py.getitem (UserActivity.user r) "_id" = Ok user_id
    /\ sent w'
       = (sent w
          ++ [ request_with url get_user_by_slug_query [("slug", JStr slug)];
               request_with url get_user_posts_query
                 [("userId", user_id); ("limit", JInt 50)];
               request_with url get_user_comments_query
                 [("userId", user_id); ("limit", JInt 100)] ])%list
    /\ reads w' = S (S (reads w))
    /\ stdout w' = stdout w
    /\ UserActivity.forum r = forum.
Proof.
  intros E. unfold fetch_user_activity in E.
  apply bindIO_inv in E as (user & w1 & Eu & E).
  apply bindIO_inv in E as (since & w2 & Ew & E).
  apply bindIO_inv in E as (uid & w3 & Ei & E). apply lift_inv in Ei as [Ei ->].
  apply bindIO_inv in E as (posts & w4 & Ep & E).
  apply bindIO_inv in E as (uid' & w5 & Ei' & E). apply lift_inv in Ei' as [Ei' ->].
  apply bindIO_inv in E as (comments & w6 & Ec & E).
  apply bindIO_inv in E as (fetched & w7 & En & E).
  injection E as <- <-. unfold datetime_now in En. injection En as _ <-.
  rewrite Ei in Ei'. injection Ei' as <-.
  apply get_user_by_slug_world in Eu as (url & Hu & ->).
  apply window_start_inv in Ew as [_ ->].
  apply (fetch_page_world _ _ _ "posts" _ _ _ _ url Hu) in Ep. subst w4.
  apply (fetch_page_world _ _ _ "comments" _ _ _ _ url Hu) in Ec. subst w6.
  exists url, uid. cbn. rewrite <- !app_assoc. now repeat split.
Qed.

(** The theorem at the report on Alice. *)
Lemma fetch_user_activity_traffic_witness :
  exists url user_id,
    get_forum_url "lw" = Ok url
    /\ Py.getitem Demo.alice "_id" = Ok user_id
    /\ sent (snd (fetch_user_activity (H := Demo.runtime) "alice" 7 "lw" (Demo.world Demo.forum)))
       = [ request_with url get_user_by_slug_query [("slug", JStr "alice")];
           request_with url get_user_posts_query
             [("userId", user_id); ("limit", JInt 50)];
           request_with url get_user_comments_query
             [("userId", user_id); ("limit", JInt 100)] ]
    /\ reads (snd (fetch_user_activity (H := Demo.runtime) "alice" 7 "lw" (Demo.world Demo.forum)))
       = 2
    /\ stdout (snd (fetch_user_activity (H := Demo.runtime) "alice" 7 "lw" (Demo.world Demo.forum)))
       = []
    /\ UserActivity.forum DemoCli.activity_lw = "lw".
Proof.
  apply (fetch_user_activity_traffic (H := Demo.runtime) "alice" 7 "lw" (Demo.world Demo.forum)
           DemoCli.activity_lw
           (snd (fetch_user_activity (H := Demo.runtime) "alice" 7 "lw" (Demo.world Demo.forum)))).
  vm_compute. reflexivity.
Defined.

(** X11.  A call of [fetch_topic_activity] that returns has sent exactly
    two requests to the endpoint of the forum: the page of 500 tags, then
    the posts of the [_id] of the tag found, with limit 50.  It has read
    the clock twice and printed nothing, and its report carries the forum
    as it was given. *)
Theorem fetch_topic_activity_traffic `{Runtime} slug days forum w r w' :
  fetch_topic_activity slug days forum w = (Ok r, w') ->
  exists url tag_id,
    get_forum_url forum = Ok url
    /\ Py.getitem (TopicActivity.topic r) "_id" = Ok tag_id
    /\ sent w'
       = (sent w
          ++ [ request_with url get_tag_by_slug_query [("limit", JInt 500)];
               request_with url get_posts_by_tag_query
                 [("tagId", tag_id); ("limit", JInt 50)] ])%list
    /\ reads w' = S (S (reads w))
    /\ stdout w' = stdout w
    /\ TopicActivity.forum r = forum.
Proof.
  intros E. unfold fetch_topic_activity in E.
  apply bindIO_inv in E as (tag & w1 & Eu & E).
  apply bindIO_inv in E as (since & w2 & Ew & E).
  apply bindIO_inv in E as (tid & w3 & Ei & E). apply lift_inv in Ei as [Ei ->].
  apply bindIO_inv in E as (posts & w4 & Ep & E).
  apply bindIO_inv in E as (fetched & w7 & En & E).
  injection E as <- <-. unfold datetime_now in En. injection En as _ <-.
  apply get_tag_by_slug_world in Eu as (url & Hu & ->).
  apply window_start_inv in Ew as [_ ->].
  apply (fetch_page_world _ _ _ "posts" _ _ _ _ url Hu) in Ep. subst w4.
  exists url, tid. cbn. rewrite <- !app_assoc. now repeat split.
Qed.

(** The theorem at the topic [ai-safety] of the demo forum. *)
Lemma fetch_topic_activity_traffic_witness :
  exists url tag_id,
    get_forum_url "ea" = Ok url
    /\ Py.getitem (Demo.tag "t2" "AI Safety" "ai-safety" 120) "_id" = Ok tag_id
    /\ sent (snd (fetch_topic_activity (H := Demo.runtime) "AI-Safety" 7 "ea"
                    (Demo.world Demo.forum)))
       = [ request_with url get_tag_by_slug_query [("limit", JInt 500)];
           request_with url get_posts_by_tag_query [("tagId", tag_id); ("limit", JInt 50)] ]
    /\ reads (snd (fetch_topic_activity (H := Demo.runtime) "AI-Safety" 7 "ea"
                     (Demo.world Demo.forum)))
       = 2
    /\ stdout (snd (fetch_topic_activity (H := Demo.runtime) "AI-Safety" 7 "ea"
                      (Demo.world Demo.forum)))
       = []
    /\ TopicActivity.forum
         (TopicActivity.make "ea" (Demo.tag "t2" "AI Safety" "ai-safety" 120)
            (JList [Demo.new_post])
            Demo.week_ago {| wall := (Demo.noon + 2000000)%Z; utcoffset := None |})
       = "ea".
Proof.
  apply (fetch_topic_activity_traffic (H := Demo.runtime) "AI-Safety" 7 "ea"
           (Demo.world Demo.forum)
           (TopicActivity.make "ea" (Demo.tag "t2" "AI Safety" "ai-safety" 120)
              (JList [Demo.new_post])
              Demo.week_ago {| wall := (Demo.noon + 2000000)%Z; utcoffset := None |})
           (snd (fetch_topic_activity (H := Demo.runtime) "AI-Safety" 7 "ea"
                   (Demo.world Demo.forum)))).
  vm_compute. reflexivity.
Defined.

(** X12.  The window has bounds.  [window_start] reads the clock once,
    whatever comes of it; it returns the reading moved back by [days]
    days, with the offset of the local zone, when [days] is at most
    999999999 in absolute value and the result is a date of the years 1 to
    9999, and it raises [OverflowError] otherwise.  A negative [days]
    within the bounds is accepted and puts the start in the future. *)
Theorem window_start_range days w :
  let now := clock w (reads w) in
  let start := (now - days * DT.day_us)%Z in
  snd (window_start days w) = with_reads (S (reads w)) w
  /\ ((Z.abs days <= 999999999 /\ 0 <= start <= DT.max_wall)%Z ->
      fst (window_start days w)
      = Ok {| wall := start; utcoffset := Some (local_offset w now) |})
  /\ ((999999999 < Z.abs days \/ start < 0 \/ DT.max_wall < start)%Z ->
      fst (window_start days w) = Raise OverflowError).
Proof.
  cbv zeta. unfold window_start, bindIO, datetime_now_astimezone, lift, DT.timedelta_days, DT.sub.
  cbn [wall utcoffset]. split; [| split].
  - destruct (Z.abs days <=? 999999999)%Z; cbn [bind]; [| reflexivity].
    now destruct ((0 <=? _) && (_ <=? DT.max_wall))%Z.
  - intros [Hd Hs]. replace (Z.abs days <=? 999999999)%Z with true by lia. cbn [bind].
    replace ((0 <=? clock w (reads w) - days * DT.day_us)
             && (clock w (reads w) - days * DT.day_us <=? DT.max_wall))%Z with true by lia.
    reflexivity.
  - intros Hb. destruct (Z.leb_spec (Z.abs days) 999999999); cbn [bind]; [| reflexivity].
    replace ((0 <=? clock w (reads w) - days * DT.day_us)
             && (clock w (reads w) - days * DT.day_us <=? DT.max_wall))%Z with false by lia.
    reflexivity.
Qed.

(** The theorem at the demo clock, 2024-03-15: seven days back is
    2024-03-08, and 800000 days back is before the year 1. *)
Lemma window_start_range_witness :
  fst (window_start 7 (Demo.world Demo.forum)) = Ok Demo.week_ago
  /\ fst (window_start 800000 (Demo.world Demo.forum)) = Raise OverflowError.
Proof.
  split.
  - apply (proj1 (proj2 (window_start_range 7 (Demo.world Demo.forum)))).
    repeat split; vm_compute; discriminate.
  - apply (proj2 (proj2 (window_start_range 800000 (Demo.world Demo.forum)))).
    right. left. vm_compute. reflexivity.
Defined.

(** ** Tags, continued *)

Lemma search_tags_run `{Runtime} query_str limit forum w tags w' :
  tags_page w forum search_tags_query 200 tags w' ->
  search_tags query_str limit forum w
  = (let? matching := matching_tags (Str.lower query_str) tags in
     Ok (Py.list_slice_to limit matching), w').
Proof.
  intros Hp. apply tags_page_run in Hp as (data & Hq & Ht).
  unfold search_tags. rewrite (bindIO_ok _ _ _ _ _ Hq).
  fold (results_of data "tags"). rewrite bindIO_lift, Ht, bindIO_lift.
  cbn [Py.iter bind]. now destruct (matching_tags (Str.lower query_str) tags).
Qed.

Lemma list_slice_to_prefix {A} (k : Z) (l : list A) :
  (exists dropped, l = Py.list_slice_to k l ++ dropped)%list
  /\ Z.of_nat (List.length (Py.list_slice_to k l))
     = (if 0 <=? k then Z.min k (Z.of_nat (List.length l))
        else Z.max 0 (Z.of_nat (List.length l) + k))%Z.
Proof.
  unfold Py.list_slice_to. destruct (Z.leb_spec 0 k).
  - split; [eexists; symmetry; apply firstn_skipn |]. rewrite length_firstn. lia.
  - split; [eexists; symmetry; apply firstn_skipn |]. rewrite length_firstn. lia.
Qed.

(** X13.  For any integer [limit], negative ones included, and a page of
    tags that have names, [search_tags] returns a prefix of the matching
    tags of the page: the first [limit] of them when [limit >= 0] ([min
    limit m] tags, [m] being the number of matches), and all but the last
    [-limit] when [limit < 0] ([max 0 (m + limit)] tags). *)
Theorem search_tags_any_limit `{Runtime} query_str limit forum w tags w' :
  tags_page w forum search_tags_query 200 tags w' ->
  Forall named tags ->
  let matching := filter (name_matches query_str) tags in
  let m := Z.of_nat (List.length matching) in
  exists found,
    search_tags query_str limit forum w = (Ok found, w')
    /\ (exists dropped, matching = (found ++ dropped)%list)
    /\ Z.of_nat (List.length found)
       = (if 0 <=? limit then Z.min limit m else Z.max 0 (m + limit))%Z.
Proof.
  intros Hp Hn matching m. exists (Py.list_slice_to limit matching).
  rewrite (search_tags_run _ _ _ _ _ _ Hp), (matching_tags_filter _ _ Hn). cbn [bind].
  split; [reflexivity |]. apply list_slice_to_prefix.
Qed.

Lemma demo_tags_page query limit :
  Str.contains "Tags(" query = true ->
  Str.contains "GetUserPosts" query = false ->
  Str.contains "GetUserComments" query = false ->
  Str.contains "GetUser(" query = false ->
  Str.contains "GetTagPosts" query = false ->
  tags_page (H := Demo.runtime) (Demo.world Demo.forum) "ea" query limit Demo.tags
    (after_request
       (graphql_request "https://forum.effectivealtruism.org/graphql" query
          (Some [("limit", JInt limit)]))
       (Demo.world Demo.forum)).
Proof.
  intros H1 H2 H3 H4 H5.
  exists "https://forum.effectivealtruism.org/graphql",
         {| status_code := 200; body := Some (Demo.results "tags" Demo.tags) |},
         (JDict [("tags", JDict [("results", JList Demo.tags)])]).
  repeat split; try reflexivity.
  unfold answers, Demo.world, Demo.forum, Demo.document, graphql_request, payload.
  cbn [server req_json]. now rewrite H2, H3, H4, H5, H1.
Qed.

Lemma demo_tags_named : Forall named Demo.tags.
Proof. repeat (apply Forall_cons; [eexists; reflexivity |]). apply Forall_nil. Qed.

(** The theorem at the demo forum, three of whose four tags have an [a]
    in their name, with the limit [-1]: the last match is dropped. *)
Lemma search_tags_any_limit_witness :
  exists found,
    search_tags (H := Demo.runtime) "a" (-1) "ea" (Demo.world Demo.forum)
    = (Ok found,
       after_request
         (graphql_request "https://forum.effectivealtruism.org/graphql" search_tags_query
            (Some [("limit", JInt 200)]))
         (Demo.world Demo.forum))
    /\ (exists dropped, filter (name_matches "a") Demo.tags = (found ++ dropped)%list)
    /\ Z.of_nat (List.length found) = 3%Z.
Proof.
  apply (search_tags_any_limit (H := Demo.runtime) "a" (-1) "ea" (Demo.world Demo.forum)
           Demo.tags _
           (demo_tags_page search_tags_query 200 eq_refl eq_refl eq_refl eq_refl eq_refl)
           demo_tags_named).
Defined.

Lemma matching_tags_failure query_lower before d after :
  Forall named before ->
  Py.lookup "name" d = None ->
  matching_tags query_lower (before ++ JDict d :: after) = Raise (KeyError "name").
Proof.
  intros Hb Hd. induction Hb as [| t before [s Hs] _ IH].
  - cbn [app matching_tags Py.getitem]. now rewrite Hd.
  - cbn [app matching_tags]. rewrite Hs. cbn [bind Py.str_method]. now rewrite IH.
Qed.

(** X14.  [search_tags] reads the name of every tag of the page before
    it applies [limit]: if one tag of the page has no [name] (and those
    before it have one), the call fails with [KeyError('name')] whatever
    the query and the limit, the empty query and the limit 0 included. *)
Theorem search_tags_unnamed_tag `{Runtime} query_str limit forum w before d after w' :
  tags_page w forum search_tags_query 200 (before ++ JDict d :: after) w' ->
  Forall named before ->
  Py.lookup "name" d = None ->
  search_tags query_str limit forum w = (Raise (KeyError "name"), w').
Proof.
  intros Hp Hb Hd.
  now rewrite (search_tags_run _ _ _ _ _ _ Hp), (matching_tags_failure _ _ _ _ Hb Hd).
Qed.

(** The theorem at a forum whose second tag has no name, with the empty
    query and the limit 0. *)
Lemma search_tags_unnamed_tag_witness :
  search_tags (H := Demo.runtime) "" 0 "ea" (Demo.world DemoCli.careless)
  = (Raise (KeyError "name"),
     after_request
       (graphql_request "https://forum.effectivealtruism.org/graphql" search_tags_query
          (Some [("limit", JInt 200)]))
       (Demo.world DemoCli.careless)).
Proof.
  apply (search_tags_unnamed_tag (H := Demo.runtime) "" 0 "ea" (Demo.world DemoCli.careless)
           [Demo.tag "t1" "AI" "ai" 900] [("_id", JStr "t9"); ("slug", JStr "untitled")] []).
  - eexists _, _, _. repeat split; reflexivity.
  - repeat constructor. eexists. reflexivity.
  - reflexivity.
Defined.

Lemma find_tag_Some slug tags tag :
  find_tag (Str.lower slug) tags = Ok (Some tag) ->
  exists before after,
    tags = (before ++ tag :: after)%list
    /\ Forall (has_other_slug slug) before
    /\ has_slug slug tag.
Proof.
  induction tags as [| t rest IH]; [discriminate |].
  destruct (slug_of t) as [s | e] eqn:Es.
  2:{ unfold slug_of in Es. cbn [find_tag].
      destruct (Py.get t "slug" (JStr "")) as [v | e']; cbn [bind] in *; [| discriminate].
      destruct (Py.str_method v); [discriminate Es | discriminate]. }
  rewrite (find_tag_step _ _ _ _ Es).
  destruct (String.eqb (Str.lower s) (Str.lower slug)) eqn:Eb.
  - intros [= <-]. apply String.eqb_eq in Eb. exists [], rest.
    split; [reflexivity | split; [constructor | now exists s]].
  - intros Hf. destruct (IH Hf) as (before & after & -> & Hb & Hm).
    apply String.eqb_neq in Eb. exists (t :: before), after.
    split; [reflexivity | split; [| exact Hm]]. constructor; [now exists s | exact Hb].
Qed.

Lemma find_tag_strings slug_lower (l : list string) tag :
  find_tag slug_lower (map JStr l) = Ok (Some tag) -> False.
Proof. destruct l; discriminate. Qed.

Lemma graphql_query_Ok_inv `{Runtime} query variables forum w data w' :
  graphql_query query variables forum w = (Ok data, w') ->
  exists url resp,
    get_forum_url forum = Ok url
    /\ answers w (graphql_request url query variables) resp
    /\ handle_response resp = Ok data
    /\ w' = after_request (graphql_request url query variables) w.
Proof.
  rewrite graphql_query_run. destruct (get_forum_url forum) as [url | e]; [| discriminate].
  cbv zeta. intros [= Hr <-].
  destruct (server w (sent w) (graphql_request url query variables)) as [resp | e] eqn:Es;
    [| discriminate].
  now exists url, resp.
Qed.

(** X15.  A tag that [get_tag_by_slug] returns is a tag of the one page
    of 500 tags it asked for, its slug is the requested one, letter case
    apart, and every tag before it on the page has another slug: the call
    never returns a tag with a different slug, and always the first
    match. *)
Theorem get_tag_by_slug_returns `{Runtime} slug forum w tag w' :
  get_tag_by_slug slug forum w = (Ok tag, w') ->
  exists tags before after,
    tags_page w forum get_tag_by_slug_query 500 tags w'
    /\ tags = (before ++ tag :: after)%list
    /\ Forall (has_other_slug slug) before
    /\ has_slug slug tag.
Proof.
  unfold get_tag_by_slug. intros E.
  apply bindIO_inv in E as (data & w1 & Eq & E).
  apply bindIO_inv in E as (tags & w2 & El & E). apply lift_inv in El as [El ->].
  apply bindIO_inv in E as (found & w3 & Ef & E). apply lift_inv in Ef as [Ef ->].
  destruct found as [t |]; [| discriminate]. injection E as <- <-.
  apply graphql_query_Ok_inv in Eq as (url & resp & Hu & Ha & Hd & ->).
  destruct tags as [| b | z | f | s | l | d]; try discriminate; cbn [Py.iter bind] in Ef.
  - exfalso. rewrite <- (map_map (fun c => String c EmptyString) JStr) in Ef.
    exact (find_tag_strings _ _ _ Ef).
  - destruct (find_tag_Some _ _ _ Ef) as (before & after & -> & Hb & Hm).
    exists (before ++ t :: after)%list, before, after.
    split; [| now repeat split]. now exists url, resp, data.
  - exfalso. rewrite <- (map_map fst JStr) in Ef.
    exact (find_tag_strings _ _ _ Ef).
Qed.

(** The theorem at the demo forum: the tag found for [AI-Safety] is its
    second tag. *)
Lemma get_tag_by_slug_returns_witness :
  exists tags before after,
    tags_page (H := Demo.runtime) (Demo.world Demo.forum) "ea" get_tag_by_slug_query 500 tags
      (snd (get_tag_by_slug (H := Demo.runtime) "AI-Safety" "ea" (Demo.world Demo.forum)))
    /\ tags = (before ++ Demo.tag "t2" "AI Safety" "ai-safety" 120 :: after)%list
    /\ Forall (has_other_slug "AI-Safety") before
    /\ has_slug "AI-Safety" (Demo.tag "t2" "AI Safety" "ai-safety" 120).
Proof.
  apply (get_tag_by_slug_returns (H := Demo.runtime) "AI-Safety" "ea" (Demo.world Demo.forum)).
  vm_compute. reflexivity.
Defined.

(** ** The text reports, continued *)

Lemma print_post_block `{Runtime} p w :
  well_formed_post p -> print_post p w = (Ok tt, emit (post_block p) w).
Proof.
  intros ([date Hd] & [title Ht]). unfold print_post, post_block. fold (item_date p).
  rewrite Hd, Ht. destruct (getitem_dict _ _ _ Ht) as [d ->].
  cbn [Py.get value]. run_io. rewrite print_run, emit_emit. reflexivity.
Qed.

Lemma for_each_print_post_blocks `{Runtime} ps w :
  Forall well_formed_post ps ->
  for_each print_post ps w = (Ok tt, emit (flat_map post_block ps) w).
Proof.
  intros Hw. revert w. induction Hw as [| p ps Hp _ IH]; intros w; cbn [for_each flat_map].
  - unfold ret. now rewrite emit_nil.
  - rewrite (bindIO_ok _ _ _ _ _ (print_post_block p w Hp)), IH, emit_emit. reflexivity.
Qed.

Lemma flat_map_length_2 {A B} (f : A -> list B) l :
  (forall x, List.length (f x) = 2) -> List.length (flat_map f l) = 2 * List.length l.
Proof.
  intros Hf. induction l as [| x l IH]; [reflexivity |].
  cbn [flat_map]. rewrite length_app, Hf, IH. cbn [List.length]. lia.
Qed.

(** X16.  For a report whose user has a slug, whose posts can be shown
    and whose first 10 comments are well formed, [print_user_activity]
    returns and prints exactly: the four lines of the header, the posts
    part, the comments part and an empty line.  The posts part is the
    count followed by two lines for every post, with no cap (the cap of
    10 is on comments only), or by the one line [No posts in this period.]
    when there is none. *)
Theorem print_user_activity_report `{Runtime} activity posts comments w :
  well_formed_user (UserActivity.user activity) ->
  UserActivity.posts activity = JList posts ->
  Forall well_formed_post posts ->
  UserActivity.comments activity = JList comments ->
  Forall well_formed_comment (firstn 10 comments) ->
  print_user_activity activity w
  = (Ok tt,
     emit (user_header (UserActivity.forum activity) (UserActivity.user activity)
           ++ posts_report posts ++ comments_report comments ++ [EmptyString])%list w)
  /\ List.length (posts_report posts) = 1 + Nat.max 1 (2 * List.length posts).
Proof.
  intros [slug Hu] Hp Hps Hc Hcs. split.
  - unfold print_user_activity, user_header, display_name, forum_label, rule. rewrite Hp, Hc.
    destruct (getitem_dict _ _ _ Hu) as [d Hd]. rewrite Hd in *.
    rewrite Hu. cbn [bind Py.get Py.len value]. run_io. cbn [Py.truthy].
    unfold posts_report, posts_heading. destruct posts as [| p posts'].
    + run_io.
      rewrite (bindIO_ok _ _ _ _ _ (print_comments_run _ _ Hcs)), print_run, !emit_emit.
      reflexivity.
    + set (ps := p :: posts') in *.
      unfold bindIO at 1. cbn [Py.iter]. run_io. rewrite (for_each_print_post_blocks _ _ Hps).
      rewrite (bindIO_ok _ _ _ _ _ (print_comments_run _ _ Hcs)), print_run, !emit_emit.
      rewrite <- ?app_assoc. reflexivity.
  - unfold posts_report. destruct posts as [| p posts']; [reflexivity |].
    cbn [List.length]. rewrite (flat_map_length_2 post_block) by reflexivity.
    cbn [List.length]. lia.
Qed.

Lemma demo_comments_well_formed :
  Forall (well_formed_comment (H := Demo.runtime)) (firstn 10 Demo.comments).
Proof.
  cbn [Demo.comments seq map firstn].
  repeat (apply Forall_cons; [repeat split; eexists; vm_compute; reflexivity |]).
  apply Forall_nil.
Qed.

Lemma demo_new_post_well_formed : Forall (well_formed_post (H := Demo.runtime)) [Demo.new_post].
Proof. repeat constructor; eexists; vm_compute; reflexivity. Qed.

(** The theorem at the report on Alice: one post, fifteen comments, 41
    lines. *)
Lemma print_user_activity_report_witness :
  print_user_activity (H := Demo.runtime) Demo.activity (Demo.world Demo.forum)
  = (Ok tt,
     emit (user_header (H := Demo.runtime) "lesswrong" Demo.alice
           ++ posts_report (H := Demo.runtime) [Demo.new_post]
           ++ comments_report (H := Demo.runtime) Demo.comments ++ [EmptyString])%list
       (Demo.world Demo.forum))
  /\ posts_report (H := Demo.runtime) [Demo.new_post]
     = [ posts_heading 1;
         "  [Mar 12, 2024] Three days ago (score: 34)";
         "    https://www.lesswrong.com/posts/p2" ]
  /\ nth 1 (user_header (H := Demo.runtime) "lesswrong" Demo.alice) EmptyString
     = "[LessWrong] Alice (@alice)".
Proof.
  split; [| split; vm_compute; reflexivity].
  apply (proj1 (print_user_activity_report (H := Demo.runtime) Demo.activity [Demo.new_post]
                  Demo.comments (Demo.world Demo.forum)
                  ltac:(eexists; reflexivity) eq_refl demo_new_post_well_formed eq_refl
                  demo_comments_well_formed)).
Defined.

Lemma only_prints_lift {A} (r : result A) : only_prints (lift r).
Proof. intros w. exists []. cbn [lift snd]. now rewrite emit_nil. Qed.

Lemma only_prints_ret {A} (a : A) : only_prints (ret a).
Proof. intros w. exists []. cbn [ret snd]. now rewrite emit_nil. Qed.

Lemma only_prints_raise {A} (e : exn) : only_prints (raise (A := A) e).
Proof. intros w. exists []. cbn [raise snd]. now rewrite emit_nil. Qed.

Lemma only_prints_print line : only_prints (print line).
Proof. intros w. now exists [line]. Qed.

Lemma only_prints_bind {A B} (m : IO A) (k : A -> IO B) :
  only_prints m -> (forall a, only_prints (k a)) -> only_prints (bindIO m k).
Proof.
  intros Hm Hk w. destruct (Hm w) as [p1 H1]. unfold bindIO.
  destruct (m w) as [[a | e] w1]; cbn [snd] in H1; subst w1.
  - destruct (Hk a (emit p1 w)) as [p2 H2]. exists (p1 ++ p2)%list.
    now rewrite H2, emit_emit.
  - now exists p1.
Qed.

Lemma only_prints_for_each {A} (body : A -> IO unit) l :
  (forall x, only_prints (body x)) -> only_prints (for_each body l).
Proof.
  intros Hb. induction l as [| x l IH]; cbn [for_each].
  - apply only_prints_ret.
  - apply only_prints_bind; [apply Hb | intros _; exact IH].
Qed.

Ltac prints :=
  repeat first
    [ apply only_prints_lift
    | apply only_prints_ret
    | apply only_prints_raise
    | apply only_prints_print
    | apply only_prints_for_each; intros ?
    | apply only_prints_bind; [| intros ?]
    | match goal with |- only_prints (if ?b then _ else _) => destruct b end ].

Lemma print_post_only_prints `{Runtime} p : only_prints (print_post p).
Proof. unfold print_post. prints. Qed.

Lemma print_comment_only_prints `{Runtime} c : only_prints (print_comment c).
Proof. unfold print_comment. prints. Qed.

Lemma print_comments_only_prints `{Runtime} cs : only_prints (print_comments cs).
Proof. unfold print_comments. prints. Qed.

Lemma print_topic_post_only_prints `{Runtime} p : only_prints (print_topic_post p).
Proof. unfold print_topic_post. prints. Qed.

Lemma print_user_activity_only_prints `{Runtime} activity :
  only_prints (print_user_activity activity).
Proof.
  unfold print_user_activity. prints.
Qed.

Lemma print_topic_activity_only_prints `{Runtime} activity :
  only_prints (print_topic_activity activity).
Proof. unfold print_topic_activity. prints. Qed.

(** X17.  The two printers do nothing but print: whether
    [print_user_activity] or [print_topic_activity] returns or raises, on
    any report, it has sent no request and read no clock, and the output
    it found is still there, with the lines it printed added after it. *)
Theorem reports_only_print `{Runtime} :
  (forall activity w,
     exists printed,
       let w' := snd (print_user_activity activity w) in
       stdout w' = (stdout w ++ printed)%list
       /\ sent w' = sent w /\ reads w' = reads w
       /\ clock w' = clock w /\ local_offset w' = local_offset w /\ server w' = server w)
  /\ (forall activity w,
        exists printed,
          let w' := snd (print_topic_activity activity w) in
          stdout w' = (stdout w ++ printed)%list
          /\ sent w' = sent w /\ reads w' = reads w
          /\ clock w' = clock w /\ local_offset w' = local_offset w /\ server w' = server w).
Proof.
  split; intros activity w.
  - destruct (print_user_activity_only_prints activity w) as [printed Hp].
    exists printed. cbv zeta. rewrite Hp. now repeat split.
  - destruct (print_topic_activity_only_prints activity w) as [printed Hp].
    exists printed. cbv zeta. rewrite Hp. now repeat split.
Qed.

Lemma forum_label_alias alias : In alias all_aliases -> forum_label alias = "Forum".
Proof.
  intros Ha. cbn in Ha. repeat (destruct Ha as [<- | Ha]; [reflexivity |]). destruct Ha.
Qed.

Lemma resolve_forum_alias alias :
  In alias all_aliases ->
  exists key config,
    resolve_forum alias = Ok key /\ In (key, config) FORUMS /\ forum_label key = name config.
Proof.
  intros Ha. cbn in Ha.
  repeat (destruct Ha as [<- | Ha];
          [eexists _, _; split; [reflexivity |];
           split; [| reflexivity]; cbn; tauto |]).
  destruct Ha.
Qed.

Lemma then_only_prints {A B} (m : IO A) (k : A -> IO B) w a ls :
  m w = (Ok a, emit ls w) -> only_prints (k a) ->
  exists more, snd (bindIO m k w) = emit (ls ++ more)%list w.
Proof.
  intros Hm Hk. rewrite (bindIO_ok _ _ _ _ _ Hm). destruct (Hk (emit ls w)) as [more Hmore].
  exists more. now rewrite Hmore, emit_emit.
Qed.

(** X18.  The label of the header is the name of the forum only when the
    report carries a canonical key.  Every alias of the registry resolves
    to a key whose forum has a name, and is accepted for fetching, but a
    report that carries the alias itself in [forum] (as the reports of
    [fetch_user_activity] and [fetch_topic_activity] do, which store the
    forum as given) is printed under the label [Forum]. *)
Theorem report_label_of_alias `{Runtime} alias :
  In alias all_aliases ->
  (exists key config,
     resolve_forum alias = Ok key /\ In (key, config) FORUMS /\ forum_label key = name config)
  /\ (forall activity w shown slug,
        UserActivity.forum activity = alias ->
        display_name (UserActivity.user activity) = Ok shown ->
        Py.getitem (UserActivity.user activity) "slug" = Ok slug ->
        exists more,
          snd (print_user_activity activity w)
          = emit ((Str.nl ++ rule)
                  :: ("[Forum] " ++ str shown ++ " (@" ++ str slug ++ ")")
                  :: more) w)
  /\ (forall activity w topic_name,
        TopicActivity.forum activity = alias ->
        Py.getitem (TopicActivity.topic activity) "name" = Ok topic_name ->
        exists more,
          snd (print_topic_activity activity w)
          = emit ((Str.nl ++ rule) :: ("[Forum] Topic: " ++ str topic_name) :: more) w).
Proof.
  intros Ha. split; [now apply resolve_forum_alias | split].
  - intros activity w shown slug Hf Hs Hg. unfold print_user_activity.
    rewrite Hf. fold (forum_label alias). rewrite (forum_label_alias _ Ha).
    rewrite bindIO_print. cbn beta.
    destruct (getitem_dict _ _ _ Hg) as [d Hd]. rewrite Hd in *.
    unfold display_name in Hs. rewrite Hg in Hs. cbn [bind] in Hs.
    rewrite bindIO_lift, Hg. cbn [bind]. rewrite Hs, bindIO_lift.
    match goal with
    | |- context [bindIO (print ?line) ?k (emit ?ls w)] =>
        destruct (then_only_prints (print line) k (emit ls w) tt [line] eq_refl) as [more Hm]
    end.
    { prints. }
    exists more. rewrite Hm, emit_emit. reflexivity.
  - intros activity w topic_name Hf Hg. unfold print_topic_activity.
    rewrite Hf. fold (forum_label alias). rewrite (forum_label_alias _ Ha).
    rewrite bindIO_print. cbn beta. rewrite bindIO_lift, Hg.
    match goal with
    | |- context [bindIO (print ?line) ?k (emit ?ls w)] =>
        destruct (then_only_prints (print line) k (emit ls w) tt [line] eq_refl) as [more Hm]
    end.
    { prints. }
    exists more. rewrite Hm, emit_emit. reflexivity.
Qed.

(** The theorem at the alias [lw]: it resolves to [lesswrong], whose
    label is [LessWrong], and the report made with [--forum lw] opens
    with [[Forum] Alice (@alice)]. *)
Lemma report_label_of_alias_witness :
  (exists key config,
     resolve_forum "lw" = Ok key /\ In (key, config) FORUMS /\ forum_label key = name config)
  /\ exists more,
       snd (print_user_activity (H := Demo.runtime) DemoCli.activity_lw (Demo.world Demo.forum))
       = emit ((Str.nl ++ rule) :: "[Forum] Alice (@alice)" :: more) (Demo.world Demo.forum).
Proof.
  pose proof (report_label_of_alias (H := Demo.runtime) "lw"
                ltac:(left; reflexivity)) as (Hr & Hu & _).
  split; [exact Hr |].
  exact (Hu DemoCli.activity_lw (Demo.world Demo.forum) (JStr "Alice") (JStr "alice")
           eq_refl eq_refl eq_refl).
Defined.

Lemma print_topic_post_block `{Runtime} p w :
  well_formed_topic_post p -> print_topic_post p w = (Ok tt, emit (topic_post_block p) w).
Proof.
  intros ([date Hd] & [title Ht] & [author Ha]).
  unfold print_topic_post, topic_post_block. fold (item_date p) (post_author p).
  rewrite Hd, Ht, Ha. destruct (getitem_dict _ _ _ Ht) as [d ->].
  cbn [Py.get value]. run_io. rewrite print_run, emit_emit. reflexivity.
Qed.

Lemma for_each_print_topic_post `{Runtime} ps w :
  Forall well_formed_topic_post ps ->
  for_each print_topic_post ps w = (Ok tt, emit (flat_map topic_post_block ps) w).
Proof.
  intros Hw. revert w. induction Hw as [| p ps Hp _ IH]; intros w; cbn [for_each flat_map].
  - unfold ret. now rewrite emit_nil.
  - rewrite (bindIO_ok _ _ _ _ _ (print_topic_post_block p w Hp)), IH, emit_emit. reflexivity.
Qed.

Lemma describe_run `{Runtime} t topic text {B} (k : IO B) w :
  t = JDict topic ->
  description_text topic = Some text ->
  (described <- lift (let? d := Py.get t "description" (JDict []) in
                      Py.get d "plaintextDescription" JNull) ;;
   (if Py.truthy described then
      desc <- lift (let? d := Py.getitem t "description" in
                    let? text := Py.getitem d "plaintextDescription" in
                    Py.slice_to 200 text) ;;
      print ("Description: " ++ str desc ++ "...")
    else ret tt) ;;;
   k) w
  = k (emit (description_lines text) w).
Proof.
  intros ->. unfold description_text, description_lines. cbn [Py.get Py.getitem bind].
  destruct (Py.lookup "description" topic) as [[| | | | | | description] |];
    try discriminate; cbn [Py.get Py.getitem bind].
  - destruct (Py.lookup "plaintextDescription" description) as [[| | | | s | |] |];
      try discriminate; intros [= <-]; rewrite bindIO_lift; cbn [Py.truthy].
    + cbn [String.eqb]. unfold bindIO at 1, ret. now rewrite emit_nil.
    + destruct (String.eqb s "") eqn:Es; cbn [negb].
      * unfold bindIO at 1, ret. now rewrite emit_nil.
      * unfold bindIO at 1. rewrite bindIO_lift. cbn [Py.slice_to bind str]. now rewrite print_run.
    + cbn [String.eqb]. unfold bindIO at 1, ret. now rewrite emit_nil.
  - intros [= <-]. rewrite bindIO_lift. cbn [Py.truthy String.eqb].
    unfold bindIO at 1, ret. now rewrite emit_nil.
Qed.

(** X19.  For a topic that has a name and a description that is absent
    or an object whose plain text is absent, [null] or a string, and for
    posts each of which has a date [format_date] reads, a title, and a
    [user] that is absent or an object (a [user] or a description that is
    [null] is not covered),
    [print_topic_activity] returns and prints exactly: the rule, the
    label and the name, the post count ([N/A] without one), the first 200
    characters of the plain text of the description followed by three
    dots (no such line when the topic has no description, as the tags the
    program fetches, or an empty one), the rule, the count of recent
    posts and two lines for every post, with no cap (or [No posts in this
    period.]), and an empty line. *)
Theorem print_topic_activity_report `{Runtime} activity topic text posts w :
  TopicActivity.topic activity = JDict topic ->
  (exists topic_name, Py.lookup "name" topic = Some topic_name) ->
  description_text topic = Some text ->
  TopicActivity.posts activity = JList posts ->
  Forall well_formed_topic_post posts ->
  print_topic_activity activity w
  = (Ok tt, emit (topic_report (TopicActivity.forum activity) topic text posts) w)
  /\ (Py.lookup "description" topic = None -> text = "")
  /\ List.length (topic_report (TopicActivity.forum activity) topic text posts)
     = 6 + (if String.eqb text "" then 0 else 1) + Nat.max 1 (2 * List.length posts).
Proof.
  intros Ht [topic_name Hn] Hd Hp Hps. split; [| split].
  - assert (Hg : Py.getitem (JDict topic) "name" = Ok topic_name)
      by (cbn [Py.getitem]; now rewrite Hn).
    unfold print_topic_activity, topic_report, topic_header, topic_posts_report.
    rewrite Hp, Hg. fold (forum_label (TopicActivity.forum activity)). fold rule.
    rewrite <- Ht in Hg. rewrite bindIO_print. cbn beta. rewrite bindIO_lift, Hg.
    rewrite bindIO_print. cbn beta. rewrite bindIO_lift.
    replace (Py.get (TopicActivity.topic activity) "postCount" (JStr "N/A"))
      with (Ok (value JNull (Py.get (JDict topic) "postCount" (JStr "N/A"))))
      by (now rewrite Ht).
    rewrite bindIO_print. cbn beta.
    rewrite (describe_run _ topic text _ _ Ht Hd). cbn [value Py.len]. run_io. cbn [Py.truthy].
    destruct posts as [| p posts'].
    + run_io. rewrite print_run, !emit_emit. rewrite <- ?app_assoc. reflexivity.
    + set (ps := p :: posts') in *.
      unfold bindIO at 1. cbn [Py.iter]. run_io. rewrite (for_each_print_topic_post _ _ Hps).
      rewrite print_run, !emit_emit. rewrite <- ?app_assoc. reflexivity.
  - unfold description_text in Hd. intros E. rewrite E in Hd. now injection Hd.
  - unfold topic_report, topic_header, topic_posts_report, description_lines.
    rewrite !length_app. destruct (String.eqb text ""); destruct posts as [| p posts'];
      cbn [List.length]; try lia;
      rewrite (flat_map_length_2 topic_post_block) by reflexivity; cbn [List.length]; lia.
Qed.

Lemma demo_topic_posts_well_formed :
  Forall (well_formed_topic_post (H := Demo.runtime)) [DemoCli.signed_post; Demo.new_post].
Proof. repeat constructor; eexists; vm_compute; reflexivity. Qed.

(** The theorem at a topic with a description of 230 characters and two
    posts, one of them without author: 11 lines. *)
Lemma print_topic_activity_report_witness :
  print_topic_activity (H := Demo.runtime) DemoCli.topic_activity (Demo.world Demo.forum)
  = (Ok tt,
     emit (topic_report (H := Demo.runtime) "eaforum" DemoCli.described_topic
             (Str.repeat "d" 230) [DemoCli.signed_post; Demo.new_post])
       (Demo.world Demo.forum))
  /\ topic_report (H := Demo.runtime) "eaforum" DemoCli.described_topic
       (Str.repeat "d" 230) [DemoCli.signed_post; Demo.new_post]
     = [ Str.nl ++ rule;
         "[EA Forum] Topic: AI Safety";
         "Total posts: 120";
         "Description: " ++ Str.repeat "d" 200 ++ "...";
         rule;
         Str.nl ++ "Recent posts (2):";
         "  [Mar 14, 2024] Signed by Bob (score: 7)";
         "    https://forum.effectivealtruism.org/posts/p4";
         "  [Mar 12, 2024] Three days ago by Unknown (score: 34)";
         "    https://www.lesswrong.com/posts/p2";
         "" ].
Proof.
  split; [| vm_compute; reflexivity].
  apply (proj1 (print_topic_activity_report (H := Demo.runtime) DemoCli.topic_activity
                  DemoCli.described_topic (Str.repeat "d" 230)
                  [DemoCli.signed_post; Demo.new_post] (Demo.world Demo.forum)
                  eq_refl ltac:(eexists; reflexivity) eq_refl eq_refl
                  demo_topic_posts_well_formed)).
Defined.

(** X20.  A post that cannot be shown stops [print_user_activity]
    midway, and what was printed before stays printed: when the first
    post has a date but no [title], the call raises [KeyError('title')]
    after the four lines of the header and the count of posts. *)
Theorem print_user_activity_partial `{Runtime} activity d rest date w :
  well_formed_user (UserActivity.user activity) ->
  UserActivity.posts activity = JList (JDict d :: rest) ->
  item_date (JDict d) = Ok date ->
  Py.lookup "title" d = None ->
  print_user_activity activity w
  = (Raise (KeyError "title"),
     emit (user_header (UserActivity.forum activity) (UserActivity.user activity)
           ++ [posts_heading (S (List.length rest))])%list w).
Proof.
  intros [slug Hu] Hp Hd Ht.
  unfold print_user_activity, user_header, display_name, forum_label, rule, posts_heading.
  rewrite Hp. destruct (getitem_dict _ _ _ Hu) as [u Hd']. rewrite Hd' in *.
  rewrite Hu. cbn [bind Py.get Py.len value]. run_io. cbn [Py.truthy].
  unfold bindIO at 1. unfold bindIO at 1. cbn [Py.iter lift for_each].
  unfold bindIO at 1. unfold print_post. fold (item_date (JDict d)). rewrite Hd.
  run_io. cbn [Py.get Py.getitem]. rewrite Ht. run_io. rewrite !emit_emit. reflexivity.
Qed.

(** The theorem at a report whose first post has no title: five lines
    are printed before the exception. *)
Lemma print_user_activity_partial_witness :
  print_user_activity (H := Demo.runtime) DemoCli.activity_untitled (Demo.world Demo.forum)
  = (Raise (KeyError "title"),
     emit (user_header (H := Demo.runtime) "lesswrong" Demo.alice ++ [posts_heading 2])%list
       (Demo.world Demo.forum)).
Proof.
  apply (print_user_activity_partial (H := Demo.runtime) DemoCli.activity_untitled
           [("_id", JStr "p3"); ("postedAt", JStr "2024-03-13T08:00:00.000Z")]
           [Demo.new_post] "Mar 13, 2024" (Demo.world Demo.forum)).
  - eexists. reflexivity.
  - reflexivity.
  - vm_compute. reflexivity.
  - reflexivity.
Defined.

Lemma item_date_posted_at `{Runtime} p :
  item_date p = (let? t := posted_at p in Ok (strftime t "%b %d, %Y")).
Proof.
  unfold item_date, posted_at, format_date.
  destruct (Py.getitem p "postedAt") as [v | e]; [| reflexivity]. cbn [bind].
  destruct (Py.str_method v) as [s | e]; [| reflexivity]. cbn [bind].
  now destruct (fromisoformat _).
Qed.

(** X21.  [format_date] reads a timestamp exactly as the recency filter
    does, so what the filter keeps can be dated in a report: when the
    filter returns, every item it kept has a timestamp [t] and
    [format_date(item["postedAt"])] returns [t.strftime("%b %d, %Y")]. *)
Theorem kept_items_have_dates `{Runtime} since items kept :
  filter_since since items = Ok kept ->
  Forall (fun p => exists t, posted_at p = Ok t
                             /\ DT.ge t since = Ok true
                             /\ item_date p = Ok (strftime t "%b %d, %Y")) kept.
Proof.
  intros Hf. destruct (filter_since_kept _ _ _ Hf) as (_ & Hr & _).
  eapply Forall_impl; [| exact Hr]. intros p (t & Ht & Hge). exists t.
  split; [exact Ht | split; [exact Hge |]]. now rewrite item_date_posted_at, Ht.
Qed.

(** The theorem at the two posts of the demo forum: the post kept is
    dated [Mar 12, 2024]. *)
Lemma kept_items_have_dates_witness :
  Forall (fun p => exists t, posted_at (H := Demo.runtime) p = Ok t
                             /\ DT.ge t Demo.week_ago = Ok true
                             /\ item_date (H := Demo.runtime) p
                                = Ok (strftime (Runtime := Demo.runtime) t "%b %d, %Y"))
    [Demo.new_post]
  /\ item_date (H := Demo.runtime) Demo.new_post = Ok "Mar 12, 2024".
Proof.
  split; [| vm_compute; reflexivity].
  apply (kept_items_have_dates (H := Demo.runtime) Demo.week_ago [Demo.old_post; Demo.new_post]).
  vm_compute. reflexivity.
Defined.

(** ** The command line *)

Section CommandLineProofs.

Context {RT : Runtime} {CL : Cli}.

Lemma resolve_forum_raises input :
  ~ In (Str.strip (Str.lower input)) forum_keys ->
  ~ In (Str.strip (Str.lower input)) all_aliases ->
  resolve_forum input
  = Raise (ValueError ("Unknown forum: " ++ Str.strip (Str.lower input)
                       ++ ". Valid options: lesswrong, eaforum, alignmentforum")).
Proof.
  intros Hk Ha. unfold resolve_forum.
  now rewrite (forum_lookup_None _ _ Hk), (alias_owner_None _ _ Ha).
Qed.

Lemma graphql_query_no_url query variables forum w e :
  get_forum_url forum = Raise e -> graphql_query query variables forum w = (Raise e, w).
Proof. intros Hu. now rewrite graphql_query_run, Hu. Qed.

Lemma dispatch_first_failure forum command w e w' :
  command <> Args.list_forums ->
  (forall query variables, graphql_query query variables forum w = (Raise e, w')) ->
  dispatch forum command w = (Raise e, w').
Proof.
  intros Hc Hq.
  destruct command; try (now contradiction Hc);
    unfold dispatch, fetch_user_activity, fetch_topic_activity, get_user_by_slug,
      get_tag_by_slug, search_tags;
    unfold bindIO; now rewrite Hq.
Qed.

Lemma main_raises args command w e w' :
  Args.command args = Some command ->
  dispatch (Args.forum args) command w = (Raise e, w') ->
  main args w
  = (SystemExit 1,
     emit [match e with
           | HTTPError _ => "HTTP Error: " ++ exn_str e
           | _ => "Error: " ++ exn_str e
           end] w').
Proof. intros Hc Hd. unfold main. rewrite Hc, Hd. now destruct e. Qed.

Lemma main_returns args command w w' :
  Args.command args = Some command ->
  dispatch (Args.forum args) command w = (Ok tt, w') ->
  main args w = (Returned, w').
Proof. intros Hc Hd. unfold main. now rewrite Hc, Hd. Qed.

End CommandLineProofs.

(** X22.  With a [--forum] that is neither a key nor an alias, every
    subcommand but [list-forums] ends the same way: one line, [Error:
    Unknown forum: <forum in small letters, stripped>. Valid options:
    lesswrong, eaforum, alignmentforum], and exit status 1; nothing was
    sent and the clock was not read. *)
Theorem main_unknown_forum {RT : Runtime} {CL : Cli} forum command w :
  command <> Args.list_forums ->
  ~ In (Str.strip (Str.lower forum)) forum_keys ->
  ~ In (Str.strip (Str.lower forum)) all_aliases ->
  main (Args.make forum (Some command)) w
  = (SystemExit 1,
     emit ["Error: Unknown forum: " ++ Str.strip (Str.lower forum)
           ++ ". Valid options: lesswrong, eaforum, alignmentforum"] w).
Proof.
  intros Hc Hk Ha.
  rewrite (main_raises _ command w
             (ValueError ("Unknown forum: " ++ Str.strip (Str.lower forum)
                          ++ ". Valid options: lesswrong, eaforum, alignmentforum")) w);
    [reflexivity | reflexivity |].
  cbn [Args.forum]. apply dispatch_first_failure; [exact Hc |]. intros query variables.
  apply graphql_query_no_url. unfold get_forum_url. now rewrite (resolve_forum_raises _ Hk Ha).
Qed.

(** The theorem at [--forum Reddit user alice]. *)
Lemma main_unknown_forum_witness :
  main (RT := Demo.runtime) (CL := DemoCli.cli)
    (Args.make "Reddit" (Some (Args.user "alice"))) (Demo.world Demo.forum)
  = (SystemExit 1,
     emit ["Error: Unknown forum: reddit. Valid options: lesswrong, eaforum, alignmentforum"]
       (Demo.world Demo.forum)).
Proof.
  apply (main_unknown_forum (RT := Demo.runtime) (CL := DemoCli.cli) "Reddit"
           (Args.user "alice") (Demo.world Demo.forum)).
  - discriminate.
  - cbn. intros [E | [E | [E | []]]]; discriminate E.
  - cbn. intros E. repeat (destruct E as [E | E]; [discriminate E |]). destruct E.
Defined.

Section CommandLineFailures.

Context {RT : Runtime} {CL : Cli}.

Lemma dispatch_first_request forum command w url rq e :
  get_forum_url forum = Ok url ->
  first_request url command = Some rq ->
  (let? resp := server w (sent w) rq in handle_response resp) = Raise e ->
  dispatch forum command w = (Raise e, after_request rq w).
Proof.
  intros Hu Hf Hr.
  destruct command; cbn [first_request] in Hf; try discriminate; injection Hf as <-;
    unfold dispatch, fetch_user_activity, fetch_topic_activity, get_user_by_slug,
      get_tag_by_slug, search_tags;
    unfold bindIO; rewrite graphql_query_run, Hu; cbv zeta; now rewrite Hr.
Qed.

Lemma dispatch_user_failure forum command slug w e w1 :
  user_slug command = Some slug ->
  get_user_by_slug slug forum w = (Raise e, w1) ->
  dispatch forum command w = (Raise e, w1).
Proof.
  intros Hs Hg.
  destruct command; cbn [user_slug] in Hs; try discriminate; injection Hs as ->;
    unfold dispatch, fetch_user_activity; unfold bindIO; now rewrite Hg.
Qed.

Lemma dispatch_topic_failure forum command slug w e w1 :
  topic_slug command = Some slug ->
  get_tag_by_slug slug forum w = (Raise e, w1) ->
  dispatch forum command w = (Raise e, w1).
Proof.
  intros Hs Hg.
  destruct command; cbn [topic_slug] in Hs; try discriminate; injection Hs as ->;
    unfold dispatch, fetch_topic_activity; unfold bindIO; now rewrite Hg.
Qed.

Lemma get_user_by_slug_absent slug forum w d w1 :
  graphql_query get_user_by_slug_query (Some [("slug", JStr slug)]) forum w
  = (Ok (JDict d), w1) ->
  (Py.lookup "user" d = None
   \/ exists u, Py.lookup "user" d = Some (JDict u)
                /\ forall r, Py.lookup "result" u = Some r -> Py.truthy r = false) ->
  get_user_by_slug slug forum w = (Raise (PyException ("User not found: " ++ slug)), w1).
Proof.
  intros Hq Hd. rewrite get_user_by_slug_run, Hq. cbn [Py.get bind].
  destruct Hd as [-> | (u & -> & Hr)]; [reflexivity |]. cbn [Py.get bind].
  destruct (Py.lookup "result" u) as [r |]; [| reflexivity]. now rewrite (Hr r eq_refl).
Qed.

Lemma get_tag_by_slug_run slug forum w tags w1 :
  tags_page w forum get_tag_by_slug_query 500 tags w1 ->
  get_tag_by_slug slug forum w
  = (let? found := find_tag (Str.lower slug) tags in
     match found with
     | Some tag => Ok tag
     | None => Raise (PyException ("Tag/topic not found: " ++ slug))
     end, w1).
Proof.
  intros Hp. apply tags_page_run in Hp as (data & Hq & Ht).
  unfold get_tag_by_slug. rewrite (bindIO_ok _ _ _ _ _ Hq).
  fold (results_of data "tags"). rewrite bindIO_lift, Ht, bindIO_lift.
  cbn [Py.iter bind]. destruct (find_tag (Str.lower slug) tags) as [[t |] | e]; reflexivity.
Qed.

End CommandLineFailures.

(** X23.  How [main] reports the failure of the first request of a
    subcommand, for a forum that resolves: on an error status (400 to
    599) it prints the one line [HTTP Error: <text of the HTTPError>]; on
    a body with [errors], [Error: GraphQL errors: <str of the errors>];
    when no response comes, [Error: <text of the exception>].  In each
    case the exit status is 1, that one request was sent, nothing else was
    printed and the clock was not read. *)
Theorem main_first_request_fails {RT : Runtime} {CL : Cli} forum command w url rq :
  get_forum_url forum = Ok url ->
  first_request url command = Some rq ->
  (forall resp,
     answers w rq resp -> (400 <= status_code resp < 600)%Z ->
     main (Args.make forum (Some command)) w
     = (SystemExit 1,
        emit ["HTTP Error: " ++ exception_text (HTTPError (status_code resp))]
          (after_request rq w)))
  /\ (forall resp d v,
        answers w rq resp -> status_passes resp ->
        body resp = Some (JDict d) -> Py.lookup "errors" d = Some v ->
        main (Args.make forum (Some command)) w
        = (SystemExit 1, emit ["Error: GraphQL errors: " ++ str v] (after_request rq w)))
  /\ (server w (sent w) rq = Raise RequestException ->
      main (Args.make forum (Some command)) w
      = (SystemExit 1,
         emit ["Error: " ++ exception_text RequestException] (after_request rq w))).
Proof.
  intros Hu Hf. split; [| split].
  - intros resp Ha Hs.
    rewrite (main_raises _ command w (HTTPError (status_code resp)) (after_request rq w));
      [reflexivity | reflexivity |].
    apply (dispatch_first_request _ _ _ url); [exact Hu | exact Hf |].
    unfold answers in Ha. rewrite Ha. cbn [bind]. unfold handle_response.
    now rewrite (raise_for_status_error _ Hs).
  - intros resp d v Ha Hs Hb Hv.
    rewrite (main_raises _ command w (PyException ("GraphQL errors: " ++ str v))
               (after_request rq w));
      [reflexivity | reflexivity |].
    apply (dispatch_first_request _ _ _ url); [exact Hu | exact Hf |].
    unfold answers in Ha. rewrite Ha. cbn [bind]. now apply (handle_response_errors _ d).
  - intros Hs.
    rewrite (main_raises _ command w RequestException (after_request rq w));
      [reflexivity | reflexivity |].
    apply (dispatch_first_request _ _ _ url); [exact Hu | exact Hf |]. now rewrite Hs.
Qed.

(** The theorem at a forum that answers with status 500. *)
Lemma main_first_request_fails_witness :
  main (RT := Demo.runtime) (CL := DemoCli.cli)
    (Args.make "lw" (Some (Args.user_activity "alice" 7 false)))
    (Demo.world (Demo.failing 500 Demo.boom))
  = (SystemExit 1,
     emit ["HTTP Error: 500 Server Error: Internal Server Error for url: https://www.lesswrong.com/graphql"]
       (after_request
          (graphql_request "https://www.lesswrong.com/graphql" get_user_by_slug_query
             (Some [("slug", JStr "alice")]))
          (Demo.world (Demo.failing 500 Demo.boom)))).
Proof.
  apply (proj1 (main_first_request_fails (RT := Demo.runtime) (CL := DemoCli.cli) "lw"
                  (Args.user_activity "alice" 7 false)
                  (Demo.world (Demo.failing 500 Demo.boom))
                  "https://www.lesswrong.com/graphql" _ eq_refl eq_refl)
           {| status_code := 500; body := Some (JDict [("errors", Demo.boom)]) |}).
  - reflexivity.
  - cbn. lia.
Defined.

(** X24.  The four subcommands about a user ([user], [user-activity],
    [posts], [comments]) end the same way when the forum does not know the
    slug (its answer has no [user], or a [user] whose [result] is absent,
    [null] or empty): one line, [Error: User not found: <slug>], and exit
    status 1, in the world the one request left: nothing else was sent and
    the clock was not read. *)
Theorem main_user_not_found {RT : Runtime} {CL : Cli} forum command slug w d w1 :
  user_slug command = Some slug ->
  graphql_query get_user_by_slug_query (Some [("slug", JStr slug)]) forum w
  = (Ok (JDict d), w1) ->
  (Py.lookup "user" d = None
   \/ exists u, Py.lookup "user" d = Some (JDict u)
                /\ forall r, Py.lookup "result" u = Some r -> Py.truthy r = false) ->
  main (Args.make forum (Some command)) w
  = (SystemExit 1, emit ["Error: User not found: " ++ slug] w1).
Proof.
  intros Hs Hq Hd.
  rewrite (main_raises _ command w (PyException ("User not found: " ++ slug)) w1);
    [reflexivity | reflexivity |].
  apply (dispatch_user_failure _ _ slug); [exact Hs |].
  now apply (get_user_by_slug_absent _ _ _ d).
Qed.

(** The theorem at a forum that knows no user, for the subcommand
    [posts]. *)
Lemma main_user_not_found_witness :
  main (RT := Demo.runtime) (CL := DemoCli.cli)
    (Args.make "lw" (Some (Args.posts "bob" 7 true))) (Demo.world DemoCli.nobody)
  = (SystemExit 1,
     emit ["Error: User not found: bob"]
       (after_request
          (graphql_request "https://www.lesswrong.com/graphql" get_user_by_slug_query
             (Some [("slug", JStr "bob")]))
          (Demo.world DemoCli.nobody))).
Proof.
  apply (main_user_not_found (RT := Demo.runtime) (CL := DemoCli.cli) "lw"
           (Args.posts "bob" 7 true) "bob" (Demo.world DemoCli.nobody)
           [("user", JDict [("result", JNull)])]).
  - reflexivity.
  - reflexivity.
  - right. exists [("result", JNull)]. split; [reflexivity |]. intros r [= <-]. reflexivity.
Defined.

(** X25.  The two subcommands about a topic ([topic], [topic-activity])
    end the same way when no tag of the page of 500 tags has the slug:
    one line, [Error: Tag/topic not found: <slug>], and exit status 1,
    after that one request and without reading the clock. *)
Theorem main_topic_not_found {RT : Runtime} {CL : Cli} forum command slug w tags w1 :
  topic_slug command = Some slug ->
  tags_page w forum get_tag_by_slug_query 500 tags w1 ->
  Forall (has_other_slug slug) tags ->
  main (Args.make forum (Some command)) w
  = (SystemExit 1, emit ["Error: Tag/topic not found: " ++ slug] w1).
Proof.
  intros Hs Hp Ho.
  rewrite (main_raises _ command w (PyException ("Tag/topic not found: " ++ slug)) w1);
    [reflexivity | reflexivity |].
  apply (dispatch_topic_failure _ _ slug); [exact Hs |].
  now rewrite (get_tag_by_slug_run _ _ _ _ _ Hp), (find_tag_none _ _ Ho).
Qed.

(** The theorem at the demo forum, which has no tag [economics]. *)
Lemma main_topic_not_found_witness :
  main (RT := Demo.runtime) (CL := DemoCli.cli)
    (Args.make "ea" (Some (Args.topic_activity "economics" 7 false))) (Demo.world Demo.forum)
  = (SystemExit 1,
     emit ["Error: Tag/topic not found: economics"]
       (after_request
          (graphql_request "https://forum.effectivealtruism.org/graphql" get_tag_by_slug_query
             (Some [("limit", JInt 500)]))
          (Demo.world Demo.forum))).
Proof.
  apply (main_topic_not_found (RT := Demo.runtime) (CL := DemoCli.cli) "ea"
           (Args.topic_activity "economics" 7 false) "economics" (Demo.world Demo.forum)
           Demo.tags).
  - reflexivity.
  - exact (demo_tags_page get_tag_by_slug_query 500 eq_refl eq_refl eq_refl eq_refl eq_refl).
  - other_slugs.
Defined.

(** X26.  Two invocations never touch the network or the clock, whatever
    [--forum] holds, a forum that does not exist included: [list-forums]
    prints the registry (each key with its aliases, then the name and the
    base address) and returns; no subcommand at all prints the help and
    exits with status 1. *)
Theorem main_offline {RT : Runtime} {CL : Cli} forum w :
  main (Args.make forum (Some Args.list_forums)) w = (Returned, emit forums_listing w)
  /\ main (Args.make forum None) w = (SystemExit 1, emit [help_text] w).
Proof.
  split; [| reflexivity].
  unfold main, dispatch, FORUMS, for_each, print_forum, forums_listing.
  cbn [Args.command Args.forum name base_url aliases].
  unfold bindIO, print, ret, emit, with_stdout. cbn.
  rewrite <- !app_assoc. reflexivity.
Qed.

Lemma Forall_take {A} (P : A -> Prop) n l : Forall P l -> Forall P (firstn n l).
Proof.
  intros Hl. revert n. induction Hl as [| x l Hx _ IH]; intros [| n]; cbn [firstn];
    try constructor; [exact Hx | apply IH].
Qed.

Section CommandLineListings.

Context {RT : Runtime} {CL : Cli}.

Lemma print_listed_comment_run c w :
  (exists title, listed_title c = Ok title) ->
  print_listed_comment c w = (Ok tt, emit (listed_comment_block c) w).
Proof.
  intros [title Ht]. unfold print_listed_comment, listed_comment_block.
  fold (listed_title c). rewrite Ht. cbn [value]. run_io.
  unfold listed_title in Ht. destruct c; try discriminate.
  cbn [Py.get]. run_io. rewrite print_run, emit_emit. reflexivity.
Qed.

Lemma for_each_print_listed_comment cs w :
  Forall (fun c => exists title, listed_title c = Ok title) cs ->
  for_each print_listed_comment cs w = (Ok tt, emit (flat_map listed_comment_block cs) w).
Proof.
  intros Hw. revert w. induction Hw as [| c cs Hc _ IH]; intros w; cbn [for_each flat_map].
  - unfold ret. now rewrite emit_nil.
  - rewrite (bindIO_ok _ _ _ _ _ (print_listed_comment_run c w Hc)), IH, emit_emit. reflexivity.
Qed.

Lemma print_found_topic_run t w :
  named t -> slugged t -> print_found_topic t w = (Ok tt, emit [found_topic_line t] w).
Proof.
  intros [n Hn] [s Hs]. unfold print_found_topic, found_topic_line. rewrite Hn, Hs.
  destruct (getitem_dict _ _ _ Hs) as [d ->]. cbn [Py.get value]. run_io. now rewrite print_run.
Qed.

Lemma for_each_print_found_topic ts w :
  Forall named ts -> Forall slugged ts ->
  for_each print_found_topic ts w = (Ok tt, emit (map found_topic_line ts) w).
Proof.
  intros Hn Hs. revert w. induction Hn as [| t ts Ht _ IH]; intros w; cbn [for_each map].
  - unfold ret. now rewrite emit_nil.
  - apply Forall_cons_iff in Hs as [Hs1 Hs2].
    rewrite (bindIO_ok _ _ _ _ _ (print_found_topic_run t w Ht Hs1)), (IH Hs2), emit_emit.
    reflexivity.
Qed.

End CommandLineListings.

(** X27.  The subcommand [comments], in text mode: once the user, the
    window and the comments of the window are fetched, and when each of
    the first 10 comments has a [post] that is absent or an object (a
    [post] that is [null] is not covered), it prints the heading with the
    number of all the comments, then two lines (the title of the post,
    [Unknown] without one, and the address) for each of the first 10
    comments only, with no line about the others, and returns. *)
Theorem main_comments_listing {RT : Runtime} {CL : Cli}
    forum slug days w user w1 since w2 user_id comments w3 :
  get_user_by_slug slug forum w = (Ok user, w1) ->
  window_start days w1 = (Ok since, w2) ->
  Py.getitem user "_id" = Ok user_id ->
  get_user_comments user_id (Some since) 100 forum w2 = (Ok (JList comments), w3) ->
  Forall (fun c => exists title, listed_title c = Ok title) (firstn 10 comments) ->
  main (Args.make forum (Some (Args.comments slug days false))) w
  = (Returned,
     emit (comments_heading slug days (List.length comments)
           :: flat_map listed_comment_block (firstn 10 comments)) w3)
  /\ List.length (flat_map listed_comment_block (firstn 10 comments))
     = 2 * Nat.min 10 (List.length comments).
Proof.
  intros Hu Hw Hi Hc Hl. split.
  - apply (main_returns _ (Args.comments slug days false)); [reflexivity |].
    cbn [Args.forum]. unfold dispatch.
    rewrite (bindIO_ok _ _ _ _ _ Hu), (bindIO_ok _ _ _ _ _ Hw), bindIO_lift, Hi.
    rewrite (bindIO_ok _ _ _ _ _ Hc). cbn [Py.len Py.slice_to Py.iter bind]. run_io.
    rewrite (for_each_print_listed_comment _ _ Hl), emit_emit. reflexivity.
  - rewrite (flat_map_length_2 listed_comment_block) by reflexivity. now rewrite length_firstn.
Qed.

(** The theorem at Alice, who wrote 15 comments: the heading counts 15,
    20 lines follow, the last one for the tenth comment. *)
Lemma main_comments_listing_witness :
  fst (main (RT := Demo.runtime) (CL := DemoCli.cli)
         (Args.make "lw" (Some (Args.comments "alice" 7 false))) (Demo.world Demo.forum))
  = Returned
  /\ comments_heading "alice" 7 (List.length Demo.comments)
     = "Comments by alice (last 7 days): 15"
  /\ List.length (flat_map (listed_comment_block (H := Demo.runtime)) (firstn 10 Demo.comments))
     = 20
  /\ nth 19 (flat_map (listed_comment_block (H := Demo.runtime)) (firstn 10 Demo.comments))
       EmptyString
     = "    https://www.lesswrong.com/c/10".
Proof.
  pose proof (main_comments_listing (RT := Demo.runtime) (CL := DemoCli.cli)
                "lw" "alice" 7 (Demo.world Demo.forum) Demo.alice
                (snd (get_user_by_slug (H := Demo.runtime) "alice" "lw" (Demo.world Demo.forum)))
                Demo.week_ago
                (snd (window_start 7
                        (snd (get_user_by_slug (H := Demo.runtime) "alice" "lw"
                                (Demo.world Demo.forum)))))
                (JStr "u1") Demo.comments
                (snd (get_user_comments (H := Demo.runtime) (JStr "u1") (Some Demo.week_ago)
                        100 "lw"
                        (snd (window_start 7
                                (snd (get_user_by_slug (H := Demo.runtime) "alice" "lw"
                                        (Demo.world Demo.forum)))))))
                ltac:(vm_compute; reflexivity) ltac:(vm_compute; reflexivity) eq_refl
                ltac:(vm_compute; reflexivity)
                ltac:(cbn [Demo.comments seq map firstn];
                      repeat (apply Forall_cons; [eexists; vm_compute; reflexivity |]);
                      apply Forall_nil)) as [E L].
  split; [now rewrite E |]. split; [vm_compute; reflexivity |].
  split; [exact L | vm_compute; reflexivity].
Defined.

(** X28.  The subcommand [posts --json] prints the very list that
    [fetch_user_activity] puts in [posts]: when [fetch_user_activity]
    returns a report [r] in some world, [main] with [posts --json], the
    same slug, days and forum, started in the same world, prints
    [json.dumps(r["posts"], indent=2)] and returns.  It stops one request
    and one clock reading earlier. *)
Theorem main_posts_json {RT : Runtime} {CL : Cli} forum slug days w r w' :
  fetch_user_activity slug days forum w = (Ok r, w') ->
  exists w2 rq,
    main (Args.make forum (Some (Args.posts slug days true))) w
    = (Returned, emit [json_dumps (UserActivity.posts r)] w2)
    /\ sent w' = (sent w2 ++ [rq])%list
    /\ reads w' = S (reads w2)
    /\ stdout w2 = stdout w.
Proof.
  intros E. unfold fetch_user_activity in E.
  apply bindIO_inv in E as (user & w1 & Eu & E).
  apply bindIO_inv in E as (since & w2 & Ew & E).
  apply bindIO_inv in E as (uid & w3 & Ei & E). apply lift_inv in Ei as [Ei ->].
  apply bindIO_inv in E as (posts & w4 & Ep & E).
  apply bindIO_inv in E as (uid' & w5 & Ei' & E). apply lift_inv in Ei' as [Ei' ->].
  apply bindIO_inv in E as (comments & w6 & Ec & E).
  apply bindIO_inv in E as (fetched & w7 & En & E).
  injection E as <- <-. unfold datetime_now in En. injection En as _ <-.
  cbn [UserActivity.posts].
  pose proof (get_user_by_slug_world _ _ _ _ _ Eu) as (url & Hu & Hw1).
  pose proof (get_user_by_slug_only_sent _ _ _ _ _ Eu) as (_ & _ & _ & _ & Ho1).
  pose proof (window_start_inv _ _ _ _ Ew) as [_ Hw2].
  pose proof (fetch_page_world _ _ _ "posts" _ _ _ _ url Hu Ep) as Hw4.
  pose proof (fetch_page_world _ _ _ "comments" _ _ _ _ url Hu Ec) as Hw6.
  exists w4, (graphql_request url get_user_comments_query
                (Some [("userId", uid'); ("limit", JInt 100)])).
  split; [| split; [| split]].
  - apply (main_returns _ (Args.posts slug days true)); [reflexivity |].
    cbn [Args.forum]. unfold dispatch.
    rewrite (bindIO_ok _ _ _ _ _ Eu), (bindIO_ok _ _ _ _ _ Ew), bindIO_lift, Ei.
    rewrite (bindIO_ok _ _ _ _ _ Ep). reflexivity.
  - rewrite Hw6. reflexivity.
  - rewrite Hw6. reflexivity.
  - rewrite Hw4, Hw2. cbn. exact Ho1.
Qed.

(** The theorem at Alice: [posts --json] prints her post of the window. *)
Lemma main_posts_json_witness :
  exists w2 rq,
    main (RT := Demo.runtime) (CL := DemoCli.cli)
      (Args.make "lesswrong" (Some (Args.posts "alice" 7 true))) (Demo.world Demo.forum)
    = (Returned, emit [DemoCli.dumps 0 (JList [Demo.new_post])] w2)
    /\ sent (snd (fetch_user_activity (H := Demo.runtime) "alice" 7 "lesswrong"
                    (Demo.world Demo.forum)))
       = (sent w2 ++ [rq])%list
    /\ reads (snd (fetch_user_activity (H := Demo.runtime) "alice" 7 "lesswrong"
                     (Demo.world Demo.forum)))
       = S (reads w2)
    /\ stdout w2 = [].
Proof.
  apply (main_posts_json (RT := Demo.runtime) (CL := DemoCli.cli) "lesswrong" "alice" 7
           (Demo.world Demo.forum) Demo.activity).
  vm_compute. reflexivity.
Defined.

(** X29.  The subcommand [search-topics], for a page of tags that have a
    name and a slug and a limit that is not negative: it prints the
    heading [Topics matching '<query>':] and one line for each of the
    first [limit] tags whose name contains the query, letter case apart,
    and returns; when nothing matches it prints the heading alone and
    still returns. *)
Theorem main_search_topics {RT : Runtime} {CL : Cli} forum query limit w tags w1 :
  tags_page w forum search_tags_query 200 tags w1 ->
  Forall named tags ->
  Forall slugged tags ->
  (0 <= limit)%Z ->
  let found := firstn (Z.to_nat limit) (filter (name_matches query) tags) in
  main (Args.make forum (Some (Args.search_topics query limit))) w
  = (Returned,
     emit (("Topics matching '" ++ query ++ "':") :: map found_topic_line found) w1)
  /\ (List.length found <= Z.to_nat limit)%nat.
Proof.
  intros Hp Hn Hs Hl found. split; [| apply firstn_le_length].
  apply (main_returns _ (Args.search_topics query limit)); [reflexivity |].
  cbn [Args.forum]. unfold dispatch.
  assert (Hr : search_tags query limit forum w = (Ok found, w1)).
  { rewrite (search_tags_run _ _ _ _ _ _ Hp), (matching_tags_filter _ _ Hn). cbn [bind].
    unfold Py.list_slice_to. now destruct (Z.leb_spec 0 limit); [| lia]. }
  rewrite (bindIO_ok _ _ _ _ _ Hr). run_io.
  rewrite for_each_print_found_topic, emit_emit; [reflexivity | |];
    now apply Forall_take, Forall_filter.
Qed.

(** The theorem at the demo forum and the query [SAFETY]: two topics. *)
Lemma main_search_topics_witness :
  main (RT := Demo.runtime) (CL := DemoCli.cli)
    (Args.make "ea" (Some (Args.search_topics "SAFETY" 10))) (Demo.world Demo.forum)
  = (Returned,
     emit [ "Topics matching 'SAFETY':";
            "  AI Safety (slug: ai-safety, posts: 120)";
            "  Safety Engineering (slug: Safety-Engineering, posts: 7)" ]
       (after_request
          (graphql_request "https://forum.effectivealtruism.org/graphql" search_tags_query
             (Some [("limit", JInt 200)]))
          (Demo.world Demo.forum))).
Proof.
  apply (proj1 (main_search_topics (RT := Demo.runtime) (CL := DemoCli.cli) "ea" "SAFETY" 10
                  (Demo.world Demo.forum) Demo.tags _
                  (demo_tags_page search_tags_query 200 eq_refl eq_refl eq_refl eq_refl eq_refl)
                  demo_tags_named
                  ltac:(repeat (apply Forall_cons; [eexists; reflexivity |]); apply Forall_nil)
                  ltac:(lia))).
Defined.
